(** * Time tracker: calendar oracle, hour limits, monthly statistics, projection

    A shallow embedding of the calculation core of
    [src/time_tracker/time_tracker.py]:
    [calculate_client_hours], [is_work_day], [get_work_days_in_month],
    [calculate_monthly_stats] and the chart loop of [show_dashboard];
    and of what the pages compute around it: the month selector, the
    hour-limit table, the monthly and the weekly breakdown of
    [show_dashboard], the grid and the two buttons of
    [show_calendar_manager], the forms of [show_time_entry],
    [show_client_management], [show_invoices] and [show_settings], and the
    projection of [show_scenario_planning].  Reading and writing the CSV
    files and drawing the pages are outside the model.

    Modelling conventions.
    - A pandas DataFrame is the list of its rows, in row order; [df.empty]
      is the test for the empty list.
    - Hours, rates, amounts and targets are exact rationals ([Q]) where a
      statement is about which rows enter a figure; results are compared
      with [==].  Where a statement compares two figures that the program
      reaches by different additions, the statistics and the chart loop
      are embedded once more over an arbitrary arithmetic (module
      [Numeric]) and evaluated in binary64, the arithmetic of the program,
      with the primitive floats of the Standard Library.
    - The [date] columns of time entries and invoices hold midnight
      timestamps: the entry forms store [pd.Timestamp(entry_date)] of a
      calendar date and the files hold [%Y-%m-%d] strings.  A timestamp is
      therefore modelled by its calendar date.
    - [datetime.now()] is an explicit argument ([today] / [now]).
    - Python exceptions are values of [exn] carried by the [result] monad. *)

From Stdlib Require Import PrimFloat.
From Stdlib Require Uint63.
From Stdlib Require Import ZArith QArith List String Ascii Bool Lia.
From Stdlib Require Import Permutation.
From Stdlib Require Import Setoid Morphisms FinFun.
Import ListNotations.

Local Open Scope Z_scope.

(* ================================================================== *)
(** ** Python runtime: exceptions, [range], [str.split], cell values   *)
(* ================================================================== *)

Module Py.

Inductive exn : Type :=
| ZeroDivisionError
| IllegalMonthError
| ValueError.

Inductive result (A : Type) : Type :=
| Ok (a : A)
| Raise (e : exn).
Arguments Ok {A} a.
Arguments Raise {A} e.

Definition bind {A B} (r : result A) (k : A -> result B) : result B :=
  match r with
  | Ok a => k a
  | Raise e => Raise e
  end.

(** [for x in xs: s = body x s], stopping at the first exception. *)
Fixpoint for_ {X S} (xs : list X) (body : X -> S -> result S) (s : S)
  : result S :=
  match xs with
  | [] => Ok s
  | x :: xs' => bind (body x s) (for_ xs' body)
  end.

(** [range(lo, hi)] *)
Definition range (lo hi : Z) : list Z :=
  map (fun i => lo + Z.of_nat i) (seq 0 (Z.to_nat (hi - lo))).

(** [s.split(sep)] for a one-character separator: never returns the
    empty list, [''.split(',')] is [['']]. *)
Fixpoint split (sep : ascii) (s : string) : list string :=
  match s with
  | EmptyString => [EmptyString]
  | String c s' =>
      if Ascii.eqb c sep then EmptyString :: split sep s'
      else match split sep s' with
           | [] => [String c EmptyString]
           | w :: ws => String c w :: ws
           end
  end.

(** [x in xs] for a list of strings. *)
Definition str_in (x : string) (xs : list string) : bool :=
  existsb (String.eqb x) xs.

(** The value of an optional text cell of a client row as pandas hands it
    over: Python [None] (a column created by [load_clients]), the float
    [NaN] that [read_csv] gives for an empty cell, or a string. *)
Inductive cell : Type :=
| CNone
| CNaN
| CStr (s : string).

(** [pd.isna(v)] *)
Definition isna (v : cell) : bool :=
  match v with
  | CNone | CNaN => true
  | CStr _ => false
  end.

(** [v == lit] for a string literal [lit] *)
Definition cell_eq_str (v : cell) (lit : string) : bool :=
  match v with
  | CStr s => String.eqb s lit
  | _ => false
  end.

(** Truth value of [v] in [if v:].  [None] and the empty string are
    false; [NaN] is a non-zero float and hence true. *)
Definition truthy (v : cell) : bool :=
  match v with
  | CNone => false
  | CNaN => true
  | CStr s => negb (String.eqb s EmptyString)
  end.

(** [a / b] on Python numbers *)
Definition div (a b : Q) : result Q :=
  if Qeq_bool b 0 then Raise ZeroDivisionError else Ok (a / b)%Q.

End Py.

Import Py.

Declare Scope py_scope.
Notation "x <- e ;; k" := (bind e (fun x => k))
  (at level 61, e at next level, right associativity) : py_scope.
Local Open Scope py_scope.

(* ================================================================== *)
(** ** The [calendar] and [datetime] library functions the code calls  *)
(* ================================================================== *)

Module Calendar.

Record date : Type := mkdate { year : Z; month : Z; day : Z }.

Definition date_eqb (a b : date) : bool :=
  (year a =? year b) && (month a =? month b) && (day a =? day b).

(** Dates compare as the tuples (year, month, day). *)
Definition date_leb (a b : date) : bool :=
  (year a <? year b)
  || ((year a =? year b)
      && ((month a <? month b)
          || ((month a =? month b) && (day a <=? day b)))).

Definition date_in (d : date) (ds : list date) : bool :=
  existsb (date_eqb d) ds.

(** [calendar.isleap] *)
Definition isleap (y : Z) : bool :=
  (y mod 4 =? 0) && (negb (y mod 100 =? 0) || (y mod 400 =? 0)).

(** [calendar.mdays] *)
Definition mdays : list Z := [0; 31; 28; 31; 30; 31; 30; 31; 31; 30; 31; 30; 31].

Definition days_in_month (y m : Z) : Z :=
  nth (Z.to_nat m) mdays 0 + (if (m =? 2) && isleap y then 1 else 0).

(** [datetime._days_before_year] *)
Definition days_before_year (y : Z) : Z :=
  let y1 := y - 1 in y1 * 365 + y1 / 4 - y1 / 100 + y1 / 400.

(** [datetime._DAYS_BEFORE_MONTH] *)
Definition DAYS_BEFORE_MONTH : list Z :=
  [0; 0; 31; 59; 90; 120; 151; 181; 212; 243; 273; 304; 334].

(** [datetime._days_before_month] *)
Definition days_before_month (y m : Z) : Z :=
  nth (Z.to_nat m) DAYS_BEFORE_MONTH 0
  + (if (2 <? m) && isleap y then 1 else 0).

(** [date.toordinal] *)
Definition toordinal (d : date) : Z :=
  days_before_year (year d) + days_before_month (year d) (month d) + day d.

(** [date.weekday]: Monday is 0 *)
Definition weekday (d : date) : Z := (toordinal d + 6) mod 7.

(** [calendar.day_name] *)
Definition day_names : list string :=
  ["Monday"; "Tuesday"; "Wednesday"; "Thursday"; "Friday"; "Saturday";
   "Sunday"]%string.

Definition day_name (i : Z) : string :=
  nth (Z.to_nat i) day_names EmptyString.

Definition valid_year (y : Z) : bool := (1 <=? y) && (y <=? 9999).
Definition valid_month (m : Z) : bool := (1 <=? m) && (m <=? 12).

(** [datetime(y, m, d)]: the constructor rejects what is not a date. *)
Definition datetime (y m d : Z) : result date :=
  if valid_year y && valid_month m && (1 <=? d) && (d <=? days_in_month y m)
  then Ok (mkdate y m d)
  else Raise ValueError.

(** [calendar.monthrange(y, m)]: weekday of the first day and number of
    days.  Years outside the range of [datetime] are folded into the
    400-year cycle for the weekday. *)
Definition monthrange (y m : Z) : result (Z * Z) :=
  if valid_month m then
    let y' := if valid_year y then y else 2000 + y mod 400 in
    Ok (weekday (mkdate y' m 1), days_in_month y m)
  else Raise IllegalMonthError.

End Calendar.

Import Calendar.

(* ================================================================== *)
(** ** Records of the five tables                                      *)
(* ================================================================== *)

Record Client : Type := mkClient {
  client_name : string;
  hourly_rate : Q;
  billing_type : string;
  active : bool;
  has_hour_limit : bool;
  limit_type : cell;
  hour_limit : Q;
  contract_start_date : cell
}.

Record TimeEntry : Type := mkEntry {
  te_date : date;
  te_client_name : string;
  te_hours : Q;
  te_notes : string
}.

Record Invoice : Type := mkInvoice {
  inv_date : date;
  inv_client_name : string;
  inv_amount : Q;
  inv_type : string;
  inv_description : string
}.

Record Settings : Type := mkSettings {
  monthly_target : Q;
  work_days : string
}.

Record NonWorkDay : Type := mkNonWorkDay {
  nwd_date : date;
  nwd_reason : string
}.

(** [df.empty] *)
Definition empty {A} (df : list A) : bool :=
  match df with
  | [] => true
  | _ :: _ => false
  end.

(** [series.sum()] *)
Definition Qsum (xs : list Q) : Q := fold_right Qplus 0%Q xs.

(** [series.mean()]; only called on a series that is not empty. *)
Definition Qmean (xs : list Q) : Q :=
  (Qsum xs / inject_Z (Z.of_nat (List.length xs)))%Q.

(* ================================================================== *)
(** ** Calendar oracle                                                 *)
(* ================================================================== *)

Definition is_work_day (d : date) (work_days_list : list string)
  (non_work_days_df : list NonWorkDay) : bool :=
  if negb (str_in (day_name (weekday d)) work_days_list) then false
  else if negb (empty non_work_days_df)
          && date_in d (map nwd_date non_work_days_df) then false
  else true.

Definition get_work_days_in_month (y m : Z) (work_days_list : list string)
  (non_work_days_df : list NonWorkDay) : result Z :=
  mr <- monthrange y m ;;
  let days_in_month := snd mr in
  for_ (range 1 (days_in_month + 1))
       (fun day work_days_count =>
          d <- datetime y m day ;;
          Ok (if is_work_day d work_days_list non_work_days_df
              then work_days_count + 1 else work_days_count))
       0.

(* ================================================================== *)
(** ** Client hour-limit calculator                                    *)
(* ================================================================== *)

(** Outcome of [pd.to_datetime] on a scalar: a timestamp, the missing
    value [NaT], or an exception. *)
Inductive parsed : Type :=
| PDate (d : date)
| PNaT
| PError.

Section HourLimits.

(** The date parser of pandas on strings is a library function; the model
    is parametric in it. *)
Variable to_datetime_str : string -> parsed.

(** [pd.to_datetime(v)] on a cell.  [NaN] converts to [NaT].  For [None]
    pandas returns [None], and the comparison of the date column with it
    fails, which the caller's [except] treats like a parse failure. *)
Definition to_datetime (v : cell) : parsed :=
  match v with
  | CNone => PError
  | CNaN => PNaT
  | CStr s => to_datetime_str s
  end.

(** [date >= start_date] for a parsed timestamp; against [NaT] every
    comparison is false, which the [PNaT] case below writes out. *)
Definition ge_parsed_date (d start : date) : bool := date_leb start d.

(** Lines 139-147, and again (the same text) lines 163-171: the hours of
    [client_entries] dated within the month, the current month when
    [year] or [month] is [None]. *)
Definition month_hours (now : date) (client_entries : list TimeEntry)
  (year month : option Z) : result Q :=
  let ym := match year, month with
            | Some y, Some m => (y, m)
            | _, _ => (Calendar.year now, Calendar.month now)
            end in
  let year := fst ym in
  let month := snd ym in
  month_start <- datetime year month 1 ;;
  mr <- monthrange year month ;;
  month_end <- datetime year month (snd mr) ;;
  let month_entries :=
    filter (fun e => date_leb month_start (te_date e)
                     && date_leb (te_date e) month_end) client_entries in
  Ok (Qsum (map te_hours month_entries)).

Definition calculate_client_hours (now : date) (client_name : string)
  (time_entries_df : list TimeEntry) (limit_type : cell)
  (contract_start_date : cell) (year month : option Z) : result Q :=
  if empty time_entries_df then Ok 0%Q else
  let client_entries :=
    filter (fun e => String.eqb (te_client_name e) client_name)
           time_entries_df in
  if empty client_entries then Ok 0%Q else
  let limit_type :=
    if isna limit_type || cell_eq_str limit_type "None"
       || cell_eq_str limit_type ""
    then CStr "Monthly" else limit_type in
  if cell_eq_str limit_type "Monthly" then
    month_hours now client_entries year month
  else if cell_eq_str limit_type "Contract Total" then
    if truthy contract_start_date then
      match to_datetime contract_start_date with
      | PDate start_date =>
          let contract_entries :=
            filter (fun e => ge_parsed_date (te_date e) start_date)
                   client_entries in
          Ok (Qsum (map te_hours contract_entries))
      | PNaT =>
          let contract_entries := filter (fun _ => false) client_entries in
          Ok (Qsum (map te_hours contract_entries))
      | PError => Ok (Qsum (map te_hours client_entries))
      end
    else Ok (Qsum (map te_hours client_entries))
  else month_hours now client_entries year month.

End HourLimits.

(* ================================================================== *)
(** ** Monthly statistics                                              *)
(* ================================================================== *)

Record Stats : Type := mkStats {
  total_income : Q;
  hourly_income : Q;
  retainer_income : Q;
  st_monthly_target : Q;
  target_so_far : Q;
  daily_target : Q;
  daily_hours_target : Q;
  total_work_days : Z;
  days_worked : Z;
  total_hours : Q;
  avg_hourly_rate : Q
}.

Definition Qlt_bool (a b : Q) : bool := negb (Qle_bool b a).

(** [clients_df[clients_df['billing_type'] == 'Hourly']] *)
Definition hourly_clients_of (clients_df : list Client) : list Client :=
  filter (fun c => String.eqb (billing_type c) "Hourly") clients_df.

(** [entries.merge(hourly_clients[['client_name', 'hourly_rate']],
    on='client_name', how='inner')]: one row per pair of an entry and a
    client row of the same name, the entry with the rate of that row. *)
Definition merge (entries : list TimeEntry) (hourly_clients : list Client)
  : list (TimeEntry * Q) :=
  flat_map (fun e =>
              map (fun c => (e, hourly_rate c))
                  (filter (fun c => String.eqb (client_name c)
                                               (te_client_name e))
                          hourly_clients))
           entries.

(** [(merged['hours'] * merged['hourly_rate']).sum()] *)
Definition merged_income (merged : list (TimeEntry * Q)) : Q :=
  Qsum (map (fun r => te_hours (fst r) * snd r)%Q merged).

(** [merged['hours'].sum()] *)
Definition merged_hours (merged : list (TimeEntry * Q)) : Q :=
  Qsum (map (fun r => te_hours (fst r)) merged).

(** Lines 212-220: income and hours of the hourly clients. *)
Definition hourly_totals (clients_df : list Client)
  (monthly_entries : list TimeEntry) : Q * Q :=
  if negb (empty monthly_entries) && negb (empty clients_df) then
    let hourly_clients := hourly_clients_of clients_df in
    if negb (empty hourly_clients) then
      let merged := merge monthly_entries hourly_clients in
      if negb (empty merged)
      then (merged_income merged, merged_hours merged)
      else (0%Q, 0%Q)
    else (0%Q, 0%Q)
  else (0%Q, 0%Q).

(** Lines 223-225: retainer and flat-fee income. *)
Definition retainer_total_of (monthly_invoices : list Invoice) : Q :=
  if negb (empty monthly_invoices)
  then Qsum (map inv_amount monthly_invoices) else 0%Q.

(** Lines 244-248: average rate of the hourly clients. *)
Definition avg_hourly_rate_of (clients_df : list Client) : Q :=
  if negb (empty clients_df) then
    let hourly_clients := hourly_clients_of clients_df in
    if negb (empty hourly_clients)
    then Qmean (map hourly_rate hourly_clients) else 0%Q
  else 0%Q.

Definition calculate_monthly_stats (today : date) (year month : Z)
  (clients_df : list Client) (time_entries_df : list TimeEntry)
  (invoices_df : list Invoice) (settings : Settings)
  (non_work_days_df : list NonWorkDay) : result Stats :=
  month_start <- datetime year month 1 ;;
  mr <- monthrange year month ;;
  month_end <- datetime year month (snd mr) ;;
  let monthly_entries :=
    if negb (empty time_entries_df)
    then filter (fun e => date_leb month_start (te_date e)
                          && date_leb (te_date e) month_end) time_entries_df
    else [] in
  let monthly_invoices :=
    if negb (empty invoices_df)
    then filter (fun i => date_leb month_start (inv_date i)
                          && date_leb (inv_date i) month_end) invoices_df
    else [] in
  let hourly := hourly_totals clients_df monthly_entries in
  let hourly_total := fst hourly in
  let total_hours := snd hourly in
  let retainer_total := retainer_total_of monthly_invoices in
  let total_income := (hourly_total + retainer_total)%Q in
  let work_days_list := split "," (work_days settings) in
  total_work_days <-
    get_work_days_in_month year month work_days_list non_work_days_df ;;
  mr' <- monthrange year month ;;
  days_worked <-
    for_ (range 1 (Z.min (day today + 1) (snd mr' + 1)))
         (fun day days_worked =>
            d <- datetime year month day ;;
            Ok (if is_work_day d work_days_list non_work_days_df
                   && date_leb d today
                then days_worked + 1 else days_worked))
         0 ;;
  daily_target <-
    (if 0 <? total_work_days
     then div (monthly_target settings) (inject_Z total_work_days)
     else Ok 0%Q) ;;
  let target_so_far := (daily_target * inject_Z days_worked)%Q in
  let avg_hourly_rate := avg_hourly_rate_of clients_df in
  daily_hours_target <-
    (if Qlt_bool 0 avg_hourly_rate
     then div daily_target avg_hourly_rate else Ok 0%Q) ;;
  Ok {| total_income := total_income;
        hourly_income := hourly_total;
        retainer_income := retainer_total;
        st_monthly_target := monthly_target settings;
        target_so_far := target_so_far;
        daily_target := daily_target;
        daily_hours_target := daily_hours_target;
        total_work_days := total_work_days;
        days_worked := days_worked;
        total_hours := total_hours;
        avg_hourly_rate := avg_hourly_rate |}.

(* ================================================================== *)
(** ** Cumulative projection: the chart loop of [show_dashboard]       *)
(* ================================================================== *)

(** The variables the loop of lines 308-340 updates.  The loop is written
    here over [Q]; the statements that compare the last values of its
    series with the figures of the statistics are made on the module
    [Numeric] below, where the additions are those of the program. *)
Record Chart : Type := mkChart {
  dates : list date;
  targets : list Q;
  actuals : list Q;
  cumulative_actual : Q;
  cumulative_target : Q
}.

Definition chart_init : Chart :=
  {| dates := []; targets := []; actuals := [];
     cumulative_actual := 0; cumulative_target := 0 |}.

(** Lines 318-319: the running target after the day [d]. *)
Definition next_target (daily_target : Q) (work_days_list : list string)
  (non_work_days_df : list NonWorkDay) (d : date) (cumulative_target : Q)
  : Q :=
  if is_work_day d work_days_list non_work_days_df
  then (cumulative_target + daily_target)%Q
  else cumulative_target.

(** Lines 324-332: the hourly income of the entries dated [d]. *)
Definition add_hourly_income (clients_df : list Client)
  (time_entries_df : list TimeEntry) (d : date) (cumulative_actual : Q)
  : Q :=
  if negb (empty time_entries_df) && negb (empty clients_df) then
    let daily_entries :=
      filter (fun e => date_eqb (te_date e) d) time_entries_df in
    if negb (empty daily_entries) then
      let hourly_clients := hourly_clients_of clients_df in
      if negb (empty hourly_clients) then
        let merged := merge daily_entries hourly_clients in
        if negb (empty merged)
        then (cumulative_actual + merged_income merged)%Q
        else cumulative_actual
      else cumulative_actual
    else cumulative_actual
  else cumulative_actual.

(** Lines 335-338: the amounts of the invoices dated [d]. *)
Definition add_invoice_income (invoices_df : list Invoice) (d : date)
  (cumulative_actual : Q) : Q :=
  if negb (empty invoices_df) then
    let daily_invoices :=
      filter (fun i => date_eqb (inv_date i) d) invoices_df in
    if negb (empty daily_invoices)
    then (cumulative_actual + Qsum (map inv_amount daily_invoices))%Q
    else cumulative_actual
  else cumulative_actual.

(** The running actual income after the day [d]. *)
Definition next_actual (clients_df : list Client)
  (time_entries_df : list TimeEntry) (invoices_df : list Invoice)
  (d : date) (cumulative_actual : Q) : Q :=
  add_invoice_income invoices_df d
    (add_hourly_income clients_df time_entries_df d cumulative_actual).

(** One iteration of the loop, for the date [d] of the iteration. *)
Definition chart_step (stats : Stats) (clients_df : list Client)
  (time_entries_df : list TimeEntry) (invoices_df : list Invoice)
  (work_days_list : list string) (non_work_days_df : list NonWorkDay)
  (d : date) (c : Chart) : Chart :=
  let cumulative_target :=
    next_target (daily_target stats) work_days_list non_work_days_df d
      (cumulative_target c) in
  let cumulative_actual :=
    next_actual clients_df time_entries_df invoices_df d
      (cumulative_actual c) in
  {| dates := dates c ++ [d];
     targets := targets c ++ [cumulative_target];
     actuals := actuals c ++ [cumulative_actual];
     cumulative_actual := cumulative_actual;
     cumulative_target := cumulative_target |}.

(** The statistics and the three series of the chart that
    [show_dashboard] draws for the selected month. *)
Definition show_dashboard (today : date) (selected_year selected_month : Z)
  (clients_df : list Client) (time_entries_df : list TimeEntry)
  (invoices_df : list Invoice) (settings : Settings)
  (non_work_days_df : list NonWorkDay) : result (Stats * Chart) :=
  stats <- calculate_monthly_stats today selected_year selected_month
             clients_df time_entries_df invoices_df settings
             non_work_days_df ;;
  let work_days_list := split "," (work_days settings) in
  mr <- monthrange selected_year selected_month ;;
  chart <-
    for_ (range 1 (snd mr + 1))
         (fun day c =>
            d <- datetime selected_year selected_month day ;;
            Ok (chart_step stats clients_df time_entries_df invoices_df
                  work_days_list non_work_days_df d c))
         chart_init ;;
  Ok (stats, chart).

(* ================================================================== *)
(** ** Hour-limit table of [show_dashboard] (lines 384-428)            *)
(* ================================================================== *)

Inductive Status : Type :=
| Critical
| Warning
| Good.

(** Line 402: [(hours_used / hour_limit * 100) if hour_limit > 0 else 0].
    The quotient is exact here and rounded in the program, so a value
    next to 75 or 90 can fall on the other side there: the statements
    about the table take the percentage as this function returns it and
    place no threshold on the hours. *)
Definition percentage_used (hours_used hour_limit : Q) : result Q :=
  if Qlt_bool 0 hour_limit
  then q <- div hours_used hour_limit ;; Ok (q * 100)%Q
  else Ok 0%Q.

(** Lines 405-410: the status of a percentage. *)
Definition status_of (percentage : Q) : Status :=
  if Qle_bool 90 percentage then Critical
  else if Qle_bool 75 percentage then Warning
  else Good.

(** One row of [limit_data], with the numbers before they are formatted. *)
Record LimitRow : Type := mkLimitRow {
  lr_client : string;
  lr_limit_type : cell;
  lr_total_limit : Q;
  lr_hours_used : Q;
  lr_hours_remaining : Q;
  lr_usage : Q;
  lr_status : Status
}.

Section LimitTable.

Variable to_datetime_str : string -> parsed.

(** Lines 392-420: the row of one client.  [hours_remaining] is the one
    subtraction of line 401; adding the hours used back need not give the
    limit again in binary64, and no statement says so. *)
Definition limit_row (now : date) (selected_year selected_month : Z)
  (time_entries_df : list TimeEntry) (client : Client) : result LimitRow :=
  hours_used <-
    calculate_client_hours to_datetime_str now (client_name client)
      time_entries_df (limit_type client) (contract_start_date client)
      (Some selected_year) (Some selected_month) ;;
  let hours_remaining := (hour_limit client - hours_used)%Q in
  percentage <- percentage_used hours_used (hour_limit client) ;;
  Ok {| lr_client := client_name client;
        lr_limit_type := limit_type client;
        lr_total_limit := hour_limit client;
        lr_hours_used := hours_used;
        lr_hours_remaining := hours_remaining;
        lr_usage := percentage;
        lr_status := status_of percentage |}.

(** Lines 384-428: the rows of the table; no row when there is no client
    or no active client with an hour limit. *)
Definition limit_table (now : date) (selected_year selected_month : Z)
  (clients_df : list Client) (time_entries_df : list TimeEntry)
  : result (list LimitRow) :=
  if negb (empty clients_df) then
    let clients_with_limits :=
      filter (fun c => has_hour_limit c && active c) clients_df in
    if negb (empty clients_with_limits) then
      for_ clients_with_limits
           (fun client limit_data =>
              row <- limit_row now selected_year selected_month
                       time_entries_df client ;;
              Ok (limit_data ++ [row]))
           []
    else Ok []
  else Ok [].

(** Lines 800-817 of [show_time_entry]: the hours the client would have
    after the entry, and whether the warning is shown.  [None] when the
    client has no hour limit. *)
Definition limit_warning (now : date) (time_entries_df : list TimeEntry)
  (client_info : Client) (hours : Q) : result (option (Q * bool)) :=
  if has_hour_limit client_info then
    current_hours <-
      calculate_client_hours to_datetime_str now (client_name client_info)
        time_entries_df (limit_type client_info)
        (contract_start_date client_info)
        (Some (Calendar.year now)) (Some (Calendar.month now)) ;;
    let hours_after := (current_hours + hours)%Q in
    Ok (Some (hours_after, Qlt_bool (hour_limit client_info) hours_after))
  else Ok None.

End LimitTable.

(** Lines 821-828: the entry table after the form is submitted. *)
Definition add_time_entry (time_entries_df : list TimeEntry)
  (entry_date : date) (client : string) (hours : Q) (notes : string)
  : list TimeEntry :=
  time_entries_df
  ++ [{| te_date := entry_date; te_client_name := client;
         te_hours := hours; te_notes := notes |}].

(* ================================================================== *)
(** ** Calendar page (lines 660-742)                                   *)
(* ================================================================== *)

(** How a cell of the month grid is drawn. *)
Inductive CellKind : Type :=
| CellBlank
| CellNonWork (day : Z)
| CellHoliday (day : Z)
| CellWorkDay (day : Z).

(** Lines 663-720: the cell of one entry of a week of the grid; 0 stands
    for a day outside the month. *)
Definition calendar_cell (selected_year selected_month : Z)
  (work_days_list : list string) (non_work_days_df : list NonWorkDay)
  (day : Z) : result CellKind :=
  if day =? 0 then Ok CellBlank
  else
    d <- datetime selected_year selected_month day ;;
    let day_name := day_name (weekday d) in
    let is_regular_work_day := str_in day_name work_days_list in
    let is_marked_non_work :=
      if negb (empty non_work_days_df) then
        let day_record :=
          filter (fun r => date_eqb (nwd_date r) d) non_work_days_df in
        if negb (empty day_record) then true else false
      else false in
    Ok (if negb is_regular_work_day then CellNonWork day
        else if is_marked_non_work then CellHoliday day
        else CellWorkDay day).

(** Line 701: the click on a holiday removes every row of that date. *)
Definition unmark_non_work_day (non_work_days_df : list NonWorkDay)
  (d : date) : list NonWorkDay :=
  filter (fun r => negb (date_eqb (nwd_date r) d)) non_work_days_df.

(** Lines 735-739: saving the reason form appends a row. *)
Definition mark_non_work_day (non_work_days_df : list NonWorkDay)
  (d : date) (reason : string) : list NonWorkDay :=
  non_work_days_df ++ [{| nwd_date := d; nwd_reason := reason |}].

(** [calendar.Calendar(0).itermonthdays(y, m)]: the days of the month
    with zeros before the first day and after the last one, so that the
    weeks are whole. *)
Definition itermonthdays (y m : Z) : result (list Z) :=
  mr <- monthrange y m ;;
  let day1 := fst mr in
  let ndays := snd mr in
  let days_before := (day1 - 0) mod 7 in
  let days_after := (0 - day1 - ndays) mod 7 in
  Ok (repeat 0 (Z.to_nat days_before) ++ range 1 (ndays + 1)
      ++ repeat 0 (Z.to_nat days_after)).

(** [[days[i:i+7] for i in range(0, len(days), 7)]] *)
Fixpoint chunks7 (fuel : nat) (days : list Z) : list (list Z) :=
  match fuel with
  | O => []
  | S fuel' =>
      match days with
      | [] => []
      | _ :: _ => firstn 7 days :: chunks7 fuel' (skipn 7 days)
      end
  end.

(** [calendar.monthcalendar(y, m)] *)
Definition monthcalendar (y m : Z) : result (list (list Z)) :=
  days <- itermonthdays y m ;;
  Ok (chunks7 (List.length days) days).

(** Lines 607-720: the grid of the month, one list of cells per week. *)
Definition calendar_grid (selected_year selected_month : Z)
  (work_days_list : list string) (non_work_days_df : list NonWorkDay)
  : result (list (list CellKind)) :=
  cal <- monthcalendar selected_year selected_month ;;
  for_ cal
       (fun week grid =>
          cells <-
            for_ week
                 (fun day cells =>
                    c <- calendar_cell selected_year selected_month
                           work_days_list non_work_days_df day ;;
                    Ok (cells ++ [c]))
                 [] ;;
          Ok (grid ++ [cells]))
       [].

(* ================================================================== *)
(** ** Settings (lines 116-117, 1025-1044)                             *)
(* ================================================================== *)

(** [sep.join(l)] *)
Fixpoint join (sep : string) (l : list string) : string :=
  match l with
  | [] => EmptyString
  | [x] => x
  | x :: l' => (x ++ sep ++ join sep l')%string
  end.

(** The one row that [save_settings] writes. *)
Definition save_settings (monthly_target : Q) (work_days : list string)
  : Settings :=
  {| monthly_target := monthly_target; work_days := join "," work_days |}.

(** Lines 1038-1044: nothing is saved without a work day. *)
Definition show_settings_save (monthly_target : Q) (work_days : list string)
  : option Settings :=
  if negb (empty work_days) then Some (save_settings monthly_target work_days)
  else None.

(** [c] occurs in [s]. *)
Fixpoint has_char (c : ascii) (s : string) : bool :=
  match s with
  | EmptyString => false
  | String c' s' => Ascii.eqb c' c || has_char c s'
  end.

(* ================================================================== *)
(** ** Month selector of [show_dashboard] (lines 271-282)              *)
(* ================================================================== *)

(** [calendar.month_name] *)
Definition month_names : list string :=
  [""; "January"; "February"; "March"; "April"; "May"; "June"; "July";
   "August"; "September"; "October"; "November"; "December"]%string.

Definition month_order (current_month : Z) : list Z :=
  range current_month 13 ++ range 1 current_month.

Definition month_labels (current_month : Z) : list string :=
  map (fun m => nth (Z.to_nat m) month_names EmptyString)
      (month_order current_month).

(** [l.index(x)]: the first position of [x], [ValueError] without one. *)
Fixpoint list_index (x : string) (l : list string) : result nat :=
  match l with
  | [] => Raise ValueError
  | y :: l' =>
      if String.eqb y x then Ok O
      else i <- list_index x l' ;; Ok (S i)
  end.

(** Line 282: the month number of the selected label. *)
Definition selected_month_of (current_month : Z) (selected_month_label : string)
  : result Z :=
  i <- list_index selected_month_label (month_labels current_month) ;;
  Ok (nth i (month_order current_month) 0).

(* ================================================================== *)
(** ** Adding a client (lines 905-975)                                 *)
(* ================================================================== *)

(** The values of the form when it is submitted. *)
Record ClientForm : Type := mkClientForm {
  f_client_name : string;
  f_billing_type : string;
  f_hourly_rate_input : Q;
  f_has_hour_limit : bool;
  f_limit_type : string;
  f_hour_limit : Q;
  f_contract_start_date : date
}.

Inductive AddOutcome : Type :=
| Rejected (message : string)
| Saved (clients_df : list Client).

Section AddClient.

(** [d.strftime('%Y-%m-%d')] *)
Variable strftime : date -> string.

(** Lines 912-916: the rate of the form, 0 for a client that is not
    hourly. *)
Definition form_hourly_rate (f : ClientForm) : Q :=
  if String.eqb (f_billing_type f) "Hourly" then f_hourly_rate_input f
  else 0%Q.

(** Lines 948-975.  A [date] object is always true, so [not
    contract_start_date] is false. *)
Definition add_client (f : ClientForm) (clients_df : list Client)
  : AddOutcome :=
  let contract_start_date_given := true in
  if String.eqb (f_client_name f) "" then
    Rejected "Please enter a client name"
  else if str_in (f_client_name f) (map client_name clients_df) then
    Rejected ("Client '" ++ f_client_name f ++ "' already exists!")
  else if f_has_hour_limit f && Qle_bool (f_hour_limit f) 0 then
    Rejected "Please enter a valid hour limit greater than 0"
  else if f_has_hour_limit f && String.eqb (f_limit_type f) "Contract Total"
          && negb contract_start_date_given then
    Rejected "Please enter a contract start date for Contract Total limit type"
  else
    let final_start_date := strftime (f_contract_start_date f) in
    Saved (clients_df
           ++ [{| client_name := f_client_name f;
                  hourly_rate := form_hourly_rate f;
                  billing_type := f_billing_type f;
                  active := true;
                  has_hour_limit := f_has_hour_limit f;
                  limit_type := CStr (if f_has_hour_limit f
                                      then f_limit_type f else "None");
                  hour_limit := if f_has_hour_limit f
                                then f_hour_limit f else 0%Q;
                  contract_start_date := CStr final_start_date |}]).

End AddClient.

(* ================================================================== *)
(** ** Recording income (lines 1001-1015)                              *)
(* ================================================================== *)

(** The invoice table after the form is submitted; [None] is the error
    message for a missing client or an amount that is not positive. *)
Definition add_invoice (invoices_df : list Invoice) (invoice_date : date)
  (client_name : string) (amount : Q) (income_type description : string)
  : option (list Invoice) :=
  if negb (String.eqb client_name "") && Qlt_bool 0 amount then
    Some (invoices_df
          ++ [{| inv_date := invoice_date; inv_client_name := client_name;
                 inv_amount := amount; inv_type := income_type;
                 inv_description := description |}])
  else None.

(* ================================================================== *)
(** ** Scenario planning (lines 1046-1250)                             *)
(* ================================================================== *)

(** Line 1105: the recorded entries followed by the scenario entries; the
    recorded table itself when the scenario is empty. *)
Definition combined_entries (time_entries_df scenario_entries : list TimeEntry)
  : list TimeEntry :=
  if negb (empty scenario_entries)
  then time_entries_df ++ scenario_entries
  else time_entries_df.

(** What the page shows below the entry form. *)
Record ScenarioPage : Type := mkScenarioPage {
  sp_stats : Stats;
  sp_difference : Q;
  sp_limits : list LimitRow;
  sp_chart : Chart
}.

Section Scenario.

Variable to_datetime_str : string -> parsed.

(** [None] is the early return of line 1066, when no client is both
    active and hourly.  The limit table (lines 1127-1172) and the chart
    loop (lines 1186-1212) are those of the dashboard, run on the combined
    entries. *)
Definition show_scenario_planning (today : date)
  (selected_year selected_month : Z) (clients_df : list Client)
  (time_entries_df : list TimeEntry) (invoices_df : list Invoice)
  (settings : Settings) (non_work_days_df : list NonWorkDay)
  (scenario_entries : list TimeEntry) : result (option ScenarioPage) :=
  let active_hourly_clients :=
    map client_name
        (filter (fun c => active c && String.eqb (billing_type c) "Hourly")
                clients_df) in
  if empty active_hourly_clients then Ok None
  else
    let combined := combined_entries time_entries_df scenario_entries in
    stats <- calculate_monthly_stats today selected_year selected_month
               clients_df combined invoices_df settings non_work_days_df ;;
    let difference := (total_income stats - st_monthly_target stats)%Q in
    limits <- limit_table to_datetime_str today selected_year selected_month
                clients_df combined ;;
    let work_days_list := split "," (work_days settings) in
    mr <- monthrange selected_year selected_month ;;
    chart <-
      for_ (range 1 (snd mr + 1))
           (fun day c =>
              d <- datetime selected_year selected_month day ;;
              Ok (chart_step stats clients_df combined invoices_df
                    work_days_list non_work_days_df d c))
           chart_init ;;
    Ok (Some {| sp_stats := stats; sp_difference := difference;
                sp_limits := limits; sp_chart := chart |}).

End Scenario.

(* ================================================================== *)
(** ** Monthly breakdown by client (lines 430-493)                     *)
(* ================================================================== *)

(** Insertion into a list of strings in ascending order. *)
Fixpoint insert_sorted (x : string) (l : list string) : list string :=
  match l with
  | [] => [x]
  | y :: l' => if String.leb x y then x :: l else y :: insert_sorted x l'
  end.

(** [sorted(l)] *)
Definition sort_strings (l : list string) : list string :=
  fold_right insert_sorted [] l.

(** [rows.groupby(key)[val].sum().reset_index()]: one row per distinct
    key, the keys in ascending order, with the sum of the values of the
    rows of that key. *)
Definition groupby_sum {A} (key : A -> string) (val : A -> Q)
  (rows : list A) : list (string * Q) :=
  map (fun k =>
         (k, Qsum (map val (filter (fun a => String.eqb (key a) k) rows))))
      (sort_strings (nodup string_dec (map key rows))).

(** [groups.merge(hourly_clients[['client_name', 'hourly_rate']],
    on='client_name', how='inner')] *)
Definition merge_groups (groups : list (string * Q))
  (hourly_clients : list Client) : list ((string * Q) * Q) :=
  flat_map (fun g =>
              map (fun c => (g, hourly_rate c))
                  (filter (fun c => String.eqb (client_name c) (fst g))
                          hourly_clients))
           groups.

Record BreakdownRow : Type := mkBreakdownRow {
  br_client : string;
  br_billing_type : string;
  br_hours : Q;
  br_rate : Q;
  br_total_invoice : Q
}.

(** Lines 446-461: the rows of the hourly clients.  A row multiplies the
    summed hours of a name by a rate, where the statistics sum the
    products row by row (line 219): equal in [Q], equal only up to
    rounding in the program, and not compared below. *)
Definition hourly_breakdown_rows (clients_df : list Client)
  (monthly_entries : list TimeEntry) : list BreakdownRow :=
  if negb (empty monthly_entries) && negb (empty clients_df) then
    let hourly_clients := hourly_clients_of clients_df in
    if negb (empty hourly_clients) then
      let hourly_breakdown :=
        groupby_sum te_client_name te_hours monthly_entries in
      let hourly_breakdown := merge_groups hourly_breakdown hourly_clients in
      if negb (empty hourly_breakdown) then
        map (fun r =>
               {| br_client := fst (fst r);
                  br_billing_type := "Hourly";
                  br_hours := snd (fst r);
                  br_rate := snd r;
                  br_total_invoice := (snd (fst r) * snd r)%Q |})
            hourly_breakdown
      else []
    else []
  else [].

(** Lines 469-478: the rows of the invoices. *)
Definition retainer_breakdown_rows (monthly_invoices : list Invoice)
  : list BreakdownRow :=
  if negb (empty monthly_invoices) then
    map (fun g =>
           {| br_client := fst g;
              br_billing_type := "Retainer/Flat Fee";
              br_hours := 0;
              br_rate := 0;
              br_total_invoice := snd g |})
        (groupby_sum inv_client_name inv_amount monthly_invoices)
  else [].

(** Lines 434-478: [breakdown_data]. *)
Definition monthly_breakdown (selected_year selected_month : Z)
  (clients_df : list Client) (time_entries_df : list TimeEntry)
  (invoices_df : list Invoice) : result (list BreakdownRow) :=
  month_start <- datetime selected_year selected_month 1 ;;
  mr <- monthrange selected_year selected_month ;;
  month_end <- datetime selected_year selected_month (snd mr) ;;
  let monthly_entries :=
    if negb (empty time_entries_df)
    then filter (fun e => date_leb month_start (te_date e)
                          && date_leb (te_date e) month_end) time_entries_df
    else [] in
  let hourly_rows := hourly_breakdown_rows clients_df monthly_entries in
  let monthly_invoices :=
    if negb (empty invoices_df)
    then filter (fun i => date_leb month_start (inv_date i)
                          && date_leb (inv_date i) month_end) invoices_df
    else [] in
  Ok (hourly_rows ++ retainer_breakdown_rows monthly_invoices).

(** Lines 480-493: the total under the table; [None] stands for the
    message that there is no billable activity. *)
Definition total_invoice (breakdown_data : list BreakdownRow) : option Q :=
  if negb (empty breakdown_data)
  then Some (Qsum (map br_total_invoice breakdown_data))
  else None.

(* ================================================================== *)
(** ** Weekly breakdown by client (lines 495-578)                      *)
(* ================================================================== *)

(** The loops of this part add and subtract days.  A [datetime] at
    midnight is written here as the ordinal of its date
    ([date.toordinal]): adding [timedelta(days=n)] adds [n] to the ordinal
    and raises [OverflowError] outside the years 1..9999; comparisons and
    [weekday] are those of the ordinals.  The [while] loops take fuel. *)
Inductive outcome (A : Type) : Type :=
| Done (a : A)
| Raised (e : exn)
| OverflowError
| OutOfFuel.
Arguments Done {A} a.
Arguments Raised {A} e.
Arguments OverflowError {A}.
Arguments OutOfFuel {A}.

Definition obind {A B} (r : outcome A) (k : A -> outcome B) : outcome B :=
  match r with
  | Done a => k a
  | Raised e => Raised e
  | OverflowError => OverflowError
  | OutOfFuel => OutOfFuel
  end.

Definition of_result {A} (r : result A) : outcome A :=
  match r with
  | Ok a => Done a
  | Raise e => Raised e
  end.

Notation "x <~ e ;; k" := (obind e (fun x => k))
  (at level 61, e at next level, right associativity) : py_scope.

(** [date.max.toordinal()] *)
Definition MAXORDINAL : Z := 3652059.

(** [d + timedelta(days=n)] *)
Definition add_days (o n : Z) : outcome Z :=
  if (1 <=? o + n) && (o + n <=? MAXORDINAL) then Done (o + n)
  else OverflowError.

(** [d.weekday()] *)
Definition ord_weekday (o : Z) : Z := (o + 6) mod 7.

(** Lines 508-509: back to the Monday of the first week. *)
Fixpoint back_to_monday (fuel : nat) (current_date : Z) : outcome Z :=
  if negb (ord_weekday current_date =? 0) then
    match fuel with
    | O => OutOfFuel
    | S fuel' =>
        current_date' <~ add_days current_date (-1) ;;
        back_to_monday fuel' current_date'
    end
  else Done current_date.

(** Lines 512-517: the Mondays of the weeks that overlap the month. *)
Fixpoint collect_weeks (fuel : nat) (month_start month_end : Z)
  (current_date : Z) (all_weeks : list Z) : outcome (list Z) :=
  if current_date <=? month_end then
    match fuel with
    | O => OutOfFuel
    | S fuel' =>
        week_end <~ add_days current_date 6 ;;
        let all_weeks :=
          if (current_date <=? month_end) && (month_start <=? week_end)
          then all_weeks ++ [current_date] else all_weeks in
        current_date' <~ add_days current_date 7 ;;
        collect_weeks fuel' month_start month_end current_date' all_weeks
    end
  else Done all_weeks.

(** Lines 500-517: [all_weeks]. *)
Definition all_weeks_of (fuel : nat) (selected_year selected_month : Z)
  : outcome (list Z) :=
  month_start <~ of_result (datetime selected_year selected_month 1) ;;
  mr <~ of_result (monthrange selected_year selected_month) ;;
  month_end <~ of_result (datetime selected_year selected_month (snd mr)) ;;
  current_date <~ back_to_monday fuel (toordinal month_start) ;;
  collect_weeks fuel (toordinal month_start) (toordinal month_end)
    current_date [].

(** [ts.to_period('W').start_time]: the Monday of the week of [d]. *)
Definition week_start_of (d : date) : Z := toordinal d - weekday d.

(** [pivot_data]: hours per client name and week start.  Every key that
    is read was given the value 0 first (line 529). *)
Definition Pivot : Type := string -> Z -> Q.

(** [pivot_data[c][w] = v] *)
Definition pivot_set (p : Pivot) (c : string) (w : Z) (v : Q) : Pivot :=
  fun c' w' => if String.eqb c' c && (w' =? w) then v else p c' w'.

(** [series.unique()]: the distinct values in order of first appearance. *)
Fixpoint unique (l : list string) : list string :=
  match l with
  | [] => []
  | x :: l' => x :: filter (fun y => negb (String.eqb y x)) (unique l')
  end.

(** Lines 541-544: the weeks of one client. *)
Definition fill_client (all_weeks : list Z) (client_entries : list TimeEntry)
  (client_name : string) (p : Pivot) : Pivot :=
  fold_left (fun p' week_start =>
               let week_entries :=
                 filter (fun e => week_start_of (te_date e) =? week_start)
                        client_entries in
               if negb (empty week_entries)
               then pivot_set p' client_name week_start
                      (Qsum (map te_hours week_entries))
               else p')
            all_weeks p.

(** Lines 527-544: the pivot after it is filled. *)
Definition fill_pivot (active_clients : list string) (all_weeks : list Z)
  (monthly_entries : list TimeEntry) : Pivot :=
  let pivot_data : Pivot := fun _ _ => 0%Q in
  if negb (empty monthly_entries) then
    fold_left (fun p client_name =>
                 if str_in client_name active_clients then
                   let client_entries :=
                     filter (fun e => String.eqb (te_client_name e)
                                                 client_name)
                            monthly_entries in
                   fill_client all_weeks client_entries client_name p
                 else p)
              (unique (map te_client_name monthly_entries))
              pivot_data
  else pivot_data.

(** A row of the weekly table: a cell is [None] where the table shows a
    dash. *)
Record WeekRow : Type := mkWeekRow {
  wr_client : string;
  wr_cells : list (option Q);
  wr_total : Q
}.

(** Lines 561-572: the row of one client.  The total adds the sums of
    the weeks, where [calculate_client_hours] sums the month at once
    (line 147): equal in [Q], equal only up to rounding in the program,
    and not compared below. *)
Definition week_row (pivot_data : Pivot) (all_weeks : list Z)
  (client_name : string) : WeekRow :=
  {| wr_client := client_name;
     wr_cells :=
       map (fun week_start =>
              let hours := pivot_data client_name week_start in
              if Qlt_bool 0 hours then Some hours else None)
           all_weeks;
     wr_total :=
       fold_left (fun total_hours week_start =>
                    (total_hours + pivot_data client_name week_start)%Q)
                 all_weeks 0%Q |}.

(** Lines 495-578: the week starts and the rows of the table; [None]
    when there is no active client or no week. *)
Definition weekly_breakdown (fuel : nat) (selected_year selected_month : Z)
  (clients_df : list Client) (time_entries_df : list TimeEntry)
  : outcome (option (list Z * list WeekRow)) :=
  month_start <~ of_result (datetime selected_year selected_month 1) ;;
  mr <~ of_result (monthrange selected_year selected_month) ;;
  month_end <~ of_result (datetime selected_year selected_month (snd mr)) ;;
  let monthly_entries :=
    if negb (empty time_entries_df)
    then filter (fun e => date_leb month_start (te_date e)
                          && date_leb (te_date e) month_end) time_entries_df
    else [] in
  all_weeks <~ all_weeks_of fuel selected_year selected_month ;;
  let active_clients :=
    if negb (empty clients_df)
    then sort_strings (map client_name (filter active clients_df))
    else [] in
  if negb (empty active_clients) && negb (empty all_weeks) then
    let pivot_data := fill_pivot active_clients all_weeks monthly_entries in
    Done (Some (all_weeks,
                map (week_row pivot_data all_weeks) active_clients))
  else Done None.

(* ================================================================== *)
(** ** Vocabulary of the statements                                    *)
(* ================================================================== *)

Definition valid_ym (y m : Z) : Prop :=
  valid_year y = true /\ valid_month m = true.

(** The calendar days of a month, in ascending order. *)
Definition month_dates (y m : Z) : list date :=
  map (mkdate y m) (range 1 (days_in_month y m + 1)).

(** Number of elements of [l] that satisfy [p]. *)
Definition count {A} (p : A -> bool) (l : list A) : Z :=
  Z.of_nat (List.length (filter p l)).

(** The weekday name of [d] is one of [work_days_list]. *)
Definition weekday_in (work_days_list : list string) (d : date) : bool :=
  str_in (day_name (weekday d)) work_days_list.

(** [d] is one of the dates of the non-work-day table. *)
Definition marked_off (non_work_days_df : list NonWorkDay) (d : date) : bool :=
  date_in d (map nwd_date non_work_days_df).

(** [d] lies between the first and the last day of the month, inclusive. *)
Definition in_month_window (y m : Z) (d : date) : bool :=
  date_leb (mkdate y m 1) d && date_leb d (mkdate y m (days_in_month y m)).

(** The entries of [name], then those of them in the month. *)
Definition month_entries_of (name : string) (y m : Z)
  (es : list TimeEntry) : list TimeEntry :=
  filter (fun e => in_month_window y m (te_date e))
         (filter (fun e => String.eqb (te_client_name e) name) es).

(** The days [1 .. min(today.day, last day)] that the loop of lines
    235-238 visits. *)
Definition days_visited (today : date) (y m : Z) : list date :=
  map (mkdate y m) (range 1 (Z.min (day today + 1) (days_in_month y m + 1))).

(** The value of [calculate_monthly_stats] for a valid year and month,
    where no call can raise. *)
Definition monthly_stats_value (today : date) (y m : Z)
  (clients_df : list Client) (time_entries_df : list TimeEntry)
  (invoices_df : list Invoice) (settings : Settings)
  (non_work_days_df : list NonWorkDay) : Stats :=
  let hourly :=
    hourly_totals clients_df
      (filter (fun e => in_month_window y m (te_date e)) time_entries_df) in
  let retainer_total :=
    retainer_total_of
      (filter (fun i => in_month_window y m (inv_date i)) invoices_df) in
  let work_days_list := split "," (work_days settings) in
  let total_work_days :=
    count (fun d => is_work_day d work_days_list non_work_days_df)
          (month_dates y m) in
  let days_worked :=
    count (fun d => is_work_day d work_days_list non_work_days_df
                    && date_leb d today)
          (days_visited today y m) in
  let daily_target :=
    if 0 <? total_work_days
    then (monthly_target settings / inject_Z total_work_days)%Q else 0%Q in
  let avg_hourly_rate := avg_hourly_rate_of clients_df in
  {| total_income := (fst hourly + retainer_total)%Q;
     hourly_income := fst hourly;
     retainer_income := retainer_total;
     st_monthly_target := monthly_target settings;
     target_so_far := (daily_target * inject_Z days_worked)%Q;
     daily_target := daily_target;
     daily_hours_target :=
       if Qlt_bool 0 avg_hourly_rate
       then (daily_target / avg_hourly_rate)%Q else 0%Q;
     total_work_days := total_work_days;
     days_worked := days_worked;
     total_hours := snd hourly;
     avg_hourly_rate := avg_hourly_rate |}.

(** The roster rows of [clients_df] named [name]. *)
Definition rows_named (name : string) (clients_df : list Client)
  : list Client :=
  filter (fun c => String.eqb (client_name c) name) clients_df.

(** The successive states of a loop that updates [s] with [f a s] for
    each [a] of [l]. *)
Fixpoint scan {A S} (f : A -> S -> S) (s : S) (l : list A) : list S :=
  match l with
  | [] => []
  | a :: l' => let s' := f a s in s' :: scan f s' l'
  end.

(** What one entry yields in the join with the hourly clients [hc]. *)
Definition entry_income (hc : list Client) (e : TimeEntry) : Q :=
  merged_income
    (map (fun c => (e, hourly_rate c)) (rows_named (te_client_name e) hc)).

(** The chart variables after the iterations for the dates [ds]. *)
Definition chart_run (stats : Stats) (clients_df : list Client)
  (time_entries_df : list TimeEntry) (invoices_df : list Invoice)
  (work_days_list : list string) (non_work_days_df : list NonWorkDay)
  (ds : list date) (c : Chart) : Chart :=
  fold_left (fun c' d =>
               chart_step stats clients_df time_entries_df invoices_df
                 work_days_list non_work_days_df d c')
            ds c.

(** The Mondays from the one on or before the first day of the month,
    seven days apart, up to the last day of the month. *)
Definition month_weeks (y m : Z) : list Z :=
  let month_start := toordinal (mkdate y m 1) in
  let month_end := toordinal (mkdate y m (days_in_month y m)) in
  let first := month_start - ord_weekday month_start in
  map (fun i => first + 7 * Z.of_nat i)
      (seq 0 (Z.to_nat ((month_end - first + 7) / 7))).

(** The cell of a day of the month. *)
Definition day_cell (y m : Z) (work_days_list : list string)
  (non_work_days_df : list NonWorkDay) (day : Z) : CellKind :=
  if negb (weekday_in work_days_list (mkdate y m day)) then CellNonWork day
  else if marked_off non_work_days_df (mkdate y m day) then CellHoliday day
  else CellWorkDay day.

Definition is_blank (k : CellKind) : bool :=
  match k with
  | CellBlank => true
  | _ => false
  end.

Definition is_work_cell (k : CellKind) : bool :=
  match k with
  | CellWorkDay _ => true
  | _ => false
  end.

(* ================================================================== *)
(** ** Example data                                                    *)
(* ================================================================== *)

Definition mon_fri : list string :=
  ["Monday"; "Tuesday"; "Wednesday"; "Thursday"; "Friday"]%string.

Definition default_settings : Settings :=
  {| monthly_target := 8000;
     work_days := "Monday,Tuesday,Wednesday,Thursday,Friday" |}.

Definition acme : Client :=
  {| client_name := "Acme"; hourly_rate := 100; billing_type := "Hourly";
     active := true; has_hour_limit := false; limit_type := CStr "None";
     hour_limit := 0; contract_start_date := CNone |}.

Definition entry (y m d : Z) (who : string) (h : Q) : TimeEntry :=
  {| te_date := mkdate y m d; te_client_name := who; te_hours := h;
     te_notes := "" |}.

Definition acme_entries : list TimeEntry :=
  [entry 2024 3 1 "Acme" 5; entry 2024 3 15 "Acme" 3].

Definition no_work_days_settings : Settings :=
  {| monthly_target := 8000; work_days := "" |}.

Definition acme_twice : list Client :=
  [acme; {| client_name := "Acme"; hourly_rate := 120;
            billing_type := "Hourly"; active := false;
            has_hour_limit := false; limit_type := CStr "None";
            hour_limit := 0; contract_start_date := CNone |}].

Definition acme_limited : Client :=
  {| client_name := "Acme"; hourly_rate := 100; billing_type := "Hourly";
     active := true; has_hour_limit := true; limit_type := CStr "Monthly";
     hour_limit := 9; contract_start_date := CStr "2024-01-01" |}.

Definition initech : Client :=
  {| client_name := "Initech"; hourly_rate := 0;
     billing_type := "Retainer/Flat Fee"; active := true;
     has_hour_limit := false; limit_type := CStr "None"; hour_limit := 0;
     contract_start_date := CNone |}.

Definition globex_form : ClientForm :=
  {| f_client_name := "Globex"; f_billing_type := "Retainer/Flat Fee";
     f_hourly_rate_input := 100; f_has_hour_limit := false;
     f_limit_type := "Monthly"; f_hour_limit := 40;
     f_contract_start_date := mkdate 2024 3 20 |}.

(** What the table shows for one client. *)
Definition row_of (to_datetime_str : string -> parsed) (now : date)
  (y m : Z) (es : list TimeEntry) (c : Client) (row : LimitRow) : Prop :=
  lr_client row = client_name c
  /\ lr_total_limit row = hour_limit c
  /\ calculate_client_hours to_datetime_str now (client_name c) es
       (limit_type c) (contract_start_date c) (Some y) (Some m)
     = Ok (lr_hours_used row)
  /\ lr_hours_remaining row = (hour_limit c - lr_hours_used row)%Q
  /\ percentage_used (lr_hours_used row) (hour_limit c) = Ok (lr_usage row)
  /\ lr_status row = status_of (lr_usage row).

(* ================================================================== *)
(** ** The statistics and the chart loop over any arithmetic           *)
(* ================================================================== *)

(** The sections above count in exact rationals.  That settles which rows
    enter a figure, but not whether two figures that the program reaches
    by different additions are the same number: the program adds, in
    binary64, what a [Series.sum()] or a [+=] hands it, and the order of
    the additions shows in the last digits.  This module is the code of
    lines 196-265 and 306-340 once more, with the numbers and their
    operations taken from an [arithmetic]: [binary64] below is the
    arithmetic of the program, [exact] that of the rationals. *)
Module Numeric.

Record arithmetic : Type := mkArithmetic {
  num : Type;
  (** the [int] 0 the running totals start from *)
  zero : num;
  add : num -> num -> num;
  mul : num -> num -> num;
  (** [x / y]; the code divides only where it has tested [y > 0] *)
  quot : num -> num -> num;
  (** an [int] operand of [/] or [*] *)
  of_int : Z -> num;
  (** [x < y] *)
  ltb : num -> num -> bool;
  (** [series.sum()] *)
  sum : list num -> num
}.

Section Code.

Context {A : arithmetic}.

Record Client : Type := mkClient {
  client_name : string;
  hourly_rate : num A;
  billing_type : string;
  active : bool;
  has_hour_limit : bool;
  limit_type : cell;
  hour_limit : num A;
  contract_start_date : cell
}.

Record TimeEntry : Type := mkEntry {
  te_date : date;
  te_client_name : string;
  te_hours : num A;
  te_notes : string
}.

Record Invoice : Type := mkInvoice {
  inv_date : date;
  inv_client_name : string;
  inv_amount : num A;
  inv_type : string;
  inv_description : string
}.

Record Settings : Type := mkSettings {
  monthly_target : num A;
  work_days : string
}.

Record Stats : Type := mkStats {
  total_income : num A;
  hourly_income : num A;
  retainer_income : num A;
  st_monthly_target : num A;
  target_so_far : num A;
  daily_target : num A;
  daily_hours_target : num A;
  total_work_days : Z;
  days_worked : Z;
  total_hours : num A;
  avg_hourly_rate : num A
}.

(** [series.mean()]; only called on a series that is not empty. *)
Definition mean (xs : list (num A)) : num A :=
  quot A (sum A xs) (of_int A (Z.of_nat (List.length xs))).

(** [clients_df[clients_df['billing_type'] == 'Hourly']] *)
Definition hourly_clients_of (clients_df : list Client) : list Client :=
  filter (fun c => String.eqb (billing_type c) "Hourly") clients_df.

(** [entries.merge(hourly_clients[['client_name', 'hourly_rate']],
    on='client_name', how='inner')]: one row per pair of an entry and a
    client row of the same name, the entry with the rate of that row. *)
Definition merge (entries : list TimeEntry) (hourly_clients : list Client)
  : list (TimeEntry * num A) :=
  flat_map (fun e =>
              map (fun c => (e, hourly_rate c))
                  (filter (fun c => String.eqb (client_name c)
                                               (te_client_name e))
                          hourly_clients))
           entries.

(** [(merged['hours'] * merged['hourly_rate']).sum()] *)
Definition merged_income (merged : list (TimeEntry * num A)) : num A :=
  sum A (map (fun r => mul A (te_hours (fst r)) (snd r)) merged).

(** [merged['hours'].sum()] *)
Definition merged_hours (merged : list (TimeEntry * num A)) : num A :=
  sum A (map (fun r => te_hours (fst r)) merged).

(** Lines 212-220: income and hours of the hourly clients. *)
Definition hourly_totals (clients_df : list Client)
  (monthly_entries : list TimeEntry) : num A * num A :=
  if negb (empty monthly_entries) && negb (empty clients_df) then
    let hourly_clients := hourly_clients_of clients_df in
    if negb (empty hourly_clients) then
      let merged := merge monthly_entries hourly_clients in
      if negb (empty merged)
      then (merged_income merged, merged_hours merged)
      else (zero A, zero A)
    else (zero A, zero A)
  else (zero A, zero A).

(** Lines 223-225: retainer and flat-fee income. *)
Definition retainer_total_of (monthly_invoices : list Invoice) : num A :=
  if negb (empty monthly_invoices)
  then sum A (map inv_amount monthly_invoices) else zero A.

(** Lines 244-248: average rate of the hourly clients. *)
Definition avg_hourly_rate_of (clients_df : list Client) : num A :=
  if negb (empty clients_df) then
    let hourly_clients := hourly_clients_of clients_df in
    if negb (empty hourly_clients)
    then mean (map hourly_rate hourly_clients) else zero A
  else zero A.

Definition calculate_monthly_stats (today : date) (year month : Z)
  (clients_df : list Client) (time_entries_df : list TimeEntry)
  (invoices_df : list Invoice) (settings : Settings)
  (non_work_days_df : list NonWorkDay) : result Stats :=
  month_start <- datetime year month 1 ;;
  mr <- monthrange year month ;;
  month_end <- datetime year month (snd mr) ;;
  let monthly_entries :=
    if negb (empty time_entries_df)
    then filter (fun e => date_leb month_start (te_date e)
                          && date_leb (te_date e) month_end) time_entries_df
    else [] in
  let monthly_invoices :=
    if negb (empty invoices_df)
    then filter (fun i => date_leb month_start (inv_date i)
                          && date_leb (inv_date i) month_end) invoices_df
    else [] in
  let hourly := hourly_totals clients_df monthly_entries in
  let hourly_total := fst hourly in
  let total_hours := snd hourly in
  let retainer_total := retainer_total_of monthly_invoices in
  let total_income := add A hourly_total retainer_total in
  let work_days_list := split "," (work_days settings) in
  total_work_days <-
    get_work_days_in_month year month work_days_list non_work_days_df ;;
  mr' <- monthrange year month ;;
  days_worked <-
    for_ (range 1 (Z.min (day today + 1) (snd mr' + 1)))
         (fun day days_worked =>
            d <- datetime year month day ;;
            Ok (if is_work_day d work_days_list non_work_days_df
                   && date_leb d today
                then days_worked + 1 else days_worked))
         0 ;;
  let daily_target :=
    if 0 <? total_work_days
    then quot A (monthly_target settings) (of_int A total_work_days)
    else zero A in
  let target_so_far := mul A daily_target (of_int A days_worked) in
  let avg_hourly_rate := avg_hourly_rate_of clients_df in
  let daily_hours_target :=
    if ltb A (zero A) avg_hourly_rate
    then quot A daily_target avg_hourly_rate else zero A in
  Ok {| total_income := total_income;
        hourly_income := hourly_total;
        retainer_income := retainer_total;
        st_monthly_target := monthly_target settings;
        target_so_far := target_so_far;
        daily_target := daily_target;
        daily_hours_target := daily_hours_target;
        total_work_days := total_work_days;
        days_worked := days_worked;
        total_hours := total_hours;
        avg_hourly_rate := avg_hourly_rate |}.

(** The variables the loop of lines 308-340 updates. *)
Record Chart : Type := mkChart {
  dates : list date;
  targets : list (num A);
  actuals : list (num A);
  cumulative_actual : num A;
  cumulative_target : num A
}.

Definition chart_init : Chart :=
  {| dates := []; targets := []; actuals := [];
     cumulative_actual := zero A; cumulative_target := zero A |}.

(** Lines 318-319: the running target after the day [d]. *)
Definition next_target (daily_target : num A) (work_days_list : list string)
  (non_work_days_df : list NonWorkDay) (d : date)
  (cumulative_target : num A) : num A :=
  if is_work_day d work_days_list non_work_days_df
  then add A cumulative_target daily_target
  else cumulative_target.

(** Lines 324-332: the hourly income of the entries dated [d]. *)
Definition add_hourly_income (clients_df : list Client)
  (time_entries_df : list TimeEntry) (d : date) (cumulative_actual : num A)
  : num A :=
  if negb (empty time_entries_df) && negb (empty clients_df) then
    let daily_entries :=
      filter (fun e => date_eqb (te_date e) d) time_entries_df in
    if negb (empty daily_entries) then
      let hourly_clients := hourly_clients_of clients_df in
      if negb (empty hourly_clients) then
        let merged := merge daily_entries hourly_clients in
        if negb (empty merged)
        then add A cumulative_actual (merged_income merged)
        else cumulative_actual
      else cumulative_actual
    else cumulative_actual
  else cumulative_actual.

(** Lines 335-338: the amounts of the invoices dated [d]. *)
Definition add_invoice_income (invoices_df : list Invoice) (d : date)
  (cumulative_actual : num A) : num A :=
  if negb (empty invoices_df) then
    let daily_invoices :=
      filter (fun i => date_eqb (inv_date i) d) invoices_df in
    if negb (empty daily_invoices)
    then add A cumulative_actual (sum A (map inv_amount daily_invoices))
    else cumulative_actual
  else cumulative_actual.

(** The running actual income after the day [d]. *)
Definition next_actual (clients_df : list Client)
  (time_entries_df : list TimeEntry) (invoices_df : list Invoice)
  (d : date) (cumulative_actual : num A) : num A :=
  add_invoice_income invoices_df d
    (add_hourly_income clients_df time_entries_df d cumulative_actual).

(** One iteration of the loop, for the date [d] of the iteration. *)
Definition chart_step (stats : Stats) (clients_df : list Client)
  (time_entries_df : list TimeEntry) (invoices_df : list Invoice)
  (work_days_list : list string) (non_work_days_df : list NonWorkDay)
  (d : date) (c : Chart) : Chart :=
  let cumulative_target :=
    next_target (daily_target stats) work_days_list non_work_days_df d
      (cumulative_target c) in
  let cumulative_actual :=
    next_actual clients_df time_entries_df invoices_df d
      (cumulative_actual c) in
  {| dates := dates c ++ [d];
     targets := targets c ++ [cumulative_target];
     actuals := actuals c ++ [cumulative_actual];
     cumulative_actual := cumulative_actual;
     cumulative_target := cumulative_target |}.

(** The statistics and the three series of the chart that
    [show_dashboard] draws for the selected month. *)
Definition show_dashboard (today : date) (selected_year selected_month : Z)
  (clients_df : list Client) (time_entries_df : list TimeEntry)
  (invoices_df : list Invoice) (settings : Settings)
  (non_work_days_df : list NonWorkDay) : result (Stats * Chart) :=
  stats <- calculate_monthly_stats today selected_year selected_month
             clients_df time_entries_df invoices_df settings
             non_work_days_df ;;
  let work_days_list := split "," (work_days settings) in
  mr <- monthrange selected_year selected_month ;;
  chart <-
    for_ (range 1 (snd mr + 1))
         (fun day c =>
            d <- datetime selected_year selected_month day ;;
            Ok (chart_step stats clients_df time_entries_df invoices_df
                  work_days_list non_work_days_df d c))
         chart_init ;;
  Ok (stats, chart).

(** Vocabulary of the statements about this module. *)

(** What a total holds that is 0 unless its table has rows: the sum of
    the column. *)
Definition total_of (terms : list (num A)) : num A :=
  if empty terms then zero A else sum A terms.

(** [acc += terms.sum()] where the table has rows, [acc] where not. *)
Definition accumulate (acc : num A) (terms : list (num A)) : num A :=
  if empty terms then acc else add A acc (sum A terms).

(** [merged['hours'] * merged['hourly_rate']], row by row. *)
Definition income_terms (merged : list (TimeEntry * num A)) : list (num A) :=
  map (fun r => mul A (te_hours (fst r)) (snd r)) merged.

(** The entries dated in the month joined to the hourly clients, and
    those dated [d]. *)
Definition month_rows (y m : Z) (clients_df : list Client)
  (time_entries_df : list TimeEntry) : list (TimeEntry * num A) :=
  merge (filter (fun e => in_month_window y m (te_date e)) time_entries_df)
        (hourly_clients_of clients_df).

Definition day_rows (d : date) (clients_df : list Client)
  (time_entries_df : list TimeEntry) : list (TimeEntry * num A) :=
  merge (filter (fun e => date_eqb (te_date e) d) time_entries_df)
        (hourly_clients_of clients_df).

(** The invoices dated in the month, and those dated [d]. *)
Definition month_invoices (y m : Z) (invoices_df : list Invoice)
  : list Invoice :=
  filter (fun i => in_month_window y m (inv_date i)) invoices_df.

Definition day_invoices (d : date) (invoices_df : list Invoice)
  : list Invoice :=
  filter (fun i => date_eqb (inv_date i) d) invoices_df.

(** The value of [calculate_monthly_stats] for a valid year and month,
    where no call can raise. *)
Definition monthly_stats_value (today : date) (y m : Z)
  (clients_df : list Client) (time_entries_df : list TimeEntry)
  (invoices_df : list Invoice) (settings : Settings)
  (non_work_days_df : list NonWorkDay) : Stats :=
  let hourly :=
    hourly_totals clients_df
      (filter (fun e => in_month_window y m (te_date e)) time_entries_df) in
  let retainer_total := retainer_total_of (month_invoices y m invoices_df) in
  let work_days_list := split "," (work_days settings) in
  let total_work_days :=
    count (fun d => is_work_day d work_days_list non_work_days_df)
          (month_dates y m) in
  let days_worked :=
    count (fun d => is_work_day d work_days_list non_work_days_df
                    && date_leb d today)
          (days_visited today y m) in
  let daily_target :=
    if 0 <? total_work_days
    then quot A (monthly_target settings) (of_int A total_work_days)
    else zero A in
  let avg_hourly_rate := avg_hourly_rate_of clients_df in
  {| total_income := add A (fst hourly) retainer_total;
     hourly_income := fst hourly;
     retainer_income := retainer_total;
     st_monthly_target := monthly_target settings;
     target_so_far := mul A daily_target (of_int A days_worked);
     daily_target := daily_target;
     daily_hours_target :=
       if ltb A (zero A) avg_hourly_rate
       then quot A daily_target avg_hourly_rate else zero A;
     total_work_days := total_work_days;
     days_worked := days_worked;
     total_hours := snd hourly;
     avg_hourly_rate := avg_hourly_rate |}.

(** The chart variables after the iterations for the dates [ds]. *)
Definition chart_run (stats : Stats) (clients_df : list Client)
  (time_entries_df : list TimeEntry) (invoices_df : list Invoice)
  (work_days_list : list string) (non_work_days_df : list NonWorkDay)
  (ds : list date) (c : Chart) : Chart :=
  fold_left (fun c' d =>
               chart_step stats clients_df time_entries_df invoices_df
                 work_days_list non_work_days_df d c')
            ds c.

End Code.

Arguments Client A : clear implicits.
Arguments TimeEntry A : clear implicits.
Arguments Invoice A : clear implicits.
Arguments Settings A : clear implicits.
Arguments Stats A : clear implicits.
Arguments Chart A : clear implicits.

End Numeric.

(** Binary64, the arithmetic of the program: the operations are those of
    the machine.  An [int] operand becomes the float of the same value
    (the integers here are day counts).  A column of fewer than eight
    numbers is added from left to right, starting from 0; how numpy groups
    the additions of a longer column is left open: no statement below
    depends on [sum] beyond what its arithmetic is asked to satisfy. *)
Definition float_of_int (z : Z) : float :=
  if z <? 0 then PrimFloat.opp (PrimFloat.of_uint63 (Uint63.of_Z (- z)))
  else PrimFloat.of_uint63 (Uint63.of_Z z).

Definition binary64 : Numeric.arithmetic :=
  {| Numeric.num := float;
     Numeric.zero := 0%float;
     Numeric.add := PrimFloat.add;
     Numeric.mul := PrimFloat.mul;
     Numeric.quot := PrimFloat.div;
     Numeric.of_int := float_of_int;
     Numeric.ltb := PrimFloat.ltb;
     Numeric.sum := fun xs => fold_left PrimFloat.add xs 0%float |}.

(** The arithmetic of the rationals, compared with [==]. *)
Definition exact : Numeric.arithmetic :=
  {| Numeric.num := Q;
     Numeric.zero := 0%Q;
     Numeric.add := Qplus;
     Numeric.mul := Qmult;
     Numeric.quot := Qdiv;
     Numeric.of_int := inject_Z;
     Numeric.ltb := Qlt_bool;
     Numeric.sum := Qsum |}.

(** An arithmetic whose additions may be regrouped and reordered: [eqv]
    is its equality, addition is associative and commutative up to [eqv],
    0 is neutral, and the sum of a column is the sum of its elements. *)
Record exact_addition (A : Numeric.arithmetic)
  (eqv : Numeric.num A -> Numeric.num A -> Prop) : Prop := mkExactAddition {
  eqv_refl : forall x, eqv x x;
  eqv_sym : forall x y, eqv x y -> eqv y x;
  eqv_trans : forall x y z, eqv x y -> eqv y z -> eqv x z;
  add_eqv : forall x x' y y',
      eqv x x' -> eqv y y' ->
      eqv (Numeric.add A x y) (Numeric.add A x' y');
  add_comm : forall x y, eqv (Numeric.add A x y) (Numeric.add A y x);
  add_assoc : forall x y z,
      eqv (Numeric.add A (Numeric.add A x y) z)
          (Numeric.add A x (Numeric.add A y z));
  add_zero_l : forall x, eqv (Numeric.add A (Numeric.zero A) x) x;
  sum_nil : eqv (Numeric.sum A []) (Numeric.zero A);
  sum_cons : forall x l,
      eqv (Numeric.sum A (x :: l))
          (Numeric.add A x (Numeric.sum A l))
}.

(** An arithmetic in which, besides, a product by a count is a repeated
    addition. *)
Record exact_scaling (A : Numeric.arithmetic)
  (eqv : Numeric.num A -> Numeric.num A -> Prop) : Prop := mkExactScaling {
  scaling_addition : exact_addition A eqv;
  mul_of_int_zero : forall x,
      eqv (Numeric.mul A (Numeric.of_int A 0) x) (Numeric.zero A);
  mul_of_int_succ : forall n x,
      0 <= n ->
      eqv (Numeric.mul A (Numeric.of_int A (n + 1)) x)
          (Numeric.add A (Numeric.mul A (Numeric.of_int A n) x) x)
}.

(** An arithmetic with an order [leq] that adding what is not negative,
    and dividing it by a positive count, respect. *)
Record monotone_addition (A : Numeric.arithmetic)
  (leq : Numeric.num A -> Numeric.num A -> Prop) : Prop
  := mkMonotoneAddition {
  leq_refl : forall x, leq x x;
  leq_trans : forall x y z, leq x y -> leq y z -> leq x z;
  leq_add : forall t d,
      leq (Numeric.zero A) d -> leq t (Numeric.add A t d);
  leq_quot : forall x n,
      leq (Numeric.zero A) x -> 0 < n ->
      leq (Numeric.zero A) (Numeric.quot A x (Numeric.of_int A n))
}.

#[local] Set Warnings "-inexact-float".

(** Example data in binary64: one hourly client at rate 1 with a tenth of
    an hour on 1 March 2024 and four tenths on 2 March, one payment of a
    tenth on 1 March, and a monthly target of 8000. *)
Definition solo : Numeric.Client binary64 :=
  Numeric.mkClient (A := binary64) "Solo" 1%float "Hourly" true false
    (CStr "None") 0%float CNone.

Definition solo_entries : list (Numeric.TimeEntry binary64) :=
  [Numeric.mkEntry (A := binary64) (mkdate 2024 3 1) "Solo" 0.1%float "";
   Numeric.mkEntry (A := binary64) (mkdate 2024 3 2) "Solo" 0.4%float ""].

Definition solo_invoices : list (Numeric.Invoice binary64) :=
  [Numeric.mkInvoice (A := binary64) (mkdate 2024 3 1) "Solo" 0.1%float
     "Bonus" ""].

Definition settings_8000 : Numeric.Settings binary64 :=
  Numeric.mkSettings (A := binary64) 8000%float
    "Monday,Tuesday,Wednesday,Thursday,Friday".

(** The same data in exact arithmetic. *)
Definition exact_solo : Numeric.Client exact :=
  Numeric.mkClient (A := exact) "Solo" 1%Q "Hourly" true false
    (CStr "None") 0%Q CNone.

Definition exact_solo_entries : list (Numeric.TimeEntry exact) :=
  [Numeric.mkEntry (A := exact) (mkdate 2024 3 1) "Solo" (1 # 10)%Q "";
   Numeric.mkEntry (A := exact) (mkdate 2024 3 2) "Solo" (4 # 10)%Q ""].

Definition exact_solo_invoices : list (Numeric.Invoice exact) :=
  [Numeric.mkInvoice (A := exact) (mkdate 2024 3 1) "Solo" (1 # 10)%Q
     "Bonus" ""].

Definition exact_settings_8000 : Numeric.Settings exact :=
  Numeric.mkSettings (A := exact) 8000%Q
    "Monday,Tuesday,Wednesday,Thursday,Friday".

Example split_work_days :
  split "," "Monday,Tuesday,Wednesday,Thursday,Friday" = mon_fri.
Proof. reflexivity. Qed.

Example march_2024_starts_friday :
  day_name (weekday (mkdate 2024 3 1)) = "Friday"%string.
Proof. reflexivity. Qed.

Example march_2024_work_days :
  get_work_days_in_month 2024 3 mon_fri [] = Ok 21.
Proof. vm_compute. reflexivity. Qed.


(* ================================================================== *)
(** ** Basic facts: the monad, ranges, dates                           *)
(* ================================================================== *)

Lemma for_ok {X S} (f : X -> S -> S) (body : X -> S -> result S) :
  forall (xs : list X) (s : S),
    (forall x s', In x xs -> body x s' = Ok (f x s')) ->
    for_ xs body s = Ok (fold_left (fun s' x => f x s') xs s).
Proof.
  induction xs as [|x xs IH]; intros s Hbody; [reflexivity|].
  cbn [for_ fold_left]. rewrite Hbody by (left; reflexivity).
  cbn [bind]. apply IH. intros x' s' Hin. apply Hbody. right. exact Hin.
Qed.

Lemma range_In (lo hi d : Z) : In d (range lo hi) <-> lo <= d < hi.
Proof.
  unfold range. rewrite in_map_iff. split.
  - intros [i [Hd Hin]]. apply in_seq in Hin. lia.
  - intros Hd. exists (Z.to_nat (d - lo)). split; [lia|].
    apply in_seq. lia.
Qed.

Lemma range_length (lo hi : Z) :
  Z.of_nat (List.length (range lo hi)) = Z.max 0 (hi - lo).
Proof. unfold range. rewrite length_map, length_seq. lia. Qed.

Lemma range_NoDup (lo hi : Z) : NoDup (range lo hi).
Proof.
  unfold range. apply Injective_map_NoDup; [|apply seq_NoDup].
  intros a b Hab. lia.
Qed.

Lemma valid_month_cases (m : Z) :
  valid_month m = true ->
  m = 1 \/ m = 2 \/ m = 3 \/ m = 4 \/ m = 5 \/ m = 6 \/ m = 7 \/ m = 8
  \/ m = 9 \/ m = 10 \/ m = 11 \/ m = 12.
Proof. unfold valid_month. lia. Qed.

Lemma days_in_month_table (y m : Z) :
  valid_month m = true ->
  days_in_month y m =
    if m =? 2 then (if isleap y then 29 else 28)
    else if (m =? 4) || (m =? 6) || (m =? 9) || (m =? 11) then 30
    else 31.
Proof.
  intros Hm. apply valid_month_cases in Hm.
  repeat (destruct Hm as [Hm|Hm]); subst m; unfold days_in_month;
    cbn; destruct (isleap y); reflexivity.
Qed.

Lemma days_in_month_bounds (y m : Z) :
  valid_month m = true -> 28 <= days_in_month y m <= 31.
Proof.
  intros Hm. rewrite (days_in_month_table y m Hm).
  destruct (m =? 2); [destruct (isleap y); lia|].
  destruct ((m =? 4) || (m =? 6) || (m =? 9) || (m =? 11)); lia.
Qed.

Lemma monthrange_ok (y m : Z) :
  valid_month m = true ->
  exists w, monthrange y m = Ok (w, days_in_month y m).
Proof. intros Hm. unfold monthrange. rewrite Hm. eexists. reflexivity. Qed.

Lemma datetime_ok (y m d : Z) :
  valid_ym y m -> 1 <= d <= days_in_month y m ->
  datetime y m d = Ok (mkdate y m d).
Proof.
  intros [Hy Hm] Hd. unfold datetime. rewrite Hy, Hm.
  replace (1 <=? d) with true by lia.
  replace (d <=? days_in_month y m) with true by lia.
  reflexivity.
Qed.

Lemma date_eqb_eq (a b : date) : date_eqb a b = true <-> a = b.
Proof.
  destruct a as [ya ma da], b as [yb mb db]. unfold date_eqb. cbn.
  rewrite !andb_true_iff, !Z.eqb_eq. split.
  - intros [[-> ->] ->]. reflexivity.
  - intros H. inversion H. auto.
Qed.

Lemma date_eqb_refl (a : date) : date_eqb a a = true.
Proof. apply date_eqb_eq. reflexivity. Qed.

Lemma date_in_In (d : date) (ds : list date) :
  date_in d ds = true <-> In d ds.
Proof.
  unfold date_in. rewrite existsb_exists. split.
  - intros [x [Hin Heq]]. apply date_eqb_eq in Heq. subst. exact Hin.
  - intros Hin. exists d. split; [exact Hin|apply date_eqb_refl].
Qed.

Lemma str_in_In (x : string) (xs : list string) :
  str_in x xs = true <-> In x xs.
Proof.
  unfold str_in. rewrite existsb_exists. split.
  - intros [z [Hin Heq]]. apply String.eqb_eq in Heq. subst. exact Hin.
  - intros Hin. exists x. split; [exact Hin|apply String.eqb_refl].
Qed.

(** A date lies in the window of a month exactly when it is one of the
    days of that month. *)
Lemma in_month_window_iff (y m : Z) (d : date) :
  in_month_window y m d = true <->
  year d = y /\ month d = m /\ 1 <= day d <= days_in_month y m.
Proof.
  destruct d as [yd md dd]. unfold in_month_window, date_leb. cbn.
  rewrite andb_true_iff, !orb_true_iff, !andb_true_iff, !orb_true_iff,
    !andb_true_iff, !Z.ltb_lt, !Z.eqb_eq, !Z.leb_le.
  lia.
Qed.

Lemma month_dates_In (y m : Z) (d : date) :
  In d (month_dates y m) <->
  year d = y /\ month d = m /\ 1 <= day d <= days_in_month y m.
Proof.
  unfold month_dates. rewrite in_map_iff. split.
  - intros [k [<- Hk]]. apply range_In in Hk. cbn. lia.
  - intros [Hy [Hm Hd]]. exists (day d). split.
    + destruct d; cbn in *; subst; reflexivity.
    + apply range_In. lia.
Qed.

Lemma in_month_window_dates (y m : Z) (d : date) :
  in_month_window y m d = date_in d (month_dates y m).
Proof.
  apply eq_true_iff_eq.
  rewrite in_month_window_iff, date_in_In, month_dates_In. reflexivity.
Qed.

Lemma month_dates_NoDup (y m : Z) : NoDup (month_dates y m).
Proof.
  unfold month_dates. apply Injective_map_NoDup; [|apply range_NoDup].
  intros a b Hab. inversion Hab. reflexivity.
Qed.

Lemma month_dates_length (y m : Z) :
  valid_month m = true ->
  Z.of_nat (List.length (month_dates y m)) = days_in_month y m.
Proof.
  intros Hm. unfold month_dates. rewrite length_map, range_length.
  pose proof (days_in_month_bounds y m Hm). lia.
Qed.

(* ================================================================== *)
(** ** Calendar oracle                                                 *)
(* ================================================================== *)

Lemma is_work_day_eq (d : date) (wdl : list string) (nwd : list NonWorkDay) :
  is_work_day d wdl nwd = weekday_in wdl d && negb (marked_off nwd d).
Proof.
  unfold is_work_day, weekday_in, marked_off.
  destruct (str_in (day_name (weekday d)) wdl); cbn; [|reflexivity].
  destruct nwd as [|r nwd]; [reflexivity|].
  cbn [empty negb andb].
  destruct (date_in d (map nwd_date (r :: nwd))); reflexivity.
Qed.

(** C8.  [is_work_day] is false when the weekday name of the date is not
    in the work-day list, false when the date itself is in the non-work-day
    table, and true in every other case. *)
Theorem is_work_day_spec (d : date) (work_days_list : list string)
  (non_work_days_df : list NonWorkDay) :
  (~ In (day_name (weekday d)) work_days_list ->
   is_work_day d work_days_list non_work_days_df = false)
  /\ (In d (map nwd_date non_work_days_df) ->
      is_work_day d work_days_list non_work_days_df = false)
  /\ (In (day_name (weekday d)) work_days_list ->
      ~ In d (map nwd_date non_work_days_df) ->
      is_work_day d work_days_list non_work_days_df = true).
Proof.
  rewrite is_work_day_eq. unfold weekday_in, marked_off.
  rewrite <- str_in_In, <- date_in_In.
  destruct (str_in (day_name (weekday d)) work_days_list);
    destruct (date_in d (map nwd_date non_work_days_df)); cbn;
    repeat split; intros; try reflexivity; congruence.
Qed.

Lemma is_work_day_spec_witness :
  is_work_day (mkdate 2024 3 1) mon_fri
    [mkNonWorkDay (mkdate 2024 3 29) "Good Friday"] = true
  /\ is_work_day (mkdate 2024 3 29) mon_fri
       [mkNonWorkDay (mkdate 2024 3 29) "Good Friday"] = false
  /\ is_work_day (mkdate 2024 3 2) mon_fri
       [mkNonWorkDay (mkdate 2024 3 29) "Good Friday"] = false.
Proof.
  split; [|split].
  - refine (proj2 (proj2 (is_work_day_spec (mkdate 2024 3 1) mon_fri
                            [mkNonWorkDay (mkdate 2024 3 29) "Good Friday"]))
              _ _).
    + apply str_in_In. reflexivity.
    + intros H. apply date_in_In in H. discriminate H.
  - refine (proj1 (proj2 (is_work_day_spec (mkdate 2024 3 29) mon_fri
                            [mkNonWorkDay (mkdate 2024 3 29) "Good Friday"]))
              _).
    apply date_in_In. reflexivity.
  - refine (proj1 (is_work_day_spec (mkdate 2024 3 2) mon_fri
                     [mkNonWorkDay (mkdate 2024 3 29) "Good Friday"]) _).
    intros H. apply str_in_In in H. discriminate H.
Defined.

Lemma count_cons {A} (p : A -> bool) (a : A) (l : list A) :
  count p (a :: l) = (if p a then 1 else 0) + count p l.
Proof.
  unfold count. cbn [filter]. destruct (p a); cbn [List.length]; lia.
Qed.

Lemma count_bounds {A} (p : A -> bool) (l : list A) :
  0 <= count p l <= Z.of_nat (List.length l).
Proof.
  induction l as [|a l IH]; [cbn; lia|].
  rewrite count_cons. cbn [List.length]. destruct (p a); lia.
Qed.

Lemma count_map {A B} (f : A -> B) (p : B -> bool) (l : list A) :
  count (fun a => p (f a)) l = count p (map f l).
Proof.
  induction l as [|a l IH]; [reflexivity|].
  cbn [map]. rewrite !count_cons, IH. reflexivity.
Qed.

Lemma count_ext {A} (p q : A -> bool) (l : list A) :
  (forall a, In a l -> p a = q a) -> count p l = count q l.
Proof.
  induction l as [|a l IH]; intros H; [reflexivity|].
  rewrite !count_cons, H by (left; reflexivity).
  rewrite IH; [reflexivity|]. intros b Hb. apply H. right. exact Hb.
Qed.

(** Counting with an exclusion is the count minus the excluded ones. *)
Lemma count_andb_negb {A} (p q : A -> bool) (l : list A) :
  count (fun a => p a && negb (q a)) l
  = count p l - count (fun a => p a && q a) l.
Proof.
  induction l as [|a l IH]; [reflexivity|].
  rewrite !count_cons, IH. destruct (p a), (q a); cbn [andb negb]; lia.
Qed.

Lemma fold_left_count {A} (p : A -> bool) (l : list A) (s : Z) :
  fold_left (fun s' x => if p x then s' + 1 else s') l s = s + count p l.
Proof.
  revert s. induction l as [|a l IH]; intros s; [cbn; lia|].
  cbn [fold_left]. rewrite IH, count_cons. destruct (p a); lia.
Qed.

(** The counting loops of the code, over the days [1 .. n] of a valid
    month, with [n] at most the length of the month. *)
Lemma count_loop_ok (y m n : Z) (p : date -> bool) :
  valid_ym y m -> n <= days_in_month y m ->
  for_ (range 1 (n + 1))
       (fun day c => d <- datetime y m day ;; Ok (if p d then c + 1 else c)) 0
  = Ok (count p (map (mkdate y m) (range 1 (n + 1)))).
Proof.
  intros Hv Hn.
  rewrite (for_ok (fun day c => if p (mkdate y m day) then c + 1 else c)).
  - rewrite (fold_left_count (fun day => p (mkdate y m day))).
    rewrite count_map. reflexivity.
  - intros day c Hin. apply range_In in Hin.
    rewrite datetime_ok; [reflexivity|exact Hv|lia].
Qed.

Lemma get_work_days_in_month_ok (y m : Z) (wdl : list string)
  (nwd : list NonWorkDay) :
  valid_ym y m ->
  get_work_days_in_month y m wdl nwd
  = Ok (count (fun d => is_work_day d wdl nwd) (month_dates y m)).
Proof.
  intros Hv. unfold get_work_days_in_month.
  destruct (monthrange_ok y m (proj2 Hv)) as [w ->]. cbn [bind snd].
  apply count_loop_ok; [exact Hv|lia].
Qed.

(** C5.  For a valid year and month, [get_work_days_in_month] returns the
    number of days of the month whose weekday name is in the work-day list
    minus the number of those that are also in the non-work-day table; the
    result is at most the number of days of the month, which is 31, 30, or
    for February 29 in a leap year and 28 otherwise. *)
Theorem get_work_days_in_month_spec (y m : Z) (work_days_list : list string)
  (non_work_days_df : list NonWorkDay) :
  valid_ym y m ->
  exists n,
    get_work_days_in_month y m work_days_list non_work_days_df = Ok n
    /\ n = count (weekday_in work_days_list) (month_dates y m)
           - count (fun d => weekday_in work_days_list d
                             && marked_off non_work_days_df d)
                   (month_dates y m)
    /\ 0 <= n <= days_in_month y m
    /\ Z.of_nat (List.length (month_dates y m)) = days_in_month y m
    /\ days_in_month y m =
         if m =? 2 then (if isleap y then 29 else 28)
         else if (m =? 4) || (m =? 6) || (m =? 9) || (m =? 11) then 30
         else 31.
Proof.
  intros Hv. eexists. split; [apply get_work_days_in_month_ok; exact Hv|].
  pose proof (month_dates_length y m (proj2 Hv)) as Hlen.
  split; [|split; [|split]].
  - rewrite <- count_andb_negb. apply count_ext. intros d _.
    apply is_work_day_eq.
  - rewrite <- Hlen. apply count_bounds.
  - exact Hlen.
  - apply days_in_month_table. exact (proj2 Hv).
Qed.

Lemma get_work_days_in_month_spec_witness :
  valid_ym 2024 2
  /\ exists n,
       get_work_days_in_month 2024 2 mon_fri
         [mkNonWorkDay (mkdate 2024 2 19) "Holiday"] = Ok n
       /\ n = count (weekday_in mon_fri) (month_dates 2024 2)
              - count (fun d => weekday_in mon_fri d
                                && marked_off
                                     [mkNonWorkDay (mkdate 2024 2 19) "Holiday"]
                                     d)
                      (month_dates 2024 2)
       /\ 0 <= n <= days_in_month 2024 2
       /\ Z.of_nat (List.length (month_dates 2024 2)) = days_in_month 2024 2
       /\ days_in_month 2024 2 =
            if 2 =? 2 then (if isleap 2024 then 29 else 28)
            else if (2 =? 4) || (2 =? 6) || (2 =? 9) || (2 =? 11) then 30
            else 31.
Proof.
  assert (Hv : valid_ym 2024 2) by (split; reflexivity).
  split; [exact Hv|].
  exact (get_work_days_in_month_spec 2024 2 mon_fri
           [mkNonWorkDay (mkdate 2024 2 19) "Holiday"] Hv).
Defined.

Example february_2024_with_holiday :
  get_work_days_in_month 2024 2 mon_fri
    [mkNonWorkDay (mkdate 2024 2 19) "Holiday"] = Ok 20.
Proof. vm_compute. reflexivity. Qed.

(* ================================================================== *)
(** ** Client hour-limit calculator                                    *)
(* ================================================================== *)

Lemma filter_andb {A} (p q : A -> bool) (l : list A) :
  filter (fun a => p a && q a) l = filter q (filter p l).
Proof.
  induction l as [|a l IH]; [reflexivity|].
  cbn [filter]. destruct (p a); cbn [andb filter]; rewrite IH; reflexivity.
Qed.

Lemma filter_comm {A} (p q : A -> bool) (l : list A) :
  filter p (filter q l) = filter q (filter p l).
Proof.
  rewrite <- !filter_andb. apply filter_ext. intros a. apply andb_comm.
Qed.

Lemma empty_true {A} (l : list A) : empty l = true -> l = [].
Proof. destruct l; [reflexivity|discriminate]. Qed.

Section HourLimitFacts.

Variable to_datetime_str : string -> parsed.
Variable now : date.

Lemma month_hours_ok (ces : list TimeEntry) (y m : Z) :
  valid_ym y m ->
  month_hours now ces (Some y) (Some m)
  = Ok (Qsum (map te_hours
                (filter (fun e => in_month_window y m (te_date e)) ces))).
Proof.
  intros Hv. unfold month_hours. cbn [fst snd].
  pose proof (days_in_month_bounds y m (proj2 Hv)) as Hb.
  rewrite datetime_ok by (auto; lia). cbn [bind].
  destruct (monthrange_ok y m (proj2 Hv)) as [w ->]. cbn [bind snd].
  rewrite datetime_ok by (auto; lia). cbn [bind].
  reflexivity.
Qed.

Lemma client_hours_monthly (name : string) (es : list TimeEntry)
  (csd : cell) (y m : Z) :
  valid_ym y m ->
  calculate_client_hours to_datetime_str now name es (CStr "Monthly") csd (Some y) (Some m)
  = Ok (Qsum (map te_hours (month_entries_of name y m es))).
Proof.
  intros Hv. unfold calculate_client_hours, month_entries_of.
  destruct (empty es) eqn:Hes.
  - apply empty_true in Hes. subst es. reflexivity.
  - destruct (empty (filter _ es)) eqn:Hces.
    + apply empty_true in Hces. rewrite Hces. reflexivity.
    + cbn. apply month_hours_ok. exact Hv.
Qed.

(** C6.  With limit type Monthly and an explicit valid year and month,
    [calculate_client_hours] returns the sum of the hours of the client's
    entries dated from the first to the last day of that month inclusive,
    and two entry tables that have the same entries inside that window
    (they differ only by entries, of any client, dated outside it) give the
    same result. *)
Theorem client_hours_monthly_window (name : string) (es : list TimeEntry)
  (csd : cell) (y m : Z) :
  valid_ym y m ->
  calculate_client_hours to_datetime_str now name es (CStr "Monthly") csd (Some y) (Some m)
  = Ok (Qsum (map te_hours
                (filter (fun e => String.eqb (te_client_name e) name
                                  && in_month_window y m (te_date e)) es)))
  /\ (forall es' : list TimeEntry,
         filter (fun e => in_month_window y m (te_date e)) es'
         = filter (fun e => in_month_window y m (te_date e)) es ->
         calculate_client_hours to_datetime_str now name es' (CStr "Monthly") csd (Some y) (Some m)
         = calculate_client_hours to_datetime_str now name es (CStr "Monthly") csd (Some y) (Some m))
  /\ (forall (es1 es2 : list TimeEntry) (e : TimeEntry),
         es = es1 ++ es2 ->
         in_month_window y m (te_date e) = false ->
         calculate_client_hours to_datetime_str now name (es1 ++ e :: es2) (CStr "Monthly") csd
           (Some y) (Some m)
         = calculate_client_hours to_datetime_str now name es (CStr "Monthly") csd (Some y) (Some m)).
Proof.
  intros Hv.
  assert (Hsame : forall es' : list TimeEntry,
             filter (fun e => in_month_window y m (te_date e)) es'
             = filter (fun e => in_month_window y m (te_date e)) es ->
             calculate_client_hours to_datetime_str now name es' (CStr "Monthly") csd (Some y) (Some m)
             = calculate_client_hours to_datetime_str now name es (CStr "Monthly") csd (Some y) (Some m)).
  { intros es' Heq. rewrite !client_hours_monthly by exact Hv.
    unfold month_entries_of.
    rewrite (filter_comm _ _ es'), (filter_comm _ _ es), Heq.
    reflexivity. }
  split; [|split].
  - rewrite client_hours_monthly by exact Hv. unfold month_entries_of.
    rewrite filter_andb. reflexivity.
  - exact Hsame.
  - intros es1 es2 e -> He. apply Hsame.
    rewrite !filter_app. cbn [filter]. rewrite He. reflexivity.
Qed.

(** Whatever is not the text ["Contract Total"] is computed as
    Monthly. *)
Lemma client_hours_not_contract (name : string) (es : list TimeEntry)
  (lt csd : cell) (year month : option Z) :
  cell_eq_str lt "Contract Total" = false ->
  calculate_client_hours to_datetime_str now name es lt csd year month
  = calculate_client_hours to_datetime_str now name es (CStr "Monthly") csd year month.
Proof.
  intros Hlt. unfold calculate_client_hours.
  destruct (empty es); [reflexivity|].
  destruct (empty (filter _ es)); [reflexivity|].
  destruct lt as [| |s]; [reflexivity|reflexivity|].
  cbn [isna orb cell_eq_str] in *.
  destruct (String.eqb s "None"); [reflexivity|].
  destruct (String.eqb s ""); [reflexivity|].
  cbv zeta. cbn [orb cell_eq_str]. rewrite Hlt.
  destruct (String.eqb s "Monthly"); reflexivity.
Qed.

(** C7.  A limit type that is missing ([None] or [NaN]), empty, or the
    text ["None"] gives the result of limit type Monthly, and so does every
    text other than ["Monthly"] and ["Contract Total"]. *)
Theorem client_hours_limit_type_default (name : string)
  (es : list TimeEntry) (lt csd : cell) (year month : option Z) :
  (lt = CNone \/ lt = CNaN \/ lt = CStr "" \/ lt = CStr "None" ->
   calculate_client_hours to_datetime_str now name es lt csd year month
   = calculate_client_hours to_datetime_str now name es (CStr "Monthly") csd year month)
  /\ (forall s : string,
         lt = CStr s -> s <> "Monthly"%string ->
         s <> "Contract Total"%string ->
         calculate_client_hours to_datetime_str now name es lt csd year month
         = calculate_client_hours to_datetime_str now name es (CStr "Monthly") csd year month).
Proof.
  split.
  - intros [ -> | [ -> | [ -> | -> ] ] ]; apply client_hours_not_contract; reflexivity.
  - intros s -> _ Hs. apply client_hours_not_contract.
    cbn [cell_eq_str]. apply String.eqb_neq. exact Hs.
Qed.

(** The Contract Total branches that behave as documented: a start date that parses
    bounds the entries from below and nothing else does; a start date that
    does not parse, or is [None] or empty, gives all the client's hours;
    the Contract Total branch raises nothing, whatever year and month
    are. *)
Lemma client_hours_contract_total (name : string) (es : list TimeEntry)
  (csd : cell) (year month : option Z) :
  let all_of := filter (fun e => String.eqb (te_client_name e) name) es in
  (forall s start,
      csd = CStr s -> s <> EmptyString ->
      to_datetime_str s = PDate start ->
      calculate_client_hours to_datetime_str now name es (CStr "Contract Total") csd year month
      = Ok (Qsum (map te_hours
                    (filter (fun e => date_leb start (te_date e)) all_of))))
  /\ (forall s,
         csd = CStr s -> to_datetime_str s = PError ->
         calculate_client_hours to_datetime_str now name es (CStr "Contract Total") csd year month
         = Ok (Qsum (map te_hours all_of)))
  /\ (csd = CNone \/ csd = CStr "" ->
      calculate_client_hours to_datetime_str now name es (CStr "Contract Total") csd year month
      = Ok (Qsum (map te_hours all_of)))
  /\ (exists q,
         calculate_client_hours to_datetime_str now name es (CStr "Contract Total") csd year month = Ok q).
Proof.
  intros all_of. subst all_of. unfold calculate_client_hours.
  destruct (empty es) eqn:Hes.
  { apply empty_true in Hes. subst es. cbn.
    repeat split; intros; try reflexivity. eexists; reflexivity. }
  destruct (empty (filter _ es)) eqn:Hces.
  { apply empty_true in Hces. rewrite Hces. cbn.
    repeat split; intros; try reflexivity. eexists; reflexivity. }
  cbn [isna orb cell_eq_str String.eqb Ascii.eqb Bool.eqb andb].
  split; [|split; [|split]].
  - intros s start -> Hs Hp. cbn [truthy to_datetime].
    apply String.eqb_neq in Hs. rewrite Hs, Hp. reflexivity.
  - intros s -> Hp. cbn [truthy to_datetime]. rewrite Hp.
    destruct (negb (String.eqb s "")); reflexivity.
  - intros [ -> | -> ]; reflexivity.
  - destruct (truthy csd); [|eexists; reflexivity].
    destruct (to_datetime to_datetime_str csd); eexists; reflexivity.
Qed.

End HourLimitFacts.

(** C2, the case of an empty cell.  [load_clients] reads an empty
    [contract_start_date] cell as [NaN]; [NaN] is true in [if
    contract_start_date:], converts to [NaT], and no date is [>= NaT]:
    the client's 10 hours are reported as 0, not as the sum of all the
    client's entries. *)
Theorem client_hours_contract_total_nan (to_datetime_str : string -> parsed)
  (now : date) (year month : option Z) :
  let es := [entry 2024 1 15 "Acme" 10] in
  calculate_client_hours to_datetime_str now "Acme" es
    (CStr "Contract Total") CNaN year month = Ok 0%Q
  /\ Qsum (map te_hours
             (filter (fun e => String.eqb (te_client_name e) "Acme") es))
     == 10
  /\ ~ 0 == 10.
Proof.
  cbn zeta. split; [reflexivity|]. split; [reflexivity|discriminate].
Qed.

Lemma client_hours_monthly_window_witness :
  valid_ym 2024 3
  /\ calculate_client_hours (fun _ => PError) (mkdate 2024 4 5) "Acme"
       (entry 2024 3 31 "Acme" 2 :: entry 2024 4 1 "Acme" 7 :: acme_entries)
       (CStr "Monthly") CNone (Some 2024) (Some 3)
     = calculate_client_hours (fun _ => PError) (mkdate 2024 4 5) "Acme"
         (entry 2024 3 31 "Acme" 2 :: acme_entries)
         (CStr "Monthly") CNone (Some 2024) (Some 3).
Proof.
  assert (Hv : valid_ym 2024 3) by (split; reflexivity).
  split; [exact Hv|].
  exact (proj2 (proj2
           (client_hours_monthly_window (fun _ => PError) (mkdate 2024 4 5)
              "Acme" (entry 2024 3 31 "Acme" 2 :: acme_entries) CNone
              2024 3 Hv))
           [entry 2024 3 31 "Acme" 2] acme_entries
           (entry 2024 4 1 "Acme" 7) eq_refl eq_refl).
Defined.

Lemma client_hours_limit_type_default_witness :
  calculate_client_hours (fun _ => PError) (mkdate 2024 3 20) "Acme"
    acme_entries (CStr "Weekly") CNone None None
  = calculate_client_hours (fun _ => PError) (mkdate 2024 3 20) "Acme"
      acme_entries (CStr "Monthly") CNone None None.
Proof.
  refine (proj2 (client_hours_limit_type_default (fun _ => PError)
                   (mkdate 2024 3 20) "Acme" acme_entries (CStr "Weekly")
                   CNone None None) "Weekly"%string eq_refl _ _);
    discriminate.
Defined.

Example client_hours_march_2024 :
  calculate_client_hours (fun _ => PError) (mkdate 2024 3 20) "Acme"
    (entry 2024 3 31 "Acme" 2 :: entry 2024 4 1 "Acme" 7 :: acme_entries)
    (CStr "None") CNone None None = Ok (2 + (5 + (3 + 0)))%Q.
Proof. reflexivity. Qed.

Example client_hours_contract_example (year month : option Z) :
  calculate_client_hours (fun _ => PDate (mkdate 2024 2 1)) (mkdate 2024 3 20)
    "Acme" [entry 2024 1 15 "Acme" 10; entry 2024 2 10 "Acme" 10]
    (CStr "Contract Total") (CStr "2024-02-01") year month
  = Ok (10 + 0)%Q.
Proof. reflexivity. Qed.

(* ================================================================== *)
(** ** Monthly statistics                                              *)
(* ================================================================== *)

Lemma Qeq_bool_inject_Z (z : Z) : Qeq_bool (inject_Z z) 0 = (z =? 0).
Proof.
  unfold Qeq_bool, inject_Z. cbn [Qnum Qden].
  rewrite Z.mul_1_r. cbn. destruct z; reflexivity.
Qed.

Lemma Qlt_bool_iff (a b : Q) : Qlt_bool a b = true <-> (a < b)%Q.
Proof.
  unfold Qlt_bool. rewrite negb_true_iff. split.
  - intros H. apply Qnot_le_lt. intros Hle.
    apply Qle_bool_iff in Hle. congruence.
  - intros H. destruct (Qle_bool b a) eqn:E; [|reflexivity].
    apply Qle_bool_iff in E. exfalso. exact (Qlt_not_le _ _ H E).
Qed.

Lemma Qlt_bool_pos_neq (a : Q) : Qlt_bool 0 a = true -> Qeq_bool a 0 = false.
Proof.
  intros H. apply Qlt_bool_iff in H.
  destruct (Qeq_bool a 0) eqn:E; [|reflexivity].
  apply Qeq_bool_iff in E. rewrite E in H. exfalso.
  exact (Qlt_irrefl 0 H).
Qed.

Lemma window_filter_entries (y m : Z) (es : list TimeEntry) :
  (if negb (empty es)
   then filter (fun e => date_leb (mkdate y m 1) (te_date e)
                         && date_leb (te_date e)
                                     (mkdate y m (days_in_month y m))) es
   else [])
  = filter (fun e => in_month_window y m (te_date e)) es.
Proof. destruct es; reflexivity. Qed.

Lemma window_filter_invoices (y m : Z) (invs : list Invoice) :
  (if negb (empty invs)
   then filter (fun i => date_leb (mkdate y m 1) (inv_date i)
                         && date_leb (inv_date i)
                                     (mkdate y m (days_in_month y m))) invs
   else [])
  = filter (fun i => in_month_window y m (inv_date i)) invs.
Proof. destruct invs; reflexivity. Qed.

(** For a valid year and month the function returns, and returns
    [monthly_stats_value]. *)
Lemma calculate_monthly_stats_ok (today : date) (y m : Z)
  (clients : list Client) (es : list TimeEntry) (invs : list Invoice)
  (settings : Settings) (nwd : list NonWorkDay) :
  valid_ym y m ->
  calculate_monthly_stats today y m clients es invs settings nwd
  = Ok (monthly_stats_value today y m clients es invs settings nwd).
Proof.
  intros Hv. unfold calculate_monthly_stats, monthly_stats_value.
  pose proof (days_in_month_bounds y m (proj2 Hv)) as Hb.
  rewrite datetime_ok by (auto; lia). cbn [bind].
  destruct (monthrange_ok y m (proj2 Hv)) as [w ->]. cbn [bind snd].
  rewrite datetime_ok by (auto; lia). cbn [bind].
  rewrite window_filter_entries, window_filter_invoices.
  rewrite get_work_days_in_month_ok by exact Hv. cbn [bind].
  replace (Z.min (day today + 1) (days_in_month y m + 1))
    with (Z.min (day today) (days_in_month y m) + 1) by lia.
  rewrite (count_loop_ok y m _
             (fun d => is_work_day d (split "," (work_days settings)) nwd
                       && date_leb d today) Hv) by lia.
  cbn [bind]. unfold days_visited.
  replace (Z.min (day today + 1) (days_in_month y m + 1))
    with (Z.min (day today) (days_in_month y m) + 1) by lia.
  set (twd := count _ (month_dates y m)).
  destruct (0 <? twd) eqn:Htwd.
  - unfold div at 1. rewrite Qeq_bool_inject_Z.
    replace (twd =? 0) with false by lia. cbn [bind].
    destruct (Qlt_bool 0 (avg_hourly_rate_of clients)) eqn:Havg.
    + unfold div. rewrite (Qlt_bool_pos_neq _ Havg). reflexivity.
    + reflexivity.
  - cbn [bind].
    destruct (Qlt_bool 0 (avg_hourly_rate_of clients)) eqn:Havg.
    + unfold div. rewrite (Qlt_bool_pos_neq _ Havg). reflexivity.
    + reflexivity.
Qed.

(** Outside the valid years and months the first [datetime] call raises
    [ValueError]. *)
Lemma calculate_monthly_stats_invalid (today : date) (y m : Z)
  (clients : list Client) (es : list TimeEntry) (invs : list Invoice)
  (settings : Settings) (nwd : list NonWorkDay) :
  valid_year y && valid_month m = false ->
  calculate_monthly_stats today y m clients es invs settings nwd
  = Raise ValueError.
Proof.
  intros Hv. unfold calculate_monthly_stats, datetime at 1.
  rewrite Hv. reflexivity.
Qed.

(** C9.  [calculate_monthly_stats] never raises [ZeroDivisionError]; for a
    valid year and month it returns; and in what it returns [daily_target]
    is [monthly_target / total_work_days] when [total_work_days > 0] and 0
    when [total_work_days] is 0, and [daily_hours_target] is
    [daily_target / avg_hourly_rate] when [avg_hourly_rate > 0] and 0
    otherwise. *)
Theorem calculate_monthly_stats_no_zero_division (today : date) (y m : Z)
  (clients : list Client) (es : list TimeEntry) (invs : list Invoice)
  (settings : Settings) (nwd : list NonWorkDay) :
  let r := calculate_monthly_stats today y m clients es invs settings nwd in
  r <> Raise ZeroDivisionError
  /\ (valid_ym y m -> exists s, r = Ok s)
  /\ (forall s, r = Ok s ->
        0 <= total_work_days s
        /\ (0 < total_work_days s ->
            daily_target s
            = (monthly_target settings / inject_Z (total_work_days s))%Q)
        /\ (total_work_days s = 0 -> daily_target s = 0%Q)
        /\ ((0 < avg_hourly_rate s)%Q ->
            daily_hours_target s
            = (daily_target s / avg_hourly_rate s)%Q)
        /\ (~ (0 < avg_hourly_rate s)%Q -> daily_hours_target s = 0%Q)).
Proof.
  cbv zeta.
  destruct (valid_year y && valid_month m) eqn:Hv.
  - apply andb_true_iff in Hv.
    rewrite (calculate_monthly_stats_ok today y m clients es invs settings
               nwd Hv).
    split; [discriminate|]. split; [intros _; eexists; reflexivity|].
    intros s Hs. injection Hs as <-. unfold monthly_stats_value.
    cbn [total_work_days daily_target avg_hourly_rate daily_hours_target].
    set (twd := count _ (month_dates y m)).
    assert (Hpos : 0 <= twd) by apply count_bounds.
    split; [exact Hpos|]. split; [|split; [|split]].
    + intros H. replace (0 <? twd) with true by lia. reflexivity.
    + intros H. replace (0 <? twd) with false by lia. reflexivity.
    + intros H. apply Qlt_bool_iff in H. rewrite H. reflexivity.
    + intros H. destruct (Qlt_bool 0 (avg_hourly_rate_of clients)) eqn:E;
        [|reflexivity].
      apply Qlt_bool_iff in E. contradiction.
  - rewrite (calculate_monthly_stats_invalid today y m clients es invs
               settings nwd Hv).
    split; [discriminate|]. split.
    + intros [Hy Hm]. rewrite Hy, Hm in Hv. discriminate.
    + intros s Hs. discriminate.
Qed.

Lemma calculate_monthly_stats_no_zero_division_witness :
  exists s,
    calculate_monthly_stats (mkdate 2024 3 20) 2024 3 [] [] []
      no_work_days_settings [] = Ok s
    /\ total_work_days s = 0
    /\ daily_target s = 0%Q
    /\ daily_hours_target s = 0%Q.
Proof.
  pose proof (calculate_monthly_stats_no_zero_division (mkdate 2024 3 20)
                2024 3 [] [] [] no_work_days_settings []) as H.
  cbv zeta in H. destruct H as [_ [Hex Hval]].
  destruct (Hex (conj eq_refl eq_refl)) as [s Hs].
  destruct (Hval s Hs) as [_ [_ [Hzero [_ Hnavg]]]].
  assert (Hs' := Hs).
  rewrite calculate_monthly_stats_ok in Hs' by (split; reflexivity).
  injection Hs' as Hs'.
  assert (Htwd : total_work_days s = 0) by (rewrite <- Hs'; reflexivity).
  exists s. split; [exact Hs|]. split; [exact Htwd|]. split.
  - apply Hzero. exact Htwd.
  - apply Hnavg. rewrite <- Hs'. apply Qlt_irrefl.
Defined.

Example acme_march_2024 :
  exists s,
    calculate_monthly_stats (mkdate 2024 3 20) 2024 3 [acme] acme_entries []
      default_settings [] = Ok s
    /\ hourly_income s == 800 /\ total_hours s == 8
    /\ total_income s == 800 /\ total_work_days s = 21.
Proof.
  rewrite calculate_monthly_stats_ok by (split; reflexivity).
  eexists. split; [reflexivity|]. repeat split; vm_compute; reflexivity.
Qed.

Lemma calculate_monthly_stats_days_worked (today : date) (y m : Z)
  (clients : list Client) (es : list TimeEntry) (invs : list Invoice)
  (settings : Settings) (nwd : list NonWorkDay) :
  valid_ym y m ->
  exists s,
    calculate_monthly_stats today y m clients es invs settings nwd = Ok s
    /\ days_worked s
       = count (fun d => is_work_day d (split "," (work_days settings)) nwd
                         && date_leb d today)
               (days_visited today y m).
Proof.
  intros Hv. rewrite calculate_monthly_stats_ok by exact Hv.
  eexists. split; reflexivity.
Qed.

Lemma map_seq_from {B} (f : nat -> B) (n a : nat) :
  map f (seq a n) = map (fun i => f (a + i)%nat) (seq 0 n).
Proof.
  revert a f. induction n as [|n IH]; intros a f; [reflexivity|].
  cbn [seq map]. rewrite Nat.add_0_r. f_equal.
  rewrite (IH (S a) f), (IH 1%nat (fun i => f (a + i)%nat)).
  apply map_ext. intros i. f_equal. lia.
Qed.

Lemma range_split (lo mid hi : Z) :
  lo <= mid <= hi -> range lo hi = range lo mid ++ range mid hi.
Proof.
  intros H. unfold range.
  replace (Z.to_nat (hi - lo))
    with (Z.to_nat (mid - lo) + Z.to_nat (hi - mid))%nat by lia.
  rewrite seq_app, map_app. f_equal. cbn [Nat.add].
  rewrite map_seq_from. apply map_ext. intros i. lia.
Qed.

Lemma count_app {A} (p : A -> bool) (l1 l2 : list A) :
  count p (l1 ++ l2) = count p l1 + count p l2.
Proof. unfold count. rewrite filter_app, length_app. lia. Qed.

Lemma count_none {A} (p : A -> bool) (l : list A) :
  (forall a, In a l -> p a = false) -> count p l = 0.
Proof.
  induction l as [|a l IH]; intros H; [reflexivity|].
  rewrite count_cons, H by (left; reflexivity).
  rewrite IH; [reflexivity|]. intros b Hb. apply H. right. exact Hb.
Qed.

(** The current month and the months after it: the days that the loop
    visits hold every day of the month that is on or before today, so
    [days_worked] counts the work days of the month up to today. *)
Lemma days_worked_not_past (today : date) (y m : Z) (p : date -> bool) :
  valid_ym y m ->
  year today < y \/ (year today = y /\ month today <= m) ->
  count (fun d => p d && date_leb d today) (days_visited today y m)
  = count (fun d => p d && date_leb d today) (month_dates y m).
Proof.
  intros Hv Hnp. unfold days_visited, month_dates.
  pose proof (days_in_month_bounds y m (proj2 Hv)) as Hb.
  destruct (Z_le_gt_dec (days_in_month y m) (day today)) as [Hge|Hlt].
  - replace (Z.min (day today + 1) (days_in_month y m + 1))
      with (days_in_month y m + 1) by lia.
    reflexivity.
  - replace (Z.min (day today + 1) (days_in_month y m + 1))
      with (day today + 1) by lia.
    rewrite (range_split 1 (Z.max 1 (day today + 1)) (days_in_month y m + 1))
      by lia.
    rewrite map_app, count_app.
    replace (range 1 (Z.max 1 (day today + 1)))
      with (range 1 (day today + 1))
      by (unfold range; f_equal; f_equal; lia).
    rewrite (count_none _ (map _ (range (Z.max 1 (day today + 1)) _)));
      [lia|].
    intros d Hin. apply in_map_iff in Hin. destruct Hin as [k [<- Hk]].
    apply range_In in Hk. apply andb_false_intro2.
    apply not_true_is_false. unfold date_leb. cbn [year month day].
    rewrite !orb_true_iff, !andb_true_iff, !orb_true_iff, !andb_true_iff,
      !Z.ltb_lt, !Z.eqb_eq, Z.leb_le.
    lia.
Qed.

(** C1, a month that is over.  On 5 April 2024 the statistics of March
    2024 (Monday to Friday, no non-work day) report 3 days worked: the loop
    stops at day 5, the day of the month of today.  All 21 work days of
    March 2024 are on or before 5 April 2024. *)
Theorem days_worked_past_month :
  exists s,
    calculate_monthly_stats (mkdate 2024 4 5) 2024 3 [acme] acme_entries []
      default_settings [] = Ok s
    /\ days_worked s = 3
    /\ count (fun d => is_work_day d mon_fri []
                       && date_leb d (mkdate 2024 4 5))
             (month_dates 2024 3) = 21.
Proof.
  rewrite calculate_monthly_stats_ok by (split; reflexivity).
  eexists. split; [reflexivity|].
  split; vm_compute; reflexivity.
Qed.

Lemma Qsum_nil : Qsum [] = 0%Q.
Proof. reflexivity. Qed.

Lemma Qsum_cons (q : Q) (l : list Q) : Qsum (q :: l) = (q + Qsum l)%Q.
Proof. reflexivity. Qed.

Lemma Qsum_app (l1 l2 : list Q) : Qsum (l1 ++ l2) == Qsum l1 + Qsum l2.
Proof.
  induction l1 as [|q l1 IH]; cbn [app].
  - rewrite Qsum_nil. ring.
  - rewrite !Qsum_cons, IH. ring.
Qed.

Lemma inject_Z_succ (n : nat) :
  inject_Z (Z.of_nat (S n)) == 1 + inject_Z (Z.of_nat n).
Proof.
  rewrite Nat2Z.inj_succ. unfold Z.succ. rewrite inject_Z_plus. ring.
Qed.

Lemma merge_nil_r (es : list TimeEntry) : merge es [] = [].
Proof. induction es as [|e es IH]; [reflexivity|]. exact IH. Qed.

Lemma merge_app (es1 es2 : list TimeEntry) (hc : list Client) :
  merge (es1 ++ es2) hc = merge es1 hc ++ merge es2 hc.
Proof. unfold merge. apply flat_map_app. Qed.

Lemma merge_cons (e : TimeEntry) (es : list TimeEntry) (hc : list Client) :
  merge (e :: es) hc
  = map (fun c => (e, hourly_rate c)) (rows_named (te_client_name e) hc)
    ++ merge es hc.
Proof. reflexivity. Qed.

(** The guards of lines 214-218 only skip empty sums. *)
Lemma hourly_totals_eq (clients : list Client) (mes : list TimeEntry) :
  hourly_totals clients mes
  = (merged_income (merge mes (hourly_clients_of clients)),
     merged_hours (merge mes (hourly_clients_of clients))).
Proof.
  unfold hourly_totals.
  destruct mes as [|e mes]; [reflexivity|].
  destruct clients as [|c clients].
  { unfold hourly_clients_of. cbn [filter empty negb andb].
    rewrite merge_nil_r. reflexivity. }
  cbn [empty negb andb].
  destruct (hourly_clients_of (c :: clients)) as [|h hc].
  { cbn [empty negb]. rewrite merge_nil_r. reflexivity. }
  cbn [empty negb].
  destruct (merge (e :: mes) (h :: hc)); reflexivity.
Qed.

Lemma retainer_total_of_eq (invs : list Invoice) :
  retainer_total_of invs = Qsum (map inv_amount invs).
Proof. destruct invs; reflexivity. Qed.

Lemma merged_income_app (r1 r2 : list (TimeEntry * Q)) :
  merged_income (r1 ++ r2) == merged_income r1 + merged_income r2.
Proof. unfold merged_income. rewrite map_app. apply Qsum_app. Qed.

Lemma merged_hours_app (r1 r2 : list (TimeEntry * Q)) :
  merged_hours (r1 ++ r2) == merged_hours r1 + merged_hours r2.
Proof. unfold merged_hours. rewrite map_app. apply Qsum_app. Qed.

(** The rows that one entry yields in the join: one per roster row. *)
Lemma merged_hours_rows (e : TimeEntry) (rows : list Client) :
  merged_hours (map (fun c => (e, hourly_rate c)) rows)
  == inject_Z (Z.of_nat (List.length rows)) * te_hours e.
Proof.
  unfold merged_hours. induction rows as [|c rows IH].
  - cbn [map List.length]. rewrite Qsum_nil. cbn. ring.
  - cbn [map List.length fst]. rewrite Qsum_cons, IH, inject_Z_succ. ring.
Qed.

Lemma merged_income_rows (e : TimeEntry) (rows : list Client) :
  merged_income (map (fun c => (e, hourly_rate c)) rows)
  == te_hours e * Qsum (map hourly_rate rows).
Proof.
  unfold merged_income. induction rows as [|c rows IH].
  - cbn [map]. rewrite Qsum_nil. ring.
  - cbn [map fst snd]. rewrite !Qsum_cons, IH. ring.
Qed.

Lemma Qsum_uniform (r : Q) (rows : list Client) :
  (forall c, In c rows -> hourly_rate c == r) ->
  Qsum (map hourly_rate rows) == inject_Z (Z.of_nat (List.length rows)) * r.
Proof.
  induction rows as [|c rows IH]; intros H.
  - cbn [map List.length]. rewrite Qsum_nil. cbn. ring.
  - cbn [map List.length]. rewrite Qsum_cons, inject_Z_succ.
    rewrite (H c) by (left; reflexivity).
    rewrite IH by (intros c' Hc'; apply H; right; exact Hc'). ring.
Qed.

Lemma rows_named_hourly (name : string) (clients : list Client) :
  (forall c, In c clients -> client_name c = name ->
             billing_type c = "Hourly"%string) ->
  rows_named name (hourly_clients_of clients) = rows_named name clients.
Proof.
  intros H. unfold rows_named, hourly_clients_of.
  rewrite <- filter_andb. apply filter_ext_in. intros c Hc.
  destruct (String.eqb_spec (client_name c) name) as [Hn|Hn].
  - rewrite (H c Hc Hn). reflexivity.
  - apply andb_false_r.
Qed.



(* ================================================================== *)
(** ** Sums over the join                                              *)
(* ================================================================== *)

Lemma merged_income_entries (hc : list Client) (es : list TimeEntry) :
  merged_income (merge es hc) == Qsum (map (entry_income hc) es).
Proof.
  induction es as [|e es IH].
  - reflexivity.
  - rewrite merge_cons, merged_income_app, IH. cbn [map].
    rewrite Qsum_cons. reflexivity.
Qed.

(* ================================================================== *)
(** ** Cumulative projection                                           *)
(* ================================================================== *)

Lemma last_cons_default {A} (l : list A) (x d : A) :
  last (x :: l) d = last l x.
Proof.
  revert x d. induction l as [|a l IH]; intros x d; [reflexivity|].
  change (last (x :: a :: l) d) with (last (a :: l) d).
  rewrite (IH a d), (IH a x). reflexivity.
Qed.

Lemma last_scan {A S} (f : A -> S -> S) (l : list A) (s : S) :
  last (scan f s l) s = fold_left (fun s' a => f a s') l s.
Proof.
  revert s. induction l as [|a l IH]; intros s; [reflexivity|].
  cbn [scan fold_left]. rewrite last_cons_default. apply IH.
Qed.

Lemma length_scan {A S} (f : A -> S -> S) (l : list A) (s : S) :
  List.length (scan f s l) = List.length l.
Proof.
  revert s. induction l as [|a l IH]; intros s; [reflexivity|].
  cbn [scan List.length]. rewrite IH. reflexivity.
Qed.

(** Every element of the series is the update of its predecessor. *)
Lemma nth_scan {A S} (f : A -> S -> S) (dA : A) (dS : S) :
  forall (l : list A) (s : S) (i : nat),
    (i < List.length l)%nat ->
    nth i (scan f s l) dS
    = f (nth i l dA)
        (match i with
         | O => s
         | Datatypes.S j => nth j (scan f s l) dS
         end).
Proof.
  induction l as [|a l IH]; intros s i Hi; [cbn in Hi; lia|].
  destruct i as [|i]; [reflexivity|].
  cbn [scan nth]. cbn [List.length] in Hi.
  rewrite (IH (f a s) i) by lia.
  destruct i; reflexivity.
Qed.

Lemma fold_left_over_map {A B S} (g : A -> B) (f : S -> B -> S)
  (l : list A) (s : S) :
  fold_left f (map g l) s = fold_left (fun s' a => f s' (g a)) l s.
Proof.
  revert s. induction l as [|a l IH]; intros s; [reflexivity|].
  cbn [map fold_left]. apply IH.
Qed.

Lemma chart_run_series (stats : Stats) (clients : list Client)
  (es : list TimeEntry) (invs : list Invoice) (wdl : list string)
  (nwd : list NonWorkDay) :
  forall (ds : list date) (c : Chart),
    let c' := chart_run stats clients es invs wdl nwd ds c in
    dates c' = dates c ++ ds
    /\ targets c'
       = targets c
         ++ scan (next_target (daily_target stats) wdl nwd)
                 (cumulative_target c) ds
    /\ actuals c'
       = actuals c
         ++ scan (next_actual clients es invs) (cumulative_actual c) ds.
Proof.
  induction ds as [|d ds IH]; intros c; cbn zeta.
  - cbn [chart_run fold_left scan]. rewrite !app_nil_r. auto.
  - change (chart_run stats clients es invs wdl nwd (d :: ds) c)
      with (chart_run stats clients es invs wdl nwd ds
              (chart_step stats clients es invs wdl nwd d c)).
    destruct (IH (chart_step stats clients es invs wdl nwd d c))
      as [Hd [Ht Ha]].
    rewrite Hd, Ht, Ha. unfold chart_step.
    cbn [dates targets actuals cumulative_target cumulative_actual scan].
    rewrite <- !app_assoc. auto.
Qed.

Lemma show_dashboard_ok (today : date) (y m : Z) (clients : list Client)
  (es : list TimeEntry) (invs : list Invoice) (settings : Settings)
  (nwd : list NonWorkDay) :
  valid_ym y m ->
  let stats := monthly_stats_value today y m clients es invs settings nwd in
  show_dashboard today y m clients es invs settings nwd
  = Ok (stats,
        chart_run stats clients es invs (split "," (work_days settings)) nwd
          (month_dates y m) chart_init).
Proof.
  intros Hv stats. unfold show_dashboard.
  rewrite calculate_monthly_stats_ok by exact Hv. cbn [bind]. fold stats.
  destruct (monthrange_ok y m (proj2 Hv)) as [w ->]. cbn [bind snd].
  rewrite (for_ok (fun day c =>
                     chart_step stats clients es invs
                       (split "," (work_days settings)) nwd
                       (mkdate y m day) c)).
  - cbn [bind]. unfold chart_run, month_dates.
    rewrite fold_left_over_map. reflexivity.
  - intros day c Hin. apply range_In in Hin.
    rewrite datetime_ok; [reflexivity|exact Hv|lia].
Qed.

(* ================================================================== *)
(** ** Further properties of the hour-limit calculator                 *)
(* ================================================================== *)

Lemma filter_none {A} (p : A -> bool) (l : list A) :
  (forall a, In a l -> p a = false) -> filter p l = [].
Proof.
  induction l as [|a l IH]; intros H; [reflexivity|].
  cbn [filter]. rewrite H by (left; reflexivity).
  apply IH. intros b Hb. apply H. right. exact Hb.
Qed.

(** X1.  A client without any entry has 0 hours, whatever the limit type,
    the start-date cell, the year and the month are (also a month that no
    calendar has): no date is ever built. *)
Theorem client_hours_no_entries (to_datetime_str : string -> parsed)
  (now : date) (name : string) (es : list TimeEntry) (lt csd : cell)
  (year month : option Z) :
  (forall e, In e es -> te_client_name e <> name) ->
  calculate_client_hours to_datetime_str now name es lt csd year month
  = Ok 0%Q.
Proof.
  intros Hnone. unfold calculate_client_hours.
  destruct (empty es); [reflexivity|].
  rewrite filter_none; [reflexivity|].
  intros e He. apply String.eqb_neq. apply Hnone. exact He.
Qed.

Lemma client_hours_no_entries_witness :
  calculate_client_hours (fun _ => PError) (mkdate 2024 3 20) "Globex"
    acme_entries (CStr "Monthly") CNone (Some 2024) (Some 13) = Ok 0%Q.
Proof.
  apply client_hours_no_entries.
  intros e [<-|[<-|[]]]; discriminate.
Defined.

(** X2.  When the year or the month is [None], both are replaced by those
    of the current date: a year given without a month (or a month without
    a year) is ignored. *)
Theorem client_hours_default_month (to_datetime_str : string -> parsed)
  (now : date) (name : string) (es : list TimeEntry) (lt csd : cell)
  (year month : option Z) :
  year = None \/ month = None ->
  calculate_client_hours to_datetime_str now name es lt csd year month
  = calculate_client_hours to_datetime_str now name es lt csd
      (Some (Calendar.year now)) (Some (Calendar.month now)).
Proof.
  intros H. unfold calculate_client_hours, month_hours.
  destruct year as [y|], month as [m|]; try reflexivity.
  destruct H; discriminate.
Qed.

Lemma client_hours_default_month_witness :
  calculate_client_hours (fun _ => PError) (mkdate 2024 3 20) "Acme"
    acme_entries (CStr "Monthly") CNone (Some 2023) None
  = calculate_client_hours (fun _ => PError) (mkdate 2024 3 20) "Acme"
      acme_entries (CStr "Monthly") CNone (Some 2024) (Some 3).
Proof.
  apply (client_hours_default_month (fun _ => PError) (mkdate 2024 3 20)
           "Acme" acme_entries (CStr "Monthly") CNone (Some 2023) None).
  right. reflexivity.
Defined.

(** X3.  With limit type Contract Total the result does not depend on the
    year and month arguments and no exception is raised, whatever they
    are; a start date that parses keeps the client's entries dated on or
    after it, with no upper bound; a start date that fails to parse, is
    [None] or is empty keeps all the client's entries. *)
Theorem contract_total_hours (to_datetime_str : string -> parsed)
  (now : date) (name : string) (es : list TimeEntry) (csd : cell)
  (year month : option Z) :
  let all_of := filter (fun e => String.eqb (te_client_name e) name) es in
  let used :=
    calculate_client_hours to_datetime_str now name es
      (CStr "Contract Total") csd year month in
  (forall year' month',
      calculate_client_hours to_datetime_str now name es
        (CStr "Contract Total") csd year' month' = used)
  /\ (exists q, used = Ok q)
  /\ (forall s start,
         csd = CStr s -> s <> EmptyString ->
         to_datetime_str s = PDate start ->
         used = Ok (Qsum (map te_hours
                            (filter (fun e => date_leb start (te_date e))
                                    all_of))))
  /\ (forall s,
         csd = CStr s -> to_datetime_str s = PError ->
         used = Ok (Qsum (map te_hours all_of)))
  /\ (csd = CNone \/ csd = CStr "" ->
      used = Ok (Qsum (map te_hours all_of))).
Proof.
  cbv zeta.
  destruct (client_hours_contract_total to_datetime_str now name es csd
              year month) as [Hdate [Herr [Hnone Hok]]].
  split; [|split; [exact Hok|split; [exact Hdate|split; assumption]]].
  intros year' month'. unfold calculate_client_hours.
  destruct (empty es); [reflexivity|].
  destruct (empty (filter _ es)); reflexivity.
Qed.

Lemma contract_total_hours_witness :
  calculate_client_hours (fun _ => PDate (mkdate 2024 2 1)) (mkdate 2024 3 20)
    "Acme" [entry 2024 1 15 "Acme" 10; entry 2024 2 10 "Acme" 10]
    (CStr "Contract Total") (CStr "2024-02-01") (Some 1999) (Some 13)
  = Ok (Qsum (map te_hours
                (filter (fun e => date_leb (mkdate 2024 2 1) (te_date e))
                   (filter (fun e => String.eqb (te_client_name e) "Acme")
                      [entry 2024 1 15 "Acme" 10;
                       entry 2024 2 10 "Acme" 10])))).
Proof.
  refine (proj1 (proj2 (proj2
            (contract_total_hours (fun _ => PDate (mkdate 2024 2 1))
               (mkdate 2024 3 20) "Acme"
               [entry 2024 1 15 "Acme" 10; entry 2024 2 10 "Acme" 10]
               (CStr "2024-02-01") (Some 1999) (Some 13))))
            "2024-02-01"%string (mkdate 2024 2 1) eq_refl _ eq_refl).
  discriminate.
Defined.

Lemma month_entries_of_app (name : string) (y m : Z)
  (es1 es2 : list TimeEntry) :
  month_entries_of name y m (es1 ++ es2)
  = month_entries_of name y m es1 ++ month_entries_of name y m es2.
Proof. unfold month_entries_of. rewrite !filter_app. reflexivity. Qed.

Lemma client_hours_append (to_datetime_str : string -> parsed)
  (now : date) (name : string) (es : list TimeEntry) (lt csd : cell)
  (y m : Z) (entry_date : date) (client : string) (hours : Q)
  (notes : string) :
  valid_ym y m ->
  cell_eq_str lt "Contract Total" = false ->
  exists before after,
    calculate_client_hours to_datetime_str now name es lt csd
      (Some y) (Some m) = Ok before
    /\ calculate_client_hours to_datetime_str now name
         (add_time_entry es entry_date client hours notes) lt csd
         (Some y) (Some m) = Ok after
    /\ after
       == before
          + (if String.eqb client name && in_month_window y m entry_date
             then hours else 0%Q).
Proof.
  intros Hv Hlt.
  rewrite !(client_hours_not_contract _ _ _ _ lt) by exact Hlt.
  rewrite !client_hours_monthly by exact Hv.
  do 2 eexists. split; [reflexivity|]. split; [reflexivity|].
  unfold add_time_entry. rewrite month_entries_of_app, map_app, Qsum_app.
  apply Qplus_inj_l.
  unfold month_entries_of. cbn [filter te_client_name].
  destruct (String.eqb client name); cbn [filter te_date andb].
  - destruct (in_month_window y m entry_date); cbn [map te_hours].
    + rewrite Qsum_cons, Qsum_nil. ring.
    + reflexivity.
  - reflexivity.
Qed.





(* ================================================================== *)
(** ** Further properties of the monthly statistics                    *)
(* ================================================================== *)

(** X6.  For the current month and for the months after it (valid year
    and month), [days_worked] is the number of work days of the month dated
    on or before today; for a month after the current one it is 0. *)
Theorem days_worked_current_or_future (today : date) (y m : Z)
  (clients : list Client) (es : list TimeEntry) (invs : list Invoice)
  (settings : Settings) (nwd : list NonWorkDay) :
  valid_ym y m ->
  year today < y \/ (year today = y /\ month today <= m) ->
  exists s,
    calculate_monthly_stats today y m clients es invs settings nwd = Ok s
    /\ days_worked s
       = count (fun d => is_work_day d (split "," (work_days settings)) nwd
                         && date_leb d today)
               (month_dates y m)
    /\ (year today < y \/ (year today = y /\ month today < m) ->
        days_worked s = 0).
Proof.
  intros Hv Hnp. rewrite calculate_monthly_stats_ok by exact Hv.
  eexists. split; [reflexivity|].
  unfold monthly_stats_value. cbn [days_worked].
  rewrite (days_worked_not_past today y m _ Hv Hnp).
  split; [reflexivity|].
  intros Hfuture. apply count_none. intros d Hd.
  apply month_dates_In in Hd. destruct Hd as [Hy [Hm Hday]].
  apply andb_false_intro2. apply not_true_is_false.
  unfold date_leb.
  rewrite !orb_true_iff, !andb_true_iff, !orb_true_iff, !andb_true_iff,
    !Z.ltb_lt, !Z.eqb_eq, Z.leb_le.
  lia.
Qed.

Lemma days_worked_current_or_future_witness :
  exists s,
    calculate_monthly_stats (mkdate 2024 3 20) 2024 4 [acme] acme_entries []
      default_settings [] = Ok s
    /\ days_worked s = 0.
Proof.
  destruct (days_worked_current_or_future (mkdate 2024 3 20) 2024 4 [acme]
              acme_entries [] default_settings [])
    as [s [Hs [_ Hzero]]].
  - split; reflexivity.
  - right. cbn. lia.
  - exists s. split; [exact Hs|]. apply Hzero. right. cbn. lia.
Defined.

Lemma rows_named_not_hourly (name : string) (clients : list Client) :
  (forall c, In c clients -> client_name c = name ->
             billing_type c <> "Hourly"%string) ->
  rows_named name (hourly_clients_of clients) = [].
Proof.
  intros H. unfold rows_named, hourly_clients_of.
  rewrite <- filter_andb. apply filter_none. intros c Hc.
  destruct (String.eqb_spec (billing_type c) "Hourly") as [Hb|Hb];
    [|reflexivity].
  cbn [andb]. apply String.eqb_neq. intros Hn. exact (H c Hc Hn Hb).
Qed.

(** X7.  An entry dated outside the month, or whose client name has no
    roster row of billing type Hourly (an unknown client, a retainer
    client), does not change anything that [calculate_monthly_stats]
    returns, for any year and month. *)
Theorem stats_ignore_unmatched_entry (today : date) (y m : Z)
  (clients : list Client) (es1 es2 : list TimeEntry) (e : TimeEntry)
  (invs : list Invoice) (settings : Settings) (nwd : list NonWorkDay) :
  in_month_window y m (te_date e) = false
  \/ (forall c, In c clients -> client_name c = te_client_name e ->
                billing_type c <> "Hourly"%string) ->
  calculate_monthly_stats today y m clients (es1 ++ e :: es2) invs settings
    nwd
  = calculate_monthly_stats today y m clients (es1 ++ es2) invs settings nwd.
Proof.
  intros H.
  destruct (valid_year y && valid_month m) eqn:Hv.
  - apply andb_true_iff in Hv.
    rewrite !calculate_monthly_stats_ok by exact Hv.
    f_equal. unfold monthly_stats_value.
    rewrite !hourly_totals_eq. cbn [fst snd].
    assert (Hm : merge (filter (fun e0 => in_month_window y m (te_date e0))
                               (es1 ++ e :: es2)) (hourly_clients_of clients)
                 = merge (filter (fun e0 => in_month_window y m (te_date e0))
                                 (es1 ++ es2)) (hourly_clients_of clients)).
    { rewrite !filter_app. cbn [filter].
      destruct (in_month_window y m (te_date e)) eqn:Hw; [|reflexivity].
      destruct H as [H|H]; [discriminate|].
      rewrite !merge_app, merge_cons, (rows_named_not_hourly _ _ H).
      reflexivity. }
    rewrite Hm. reflexivity.
  - rewrite !calculate_monthly_stats_invalid by exact Hv. reflexivity.
Qed.

Lemma stats_ignore_unmatched_entry_witness :
  calculate_monthly_stats (mkdate 2024 3 20) 2024 3 [acme; initech]
    (acme_entries ++ entry 2024 3 4 "Initech" 6 :: []) [] default_settings []
  = calculate_monthly_stats (mkdate 2024 3 20) 2024 3 [acme; initech]
      (acme_entries ++ []) [] default_settings [].
Proof.
  apply stats_ignore_unmatched_entry. right.
  intros c [<-|[<-|[]]]; cbn; intros; discriminate.
Defined.

Lemma weekday_range (d : date) : 0 <= weekday d <= 6.
Proof.
  unfold weekday. pose proof (Z.mod_pos_bound (toordinal d + 6) 7). lia.
Qed.

(** X8.  When none of the seven weekday names is in the work-day list of
    the settings (the empty setting, misspelt names), a valid month has 0
    work days and 0 days worked, and the targets derived from them are 0:
    nothing is divided. *)
Theorem stats_without_work_days (today : date) (y m : Z)
  (clients : list Client) (es : list TimeEntry) (invs : list Invoice)
  (settings : Settings) (nwd : list NonWorkDay) :
  valid_ym y m ->
  (forall i, 0 <= i <= 6 ->
             str_in (day_name i) (split "," (work_days settings)) = false) ->
  exists s,
    calculate_monthly_stats today y m clients es invs settings nwd = Ok s
    /\ total_work_days s = 0
    /\ days_worked s = 0
    /\ daily_target s = 0%Q
    /\ target_so_far s == 0
    /\ daily_hours_target s == 0.
Proof.
  intros Hv Hnames. rewrite calculate_monthly_stats_ok by exact Hv.
  eexists. split; [reflexivity|].
  assert (Hwd : forall d, is_work_day d (split "," (work_days settings)) nwd
                          = false).
  { intros d. rewrite is_work_day_eq. unfold weekday_in.
    rewrite (Hnames (weekday d) (weekday_range d)). reflexivity. }
  unfold monthly_stats_value.
  cbn [total_work_days days_worked daily_target target_so_far
       daily_hours_target].
  rewrite (count_none _ (month_dates y m)) by (intros d _; apply Hwd).
  rewrite (count_none _ (days_visited today y m))
    by (intros d _; rewrite Hwd; reflexivity).
  cbn [Z.ltb Z.compare].
  split; [reflexivity|]. split; [reflexivity|]. split; [reflexivity|].
  split; [ring|].
  destruct (Qlt_bool 0 (avg_hourly_rate_of clients)); [|reflexivity].
  unfold Qdiv. ring.
Qed.

Lemma stats_without_work_days_witness :
  exists s,
    calculate_monthly_stats (mkdate 2024 3 20) 2024 3 [acme] acme_entries []
      no_work_days_settings [] = Ok s
    /\ total_work_days s = 0
    /\ daily_target s = 0%Q.
Proof.
  destruct (stats_without_work_days (mkdate 2024 3 20) 2024 3 [acme]
              acme_entries [] no_work_days_settings [])
    as [s [Hs [Ht [_ [Hd _]]]]].
  - split; reflexivity.
  - intros i Hi.
    assert (Hc : i = 0 \/ i = 1 \/ i = 2 \/ i = 3 \/ i = 4 \/ i = 5 \/ i = 6)
      by lia.
    repeat (destruct Hc as [Hc|Hc]); subst i; reflexivity.
  - exists s. repeat split; assumption.
Defined.

(** X9.  A month outside 1..12: counting the work days raises
    [IllegalMonthError]; the statistics raise [ValueError] before any
    table is read; the hours of a client with entries raise [ValueError]
    for limit type Monthly. *)
Theorem month_out_of_range (to_datetime_str : string -> parsed)
  (today : date) (y m : Z) (clients : list Client) (es : list TimeEntry)
  (invs : list Invoice) (settings : Settings) (nwd : list NonWorkDay)
  (name : string) (csd : cell) :
  valid_month m = false ->
  get_work_days_in_month y m (split "," (work_days settings)) nwd
  = Raise IllegalMonthError
  /\ calculate_monthly_stats today y m clients es invs settings nwd
     = Raise ValueError
  /\ ((exists e, In e es /\ te_client_name e = name) ->
      calculate_client_hours to_datetime_str today name es (CStr "Monthly")
        csd (Some y) (Some m) = Raise ValueError).
Proof.
  intros Hm.
  assert (Hv : valid_year y && valid_month m = false)
    by (rewrite Hm; apply andb_false_r).
  split; [|split].
  - unfold get_work_days_in_month, monthrange. rewrite Hm. reflexivity.
  - apply calculate_monthly_stats_invalid. exact Hv.
  - intros [e [He Hn]]. unfold calculate_client_hours.
    destruct es as [|e0 es]; [contradiction|]. cbn [empty].
    destruct (filter (fun e1 => String.eqb (te_client_name e1) name)
                     (e0 :: es)) eqn:Hf.
    + assert (Hin : In e (filter (fun e1 => String.eqb (te_client_name e1)
                                                       name) (e0 :: es))).
      { apply filter_In. split; [exact He|]. apply String.eqb_eq. exact Hn. }
      rewrite Hf in Hin. contradiction.
    + cbn [empty isna orb cell_eq_str String.eqb Ascii.eqb Bool.eqb andb].
      unfold month_hours. cbn [fst snd]. unfold datetime at 1.
      rewrite Hv. reflexivity.
Qed.

Lemma month_out_of_range_witness :
  get_work_days_in_month 2024 13 mon_fri [] = Raise IllegalMonthError
  /\ calculate_monthly_stats (mkdate 2024 3 20) 2024 13 [acme] acme_entries
       [] default_settings [] = Raise ValueError.
Proof.
  destruct (month_out_of_range (fun _ => PError) (mkdate 2024 3 20) 2024 13
              [acme] acme_entries [] default_settings [] "Acme" CNone
              eq_refl) as [H1 [H2 _]].
  split; [exact H1|exact H2].
Defined.

(* ================================================================== *)
(** ** Hour-limit table                                                *)
(* ================================================================== *)

Lemma percentage_used_total (used limit : Q) :
  exists p, percentage_used used limit = Ok p.
Proof.
  unfold percentage_used, div.
  destruct (Qlt_bool 0 limit) eqn:H.
  - rewrite (Qlt_bool_pos_neq _ H). eexists. reflexivity.
  - eexists. reflexivity.
Qed.

(** X10.  An hour limit that is 0 or negative never divides: the usage is
    0 percent and the status is Good however many hours are logged.
    [percentage_used] returns for every input. *)
Theorem zero_limit_is_good (used limit : Q) :
  (exists p, percentage_used used limit = Ok p)
  /\ ((limit <= 0)%Q ->
      percentage_used used limit = Ok 0%Q /\ status_of 0 = Good).
Proof.
  split.
  - apply percentage_used_total.
  - intros H. split; [|reflexivity].
    unfold percentage_used.
    destruct (Qlt_bool 0 limit) eqn:E; [|reflexivity].
    apply Qlt_bool_iff in E. exfalso. exact (Qlt_not_le _ _ E H).
Qed.

Lemma zero_limit_is_good_witness :
  percentage_used 500 0 = Ok 0%Q /\ status_of 0 = Good.
Proof.
  apply (proj2 (zero_limit_is_good 500 0)). discriminate.
Defined.

Lemma client_hours_total (to_datetime_str : string -> parsed) (now : date)
  (name : string) (es : list TimeEntry) (lt csd : cell) (y m : Z) :
  valid_ym y m ->
  exists q,
    calculate_client_hours to_datetime_str now name es lt csd
      (Some y) (Some m) = Ok q.
Proof.
  intros Hv. destruct (cell_eq_str lt "Contract Total") eqn:Hlt.
  - destruct lt as [| |s]; try discriminate.
    cbn [cell_eq_str] in Hlt. apply String.eqb_eq in Hlt. subst s.
    apply (client_hours_contract_total to_datetime_str now name es csd).
  - rewrite (client_hours_not_contract _ _ _ _ lt) by exact Hlt.
    rewrite client_hours_monthly by exact Hv. eexists. reflexivity.
Qed.

Lemma limit_row_ok (to_datetime_str : string -> parsed) (now : date)
  (y m : Z) (es : list TimeEntry) (c : Client) :
  valid_ym y m ->
  exists row,
    limit_row to_datetime_str now y m es c = Ok row
    /\ lr_client row = client_name c
    /\ lr_total_limit row = hour_limit c
    /\ calculate_client_hours to_datetime_str now (client_name c) es
         (limit_type c) (contract_start_date c) (Some y) (Some m)
       = Ok (lr_hours_used row)
    /\ lr_hours_remaining row = (hour_limit c - lr_hours_used row)%Q
    /\ percentage_used (lr_hours_used row) (hour_limit c)
       = Ok (lr_usage row)
    /\ lr_status row = status_of (lr_usage row).
Proof.
  intros Hv. unfold limit_row.
  destruct (client_hours_total to_datetime_str now (client_name c) es
              (limit_type c) (contract_start_date c) y m Hv) as [q Hq].
  rewrite Hq. cbn [bind].
  destruct (percentage_used_total q (hour_limit c)) as [p Hp].
  rewrite Hp. cbn [bind]. eexists. split; [reflexivity|].
  cbn [lr_client lr_total_limit lr_hours_used lr_hours_remaining lr_usage
       lr_status].
  repeat split; try reflexivity; assumption.
Qed.

Lemma limit_rows_loop (to_datetime_str : string -> parsed) (now : date)
  (y m : Z) (es : list TimeEntry) :
  valid_ym y m ->
  forall (cs : list Client) (acc : list LimitRow),
  exists rows,
    for_ cs (fun client limit_data =>
               row <- limit_row to_datetime_str now y m es client ;;
               Ok (limit_data ++ [row])) acc
    = Ok (acc ++ rows)
    /\ Forall2 (row_of to_datetime_str now y m es) cs rows.
Proof.
  intros Hv. induction cs as [|c cs IH]; intros acc.
  - exists []. cbn [for_]. rewrite app_nil_r. split; [reflexivity|constructor].
  - destruct (limit_row_ok to_datetime_str now y m es c Hv) as [row [Hr Hrow]].
    destruct (IH (acc ++ [row])) as [rows [Hloop Hrows]].
    exists (row :: rows). cbn [for_]. rewrite Hr. cbn [bind].
    rewrite Hloop, <- app_assoc. split; [reflexivity|].
    constructor; [exact Hrow|exact Hrows].
Qed.

Lemma limit_table_ok (to_datetime_str : string -> parsed) (now : date)
  (y m : Z) (clients : list Client) (es : list TimeEntry) :
  valid_ym y m ->
  exists rows,
    limit_table to_datetime_str now y m clients es = Ok rows
    /\ Forall2 (row_of to_datetime_str now y m es)
               (filter (fun c => has_hour_limit c && active c) clients) rows.
Proof.
  intros Hv. unfold limit_table.
  destruct clients as [|c0 clients].
  { exists []. split; [reflexivity|constructor]. }
  cbn [empty negb].
  destruct (limit_rows_loop to_datetime_str now y m es Hv
              (filter (fun c => has_hour_limit c && active c)
                      (c0 :: clients)) []) as [rows [Hloop Hrows]].
  cbn [app] in Hloop.
  destruct (filter (fun c => has_hour_limit c && active c) (c0 :: clients))
    as [|c cs] eqn:Hf.
  - exists []. split; [reflexivity|constructor].
  - cbn [empty negb]. exists rows. split; [exact Hloop|exact Hrows].
Qed.

(** X12.  For a valid year and month the hour-limit table is built
    without an exception, whatever the limit types and start-date cells
    are.  It has one row for each client that is active and has
    [has_hour_limit] set, in roster order, and no other row (a client
    without the flag is left out whatever its [hour_limit]).  Every row
    carries the name and the limit of its client, the hours that
    [calculate_client_hours] returns for the selected month, the limit
    minus those hours, the percentage of line 402 and the status of that
    percentage. *)
Theorem limit_table_rows (to_datetime_str : string -> parsed) (now : date)
  (y m : Z) (clients : list Client) (es : list TimeEntry) :
  valid_ym y m ->
  exists rows,
    limit_table to_datetime_str now y m clients es = Ok rows
    /\ Forall2 (row_of to_datetime_str now y m es)
               (filter (fun c => has_hour_limit c && active c) clients) rows
    /\ map lr_client rows
       = map client_name
             (filter (fun c => has_hour_limit c && active c) clients).
Proof.
  intros Hv.
  destruct (limit_table_ok to_datetime_str now y m clients es Hv)
    as [rows [Hr Hrows]].
  exists rows. split; [exact Hr|]. split; [exact Hrows|].
  clear Hr. revert Hrows.
  generalize (filter (fun c => has_hour_limit c && active c) clients).
  intros cs Hrows.
  induction Hrows as [|c row cs rows' Hrow _ IH]; [reflexivity|].
  cbn [map]. rewrite IH. destruct Hrow as [-> _]. reflexivity.
Qed.

Lemma limit_table_rows_witness :
  exists rows,
    limit_table (fun _ => PError) (mkdate 2024 3 20) 2024 3
      [acme; acme_limited; initech] acme_entries = Ok rows
    /\ map lr_client rows = ["Acme"%string].
Proof.
  destruct (limit_table_rows (fun _ => PError) (mkdate 2024 3 20) 2024 3
              [acme; acme_limited; initech] acme_entries)
    as [rows [Hr [_ Hn]]].
  - split; reflexivity.
  - exists rows. split; [exact Hr|exact Hn].
Defined.

(* ================================================================== *)
(** ** Calendar page                                                   *)
(* ================================================================== *)

Lemma date_eqb_sym (a b : date) : date_eqb a b = date_eqb b a.
Proof.
  unfold date_eqb.
  rewrite (Z.eqb_sym (year a)), (Z.eqb_sym (month a)), (Z.eqb_sym (day a)).
  reflexivity.
Qed.

(** The test of lines 675-678 is the membership test of [is_work_day]. *)
Lemma day_record_marked (nwd : list NonWorkDay) (d : date) :
  (if negb (empty nwd)
   then if negb (empty (filter (fun r => date_eqb (nwd_date r) d) nwd))
        then true else false
   else false)
  = marked_off nwd d.
Proof.
  unfold marked_off, date_in.
  destruct nwd as [|r0 nwd]; [reflexivity|]. cbn [empty negb].
  induction (r0 :: nwd) as [|r l IH]; [reflexivity|].
  cbn [filter map existsb]. rewrite (date_eqb_sym d).
  destruct (date_eqb (nwd_date r) d); [reflexivity|exact IH].
Qed.

(** X13.  A day of the month is drawn as a work day (green, the button
    that marks a holiday) exactly when [is_work_day] holds for its date,
    and as a holiday (gray, the button that removes it) exactly when its
    weekday is a regular work day and its date is in the non-work-day
    table; a date of the table that falls on a weekday outside the regular
    work days is drawn as non-work and has no button.  A 0 of the grid is
    a blank cell. *)
Theorem calendar_cell_kinds (y m : Z) (work_days_list : list string)
  (non_work_days_df : list NonWorkDay) (day : Z) :
  valid_ym y m ->
  1 <= day <= days_in_month y m ->
  let d := mkdate y m day in
  exists k,
    calendar_cell y m work_days_list non_work_days_df day = Ok k
    /\ (k = CellWorkDay day
        <-> is_work_day d work_days_list non_work_days_df = true)
    /\ (k = CellHoliday day
        <-> weekday_in work_days_list d = true
            /\ marked_off non_work_days_df d = true)
    /\ (k = CellNonWork day <-> weekday_in work_days_list d = false)
    /\ k <> CellBlank
    /\ calendar_cell y m work_days_list non_work_days_df 0 = Ok CellBlank.
Proof.
  intros Hv Hday d. unfold calendar_cell.
  replace (day =? 0) with false by lia.
  rewrite datetime_ok by (auto; lia). cbn [bind]. fold d.
  rewrite day_record_marked, is_work_day_eq. unfold weekday_in.
  eexists. split; [reflexivity|].
  destruct (str_in (day_name (weekday d)) work_days_list);
    destruct (marked_off non_work_days_df d); cbn [negb andb];
    repeat split; intros; try discriminate; try reflexivity;
    repeat match goal with H : _ /\ _ |- _ => destruct H end;
    try discriminate.
Qed.

Lemma calendar_cell_kinds_witness :
  exists k,
    calendar_cell 2024 3 mon_fri
      [mkNonWorkDay (mkdate 2024 3 30) "Trip"] 30 = Ok k
    /\ (k = CellNonWork 30 <-> weekday_in mon_fri (mkdate 2024 3 30) = false).
Proof.
  destruct (calendar_cell_kinds 2024 3 mon_fri
              [mkNonWorkDay (mkdate 2024 3 30) "Trip"] 30)
    as [k [Hk [_ [_ [Hn _]]]]].
  - split; reflexivity.
  - change (1 <= 30 <= 31). lia.
  - exists k. split; [exact Hk|exact Hn].
Defined.

Lemma marked_off_mark (nwd : list NonWorkDay) (d x : date) (reason : string) :
  marked_off (mark_non_work_day nwd d reason) x
  = marked_off nwd x || date_eqb x d.
Proof.
  unfold marked_off, mark_non_work_day, date_in.
  rewrite map_app, existsb_app. cbn [map existsb nwd_date].
  rewrite orb_false_r. reflexivity.
Qed.

Lemma marked_off_unmark (nwd : list NonWorkDay) (d x : date) :
  marked_off (unmark_non_work_day nwd d) x
  = marked_off nwd x && negb (date_eqb x d).
Proof.
  unfold marked_off, unmark_non_work_day, date_in.
  induction nwd as [|r nwd IH]; [reflexivity|].
  cbn [filter map existsb].
  destruct (date_eqb (nwd_date r) d) eqn:E.
  - cbn [negb]. rewrite IH. apply date_eqb_eq in E.
    destruct (date_eqb x (nwd_date r)) eqn:Ex.
    + apply date_eqb_eq in Ex. subst x. rewrite E, date_eqb_refl.
      cbn [orb negb]. rewrite !andb_false_r. reflexivity.
    + reflexivity.
  - cbn [negb map existsb]. rewrite IH.
    destruct (date_eqb x (nwd_date r)) eqn:Ex; [|reflexivity].
    apply date_eqb_eq in Ex. subst x. rewrite E. reflexivity.
Qed.

(** Changing a predicate at one date changes a count over distinct dates
    by at most one. *)
Lemma count_change_at (p p' : date -> bool) (d : date) (l : list date) :
  NoDup l ->
  (forall x, x <> d -> p' x = p x) ->
  count p' l
  = count p l + (if date_in d l then Z.b2z (p' d) - Z.b2z (p d) else 0).
Proof.
  intros Hnd Hsame. induction l as [|a l IH].
  - cbn. reflexivity.
  - inversion Hnd as [|? ? Hnotin Hnd']; subst.
    rewrite !count_cons, (IH Hnd').
    unfold date_in. cbn [existsb]. fold (date_in d l).
    destruct (date_eqb d a) eqn:E.
    + apply date_eqb_eq in E. subst a.
      destruct (date_in d l) eqn:Hin;
        [apply date_in_In in Hin; contradiction|].
      cbn [orb]. destruct (p d), (p' d); cbn [Z.b2z]; lia.
    + cbn [orb]. rewrite Hsame; [lia|].
      intros ->. rewrite date_eqb_refl in E. discriminate.
Qed.

(** X14.  Saving a non-work day appends one row.  For a valid month the
    number of work days drops by exactly one when the date is a work day
    of that month (the only days the calendar offers the button for), and
    stays the same for any other date. *)
Theorem mark_non_work_day_count (y m : Z) (work_days_list : list string)
  (non_work_days_df : list NonWorkDay) (d : date) (reason : string) :
  valid_ym y m ->
  exists n n',
    get_work_days_in_month y m work_days_list non_work_days_df = Ok n
    /\ get_work_days_in_month y m work_days_list
         (mark_non_work_day non_work_days_df d reason) = Ok n'
    /\ n' = n - (if in_month_window y m d
                    && is_work_day d work_days_list non_work_days_df
                 then 1 else 0).
Proof.
  intros Hv. rewrite !get_work_days_in_month_ok by exact Hv.
  do 2 eexists. split; [reflexivity|]. split; [reflexivity|].
  rewrite (count_change_at
             (fun x => is_work_day x work_days_list non_work_days_df)
             _ d (month_dates y m) (month_dates_NoDup y m)).
  - rewrite <- in_month_window_dates, !is_work_day_eq, marked_off_mark,
      date_eqb_refl, orb_true_r.
    destruct (in_month_window y m d); cbn [andb]; [|lia].
    destruct (weekday_in work_days_list d); cbn [andb negb Z.b2z]; [|lia].
    destruct (marked_off non_work_days_df d); cbn [negb Z.b2z]; lia.
  - intros x Hx. rewrite !is_work_day_eq, marked_off_mark.
    replace (date_eqb x d) with false; [rewrite orb_false_r; reflexivity|].
    symmetry. apply not_true_is_false. intros H. apply date_eqb_eq in H.
    contradiction.
Qed.

Lemma mark_non_work_day_count_witness :
  exists n n',
    get_work_days_in_month 2024 3 mon_fri [] = Ok n
    /\ get_work_days_in_month 2024 3 mon_fri
         (mark_non_work_day [] (mkdate 2024 3 29) "Good Friday") = Ok n'
    /\ n' = n - 1.
Proof.
  destruct (mark_non_work_day_count 2024 3 mon_fri [] (mkdate 2024 3 29)
              "Good Friday") as [n [n' [H1 [H2 H3]]]].
  - split; reflexivity.
  - exists n, n'. split; [exact H1|]. split; [exact H2|exact H3].
Defined.

(** X15.  Clicking a holiday removes every row of its date.  For a valid
    month the number of work days grows by exactly one when the date is in
    the month, on a regular work day and was in the table (the only days
    the calendar offers the button for), and stays the same otherwise. *)
Theorem unmark_non_work_day_count (y m : Z) (work_days_list : list string)
  (non_work_days_df : list NonWorkDay) (d : date) :
  valid_ym y m ->
  exists n n',
    get_work_days_in_month y m work_days_list non_work_days_df = Ok n
    /\ get_work_days_in_month y m work_days_list
         (unmark_non_work_day non_work_days_df d) = Ok n'
    /\ n' = n + (if in_month_window y m d && weekday_in work_days_list d
                    && marked_off non_work_days_df d
                 then 1 else 0).
Proof.
  intros Hv. rewrite !get_work_days_in_month_ok by exact Hv.
  do 2 eexists. split; [reflexivity|]. split; [reflexivity|].
  rewrite (count_change_at
             (fun x => is_work_day x work_days_list non_work_days_df)
             _ d (month_dates y m) (month_dates_NoDup y m)).
  - rewrite <- in_month_window_dates, !is_work_day_eq, marked_off_unmark,
      date_eqb_refl.
    cbn [negb]. rewrite andb_false_r.
    destruct (in_month_window y m d); cbn [andb]; [|lia].
    destruct (weekday_in work_days_list d); cbn [andb negb Z.b2z]; [|lia].
    destruct (marked_off non_work_days_df d); cbn [negb Z.b2z]; lia.
  - intros x Hx. rewrite !is_work_day_eq, marked_off_unmark.
    replace (date_eqb x d) with false;
      [cbn [negb]; rewrite andb_true_r; reflexivity|].
    symmetry. apply not_true_is_false. intros H. apply date_eqb_eq in H.
    contradiction.
Qed.

Lemma unmark_non_work_day_count_witness :
  exists n n',
    get_work_days_in_month 2024 3 mon_fri
      [mkNonWorkDay (mkdate 2024 3 29) "Good Friday"] = Ok n
    /\ get_work_days_in_month 2024 3 mon_fri
         (unmark_non_work_day [mkNonWorkDay (mkdate 2024 3 29) "Good Friday"]
            (mkdate 2024 3 29)) = Ok n'
    /\ n' = n + 1.
Proof.
  destruct (unmark_non_work_day_count 2024 3 mon_fri
              [mkNonWorkDay (mkdate 2024 3 29) "Good Friday"]
              (mkdate 2024 3 29)) as [n [n' [H1 [H2 H3]]]].
  - split; reflexivity.
  - exists n, n'. split; [exact H1|]. split; [exact H2|exact H3].
Defined.

(** X16.  Removing a date after marking it gives back the table it was
    marked in when the date was not in that table; removing a date keeps
    exactly the rows of the other dates, in their order, and a second
    removal changes nothing. *)
Theorem unmark_after_mark (non_work_days_df : list NonWorkDay) (d : date)
  (reason : string) :
  (marked_off non_work_days_df d = false ->
   unmark_non_work_day (mark_non_work_day non_work_days_df d reason) d
   = non_work_days_df)
  /\ (forall r, In r (unmark_non_work_day non_work_days_df d)
                <-> In r non_work_days_df /\ nwd_date r <> d)
  /\ unmark_non_work_day (unmark_non_work_day non_work_days_df d) d
     = unmark_non_work_day non_work_days_df d
  /\ marked_off (unmark_non_work_day non_work_days_df d) d = false.
Proof.
  split; [|split; [|split]].
  - intros H. unfold unmark_non_work_day, mark_non_work_day.
    rewrite filter_app. cbn [filter nwd_date]. rewrite date_eqb_refl.
    cbn [negb]. rewrite app_nil_r.
    induction non_work_days_df as [|r l IH]; [reflexivity|].
    unfold marked_off in H, IH. cbn [map date_in existsb] in H.
    apply orb_false_iff in H. destruct H as [Hr Hl].
    cbn [filter]. rewrite date_eqb_sym, Hr. cbn [negb].
    rewrite (IH Hl). reflexivity.
  - intros r. unfold unmark_non_work_day. rewrite filter_In.
    rewrite negb_true_iff. split; intros [Hin Hne]; split; try exact Hin.
    + intros E. apply date_eqb_eq in E. congruence.
    + apply not_true_is_false. intros E. apply date_eqb_eq in E.
      contradiction.
  - unfold unmark_non_work_day. rewrite <- filter_andb.
    apply filter_ext. intros r. apply andb_diag.
  - rewrite marked_off_unmark, date_eqb_refl. apply andb_false_r.
Qed.

Lemma unmark_after_mark_witness :
  unmark_non_work_day
    (mark_non_work_day [mkNonWorkDay (mkdate 2024 3 29) "Good Friday"]
       (mkdate 2024 3 28) "Trip") (mkdate 2024 3 28)
  = [mkNonWorkDay (mkdate 2024 3 29) "Good Friday"].
Proof.
  apply (proj1 (unmark_after_mark
                  [mkNonWorkDay (mkdate 2024 3 29) "Good Friday"]
                  (mkdate 2024 3 28) "Trip")).
  reflexivity.
Defined.

(* ================================================================== *)
(** ** Settings: the work days written and read back                   *)
(* ================================================================== *)

Lemma split_no_sep (sep : ascii) (s : string) :
  has_char sep s = false -> split sep s = [s].
Proof.
  induction s as [|c s IH]; intros H; [reflexivity|].
  cbn [has_char] in H. apply orb_false_iff in H. destruct H as [Hc Hs].
  cbn [split]. rewrite Hc, (IH Hs). reflexivity.
Qed.

Lemma split_app_sep (sep : ascii) (x rest : string) :
  has_char sep x = false ->
  split sep (x ++ String sep rest) = x :: split sep rest.
Proof.
  induction x as [|c x IH]; intros H.
  - cbn [String.append split]. rewrite Ascii.eqb_refl. reflexivity.
  - cbn [has_char] in H. apply orb_false_iff in H. destruct H as [Hc Hx].
    cbn [String.append split]. rewrite Hc, (IH Hx). reflexivity.
Qed.

Lemma split_join (l : list string) :
  l <> [] ->
  (forall w, In w l -> has_char "," w = false) ->
  split "," (join "," l) = l.
Proof.
  induction l as [|x l IH]; intros Hne Hl; [contradiction|].
  destruct l as [|x' l].
  - cbn [join]. apply split_no_sep. apply Hl. left. reflexivity.
  - change (join "," (x :: x' :: l))
      with (x ++ String "," (join "," (x' :: l)))%string.
    rewrite split_app_sep by (apply Hl; left; reflexivity).
    rewrite IH; [reflexivity|discriminate|].
    intros w Hw. apply Hl. right. exact Hw.
Qed.

(** X17.  The settings page saves only a selection that is not empty.
    The work days it saves are joined with commas, and splitting the saved
    text at the commas, as the statistics and the pages do, gives back the
    selected list whenever no name holds a comma. *)
Theorem settings_work_days_round_trip (target : Q)
  (work_days_selected : list string) :
  (work_days_selected <> [] ->
   (forall w, In w work_days_selected -> has_char "," w = false) ->
   exists s,
     show_settings_save target work_days_selected = Some s
     /\ split "," (work_days s) = work_days_selected
     /\ monthly_target s = target)
  /\ show_settings_save target [] = None.
Proof.
  split; [|reflexivity].
  intros Hne Hl. unfold show_settings_save.
  destruct work_days_selected as [|w l]; [contradiction|].
  cbn [empty negb]. eexists. split; [reflexivity|].
  split; [|reflexivity].
  unfold save_settings. cbn [work_days]. apply split_join; assumption.
Qed.

Lemma settings_work_days_round_trip_witness :
  exists s,
    show_settings_save 8000 mon_fri = Some s
    /\ split "," (work_days s) = mon_fri.
Proof.
  destruct (proj1 (settings_work_days_round_trip 8000 mon_fri))
    as [s [Hs [Hw _]]].
  - discriminate.
  - intros w Hw.
    repeat (destruct Hw as [<-|Hw]; [reflexivity|]). contradiction.
  - exists s. split; assumption.
Defined.

(* ================================================================== *)
(** ** Month selector of the dashboard                                 *)
(* ================================================================== *)

Lemma month_order_In (cm k : Z) :
  valid_month cm = true -> In k (month_order cm) <-> 1 <= k <= 12.
Proof.
  intros Hcm. unfold valid_month in Hcm. unfold month_order.
  rewrite in_app_iff, !range_In. lia.
Qed.

(** X18.  For a current month in 1..12 the month list of the dashboard
    starts at the current month and holds each of the twelve months exactly
    once, and selecting the name of a month gives back the number of that
    month. *)
Theorem month_selector (current_month : Z) :
  valid_month current_month = true ->
  nth 0 (month_order current_month) 0 = current_month
  /\ List.length (month_order current_month) = 12%nat
  /\ NoDup (month_order current_month)
  /\ (forall k, In k (month_order current_month) <-> 1 <= k <= 12)
  /\ (forall k, valid_month k = true ->
                selected_month_of current_month
                  (nth (Z.to_nat k) month_names EmptyString) = Ok k).
Proof.
  intros Hcm. split; [|split; [|split; [|split]]].
  - apply valid_month_cases in Hcm.
    repeat (destruct Hcm as [Hcm|Hcm]); subst; reflexivity.
  - apply valid_month_cases in Hcm.
    repeat (destruct Hcm as [Hcm|Hcm]); subst; reflexivity.
  - unfold month_order. apply NoDup_app; try apply range_NoDup.
    intros a Ha Hb. apply range_In in Ha. apply range_In in Hb. lia.
  - intros k. apply month_order_In. exact Hcm.
  - intros k Hk. apply valid_month_cases in Hcm. apply valid_month_cases in Hk.
    repeat (destruct Hcm as [Hcm|Hcm]); subst current_month;
      repeat (destruct Hk as [Hk|Hk]); subst k; vm_compute; reflexivity.
Qed.

Lemma month_selector_witness :
  selected_month_of 11 "February" = Ok 2.
Proof.
  exact (proj2 (proj2 (proj2 (proj2 (month_selector 11 eq_refl))))
           2 eq_refl).
Defined.

(* ================================================================== *)
(** ** Adding a client                                                 *)
(* ================================================================== *)

(** X19.  The client form is refused exactly for an empty name, a name
    already in the roster, or an hour limit that is set and not positive.
    An accepted form appends one row and leaves the other rows as they
    were, so a roster with distinct names keeps distinct names.  The new
    row is active and takes its name, billing type and hour-limit flag
    from the form; its rate is that of the form for an hourly client and
    0 for any other; with the flag set it takes the limit type and the
    limit of the form, and the limit is positive; without the flag its
    limit type is ["None"] and its limit 0, whatever the form holds; its
    start date is the date of the form as text. *)
Theorem add_client_outcome (strftime : date -> string) (f : ClientForm)
  (clients : list Client) :
  let refused :=
    f_client_name f = EmptyString
    \/ In (f_client_name f) (map client_name clients)
    \/ (f_has_hour_limit f = true /\ (f_hour_limit f <= 0)%Q) in
  match add_client strftime f clients with
  | Rejected _ => refused
  | Saved clients' =>
      ~ refused
      /\ (NoDup (map client_name clients) ->
          NoDup (map client_name clients'))
      /\ exists c,
           clients' = clients ++ [c]
           /\ client_name c = f_client_name f
           /\ active c = true
           /\ billing_type c = f_billing_type f
           /\ hourly_rate c
              = (if String.eqb (f_billing_type f) "Hourly"
                 then f_hourly_rate_input f else 0%Q)
           /\ has_hour_limit c = f_has_hour_limit f
           /\ (f_has_hour_limit f = true ->
               limit_type c = CStr (f_limit_type f)
               /\ hour_limit c = f_hour_limit f
               /\ (0 < hour_limit c)%Q)
           /\ (f_has_hour_limit f = false ->
               limit_type c = CStr "None" /\ hour_limit c = 0%Q)
           /\ contract_start_date c
              = CStr (strftime (f_contract_start_date f))
  end.
Proof.
  cbv zeta. unfold add_client.
  destruct (String.eqb_spec (f_client_name f) "") as [Hname|Hname];
    [left; exact Hname|].
  destruct (str_in (f_client_name f) (map client_name clients)) eqn:Hin.
  { right. left. apply str_in_In. exact Hin. }
  assert (Hnotin : ~ In (f_client_name f) (map client_name clients)).
  { intros H. apply str_in_In in H. congruence. }
  assert (Hnd : NoDup (map client_name clients) ->
                forall c, client_name c = f_client_name f ->
                          NoDup (map client_name (clients ++ [c]))).
  { intros Hnd c Hc. rewrite map_app. cbn [map]. rewrite Hc.
    apply NoDup_app; [exact Hnd|repeat constructor; intros []|].
    intros a Ha [<-|[]]. contradiction. }
  destruct (f_has_hour_limit f) eqn:Hlim; cbn [andb negb].
  - destruct (Qle_bool (f_hour_limit f) 0) eqn:Hle.
    { right. right. split; [reflexivity|]. apply Qle_bool_iff. exact Hle. }
    rewrite andb_false_r.
    assert (Hpos : (0 < f_hour_limit f)%Q).
    { apply Qnot_le_lt. intros H. apply Qle_bool_iff in H. congruence. }
    split; [|split].
    + intros [H|[H|[_ H]]]; [contradiction|contradiction|].
      exact (Qlt_not_le _ _ Hpos H).
    + intros H. apply Hnd; [exact H|reflexivity].
    + eexists. split; [reflexivity|].
      cbn [client_name active has_hour_limit limit_type hour_limit
           billing_type hourly_rate contract_start_date].
      repeat split; try reflexivity; try discriminate. exact Hpos.
  - split; [|split].
    + intros [H|[H|[H _]]]; [contradiction|contradiction|discriminate].
    + intros H. apply Hnd; [exact H|reflexivity].
    + eexists. split; [reflexivity|].
      cbn [client_name active has_hour_limit limit_type hour_limit
           billing_type hourly_rate contract_start_date].
      repeat split; try reflexivity; discriminate.
Qed.

Lemma add_client_outcome_witness :
  exists clients',
    add_client (fun _ => "2024-03-20"%string) globex_form [acme]
    = Saved clients'
    /\ NoDup (map client_name clients').
Proof.
  pose proof (add_client_outcome (fun _ => "2024-03-20"%string) globex_form
                [acme]) as H.
  cbv zeta in H.
  destruct (add_client (fun _ => "2024-03-20"%string) globex_form [acme])
    as [msg|clients'] eqn:E; [discriminate E|].
  exists clients'. split; [reflexivity|].
  destruct H as [_ [Hnd _]]. apply Hnd.
  repeat constructor. intros [].
Defined.

(* ================================================================== *)
(** ** Scenario planning                                               *)
(* ================================================================== *)

Lemma chart_loop_ok (stats : Stats) (y m : Z) (clients : list Client)
  (es : list TimeEntry) (invs : list Invoice) (wdl : list string)
  (nwd : list NonWorkDay) :
  valid_ym y m ->
  for_ (range 1 (days_in_month y m + 1))
       (fun day c =>
          d <- datetime y m day ;;
          Ok (chart_step stats clients es invs wdl nwd d c))
       chart_init
  = Ok (chart_run stats clients es invs wdl nwd (month_dates y m) chart_init).
Proof.
  intros Hv.
  rewrite (for_ok (fun day c =>
                     chart_step stats clients es invs wdl nwd
                       (mkdate y m day) c)).
  - unfold chart_run, month_dates. rewrite fold_left_over_map. reflexivity.
  - intros day c Hin. apply range_In in Hin.
    rewrite datetime_ok; [reflexivity|exact Hv|lia].
Qed.

Lemma merged_income_window_app (y m : Z) (hc : list Client)
  (es scenario : list TimeEntry) :
  merged_income
    (merge (filter (fun e => in_month_window y m (te_date e))
                   (es ++ scenario)) hc)
  == merged_income
       (merge (filter (fun e => in_month_window y m (te_date e)) es) hc)
     + Qsum (map (entry_income hc)
                 (filter (fun e => in_month_window y m (te_date e))
                         scenario)).
Proof.
  rewrite filter_app, merge_app, merged_income_app.
  rewrite (merged_income_entries hc (filter _ scenario)). reflexivity.
Qed.

Lemma combined_entries_app (es scenario : list TimeEntry) :
  combined_entries es scenario = es ++ scenario.
Proof.
  unfold combined_entries. destruct scenario; [|reflexivity].
  cbn [empty negb]. rewrite app_nil_r. reflexivity.
Qed.

Lemma show_scenario_planning_ok (to_datetime_str : string -> parsed)
  (today : date) (y m : Z) (clients : list Client) (es : list TimeEntry)
  (invs : list Invoice) (settings : Settings) (nwd : list NonWorkDay)
  (scenario : list TimeEntry) :
  valid_ym y m ->
  (exists c, In c clients /\ active c = true
             /\ billing_type c = "Hourly"%string) ->
  let stats :=
    monthly_stats_value today y m clients (es ++ scenario) invs settings
      nwd in
  exists limits,
    show_scenario_planning to_datetime_str today y m clients es invs
      settings nwd scenario
    = Ok (Some {| sp_stats := stats;
                  sp_difference :=
                    (total_income stats - st_monthly_target stats)%Q;
                  sp_limits := limits;
                  sp_chart :=
                    chart_run stats clients (es ++ scenario) invs
                      (split "," (work_days settings)) nwd
                      (month_dates y m) chart_init |}).
Proof.
  intros Hv [c [Hin [Hact Hbill]]] stats. unfold show_scenario_planning.
  destruct (filter (fun c0 => active c0
                              && String.eqb (billing_type c0) "Hourly")
                   clients) as [|c' cs] eqn:Hf.
  { assert (Hc : In c (filter (fun c0 => active c0
                                         && String.eqb (billing_type c0)
                                                       "Hourly") clients)).
    { apply filter_In. split; [exact Hin|].
      rewrite Hact, Hbill. reflexivity. }
    rewrite Hf in Hc. contradiction. }
  cbn [map empty]. rewrite combined_entries_app.
  rewrite calculate_monthly_stats_ok by exact Hv. cbn [bind]. fold stats.
  destruct (limit_table_ok to_datetime_str today y m clients (es ++ scenario)
              Hv) as [limits [Hl _]].
  rewrite Hl. cbn [bind].
  destruct (monthrange_ok y m (proj2 Hv)) as [w ->]. cbn [bind snd].
  rewrite chart_loop_ok by exact Hv. cbn [bind].
  exists limits. reflexivity.
Qed.



Example scenario_projection_value :
  Qsum (map (entry_income (hourly_clients_of [acme]))
            (filter (fun e => in_month_window 2024 3 (te_date e))
                    [entry 2024 3 25 "Acme" 4])) == 400.
Proof. vm_compute. reflexivity. Qed.

(* ================================================================== *)
(** ** Monthly breakdown by client                                     *)
(* ================================================================== *)

Lemma insert_sorted_In (x a : string) (l : list string) :
  In a (insert_sorted x l) <-> a = x \/ In a l.
Proof.
  induction l as [|y l IH]; cbn [insert_sorted].
  - cbn. intuition congruence.
  - destruct (String.leb x y); cbn [In]; [intuition congruence|].
    rewrite IH. intuition congruence.
Qed.

Lemma insert_sorted_NoDup (x : string) (l : list string) :
  ~ In x l -> NoDup l -> NoDup (insert_sorted x l).
Proof.
  induction l as [|y l IH]; intros Hx Hnd; cbn [insert_sorted].
  - constructor; [intros []|constructor].
  - destruct (String.leb x y); [constructor; assumption|].
    inversion Hnd as [|? ? Hy Hl]; subst. constructor.
    + rewrite insert_sorted_In. intros [->|H]; [|contradiction].
      apply Hx. left. reflexivity.
    + apply IH; [|exact Hl]. intros H. apply Hx. right. exact H.
Qed.

Lemma sort_strings_In (a : string) (l : list string) :
  In a (sort_strings l) <-> In a l.
Proof.
  induction l as [|x l IH]; [reflexivity|].
  cbn [sort_strings fold_right]. fold (sort_strings l).
  rewrite insert_sorted_In, IH. cbn [In]. intuition congruence.
Qed.

Lemma sort_strings_NoDup (l : list string) :
  NoDup l -> NoDup (sort_strings l).
Proof.
  induction l as [|x l IH]; intros Hnd; [constructor|].
  inversion Hnd as [|? ? Hx Hl]; subst.
  cbn [sort_strings fold_right]. fold (sort_strings l).
  apply insert_sorted_NoDup; [|apply IH; exact Hl].
  rewrite sort_strings_In. exact Hx.
Qed.

Lemma merge_groups_nil_r (groups : list (string * Q)) :
  merge_groups groups [] = [].
Proof. induction groups as [|g gs IH]; [reflexivity|]. exact IH. Qed.

(** The guards of lines 446-451 only skip empty tables. *)
Lemma hourly_breakdown_rows_map (clients : list Client)
  (mes : list TimeEntry) :
  hourly_breakdown_rows clients mes
  = map (fun r : (string * Q) * Q =>
           {| br_client := fst (fst r);
              br_billing_type := "Hourly";
              br_hours := snd (fst r);
              br_rate := snd r;
              br_total_invoice := (snd (fst r) * snd r)%Q |})
        (merge_groups (groupby_sum te_client_name te_hours mes)
                      (hourly_clients_of clients)).
Proof.
  unfold hourly_breakdown_rows.
  destruct mes as [|e mes]; [reflexivity|].
  destruct clients as [|c clients].
  { unfold hourly_clients_of. cbn [filter empty negb andb].
    rewrite merge_groups_nil_r. reflexivity. }
  cbn [empty negb andb].
  destruct (hourly_clients_of (c :: clients)) as [|h hc].
  { cbn [empty negb]. rewrite merge_groups_nil_r. reflexivity. }
  cbn [empty negb].
  destruct (merge_groups _ (h :: hc)) as [|r rs]; reflexivity.
Qed.

Lemma retainer_breakdown_rows_map (minv : list Invoice) :
  retainer_breakdown_rows minv
  = map (fun g : string * Q =>
           {| br_client := fst g;
              br_billing_type := "Retainer/Flat Fee";
              br_hours := 0;
              br_rate := 0;
              br_total_invoice := snd g |})
        (groupby_sum inv_client_name inv_amount minv).
Proof. destruct minv; reflexivity. Qed.

(** The keys of a grouped table: the keys of the rows, each once. *)
Lemma groupby_sum_keys {A} (key : A -> string) (val : A -> Q)
  (rows : list A) :
  map fst (groupby_sum key val rows)
  = sort_strings (nodup string_dec (map key rows)).
Proof. unfold groupby_sum. rewrite map_map. apply map_id. Qed.

Lemma groupby_sum_In {A} (key : A -> string) (val : A -> Q)
  (rows : list A) (name : string) :
  In name (map fst (groupby_sum key val rows))
  <-> exists a, In a rows /\ key a = name.
Proof.
  rewrite groupby_sum_keys, sort_strings_In, nodup_In, in_map_iff.
  split; intros [a [H1 H2]]; exists a; auto.
Qed.

(** A joined group table lists a name exactly when the name is a group
    and a client row bears it. *)
Lemma merge_groups_In (groups : list (string * Q)) (hc : list Client)
  (name : string) :
  In name (map (fun r : (string * Q) * Q => fst (fst r))
               (merge_groups groups hc))
  <-> In name (map fst groups)
      /\ exists c, In c hc /\ client_name c = name.
Proof.
  unfold merge_groups. rewrite !in_map_iff. split.
  - intros [r [Hn Hr]]. apply in_flat_map in Hr.
    destruct Hr as [g [Hg Hr]]. apply in_map_iff in Hr.
    destruct Hr as [c [<- Hc]]. apply filter_In in Hc.
    destruct Hc as [Hc Heq]. apply String.eqb_eq in Heq.
    cbn [fst] in Hn. subst name. split.
    + exists g. split; [reflexivity|exact Hg].
    + exists c. split; [exact Hc|exact Heq].
  - intros [[g [Hn Hg]] [c [Hc Heq]]]. exists (g, hourly_rate c).
    split; [exact Hn|]. apply in_flat_map. exists g. split; [exact Hg|].
    apply in_map_iff. exists c. split; [reflexivity|].
    apply filter_In. split; [exact Hc|].
    apply String.eqb_eq. congruence.
Qed.

Lemma merge_In_names (mes : list TimeEntry) (hc : list Client)
  (name : string) :
  In name (map (fun r : TimeEntry * Q => te_client_name (fst r))
               (merge mes hc))
  <-> (exists e, In e mes /\ te_client_name e = name)
      /\ exists c, In c hc /\ client_name c = name.
Proof.
  unfold merge. rewrite in_map_iff. split.
  - intros [r [Hn Hr]]. apply in_flat_map in Hr.
    destruct Hr as [e [He Hr]]. apply in_map_iff in Hr.
    destruct Hr as [c [<- Hc]]. apply filter_In in Hc.
    destruct Hc as [Hc Heq]. apply String.eqb_eq in Heq.
    cbn [fst] in Hn. split.
    + exists e. split; [exact He|exact Hn].
    + exists c. split; [exact Hc|congruence].
  - intros [[e [He Hn]] [c [Hc Heq]]]. exists (e, hourly_rate c).
    split; [exact Hn|]. apply in_flat_map. exists e. split; [exact He|].
    apply in_map_iff. exists c. split; [reflexivity|].
    apply filter_In. split; [exact Hc|].
    apply String.eqb_eq. congruence.
Qed.

Lemma map_nil_iff {A B} (f : A -> B) (l : list A) : map f l = [] <-> l = [].
Proof. destruct l; split; intros H; try reflexivity; discriminate. Qed.

Lemma no_member_nil {A} (l : list A) : (forall a, ~ In a l) <-> l = [].
Proof.
  destruct l as [|a l]; split; intros H; try reflexivity.
  - intros a []. 
  - exfalso. apply (H a). left. reflexivity.
  - discriminate.
Qed.

(** The hourly part of the breakdown has no row exactly when the join of
    the statistics has none. *)
Lemma hourly_breakdown_rows_nil (clients : list Client)
  (mes : list TimeEntry) :
  hourly_breakdown_rows clients mes = []
  <-> merge mes (hourly_clients_of clients) = [].
Proof.
  rewrite hourly_breakdown_rows_map, map_nil_iff.
  rewrite <- (map_nil_iff (fun r : (string * Q) * Q => fst (fst r))).
  rewrite <- (map_nil_iff (fun r : TimeEntry * Q => te_client_name (fst r))
                          (merge _ _)).
  rewrite <- !no_member_nil.
  split; intros H name Hin; apply (H name).
  - apply merge_groups_In. apply merge_In_names in Hin.
    destruct Hin as [He Hc]. split; [|exact Hc].
    apply groupby_sum_In. exact He.
  - apply merge_In_names. apply merge_groups_In in Hin.
    destruct Hin as [Hg Hc]. split; [|exact Hc].
    apply groupby_sum_In in Hg. exact Hg.
Qed.

(** X21.  For a valid year and month the monthly breakdown is built
    without an exception.  Its rows of billing type Hourly come first: a
    name is among them exactly when an entry of the month bears it and a
    roster row of billing type Hourly bears it.  The rows of the invoices
    follow, one for each client name among the invoices of the month.
    The table is empty, and the page reports no billable activity,
    exactly when no entry of the month joins an hourly roster row and the
    month has no invoice; the hourly income, the hours, the retainer
    income and the total income of the statistics are then 0. *)
Theorem monthly_breakdown_rows (today : date) (y m : Z)
  (clients : list Client) (es : list TimeEntry) (invs : list Invoice)
  (settings : Settings) (nwd : list NonWorkDay) :
  valid_ym y m ->
  let mes := filter (fun e => in_month_window y m (te_date e)) es in
  let minv := filter (fun i => in_month_window y m (inv_date i)) invs in
  exists hourly_rows retainer_rows s,
    monthly_breakdown y m clients es invs = Ok (hourly_rows ++ retainer_rows)
    /\ calculate_monthly_stats today y m clients es invs settings nwd = Ok s
    /\ Forall (fun r => br_billing_type r = "Hourly"%string) hourly_rows
    /\ Forall (fun r => br_billing_type r = "Retainer/Flat Fee"%string)
              retainer_rows
    /\ (forall name,
           In name (map br_client hourly_rows)
           <-> (exists e, In e mes /\ te_client_name e = name)
               /\ (exists c, In c clients
                             /\ billing_type c = "Hourly"%string
                             /\ client_name c = name))
    /\ NoDup (map br_client retainer_rows)
    /\ (forall name,
           In name (map br_client retainer_rows)
           <-> exists i, In i minv /\ inv_client_name i = name)
    /\ (total_invoice (hourly_rows ++ retainer_rows) = None
        <-> merge mes (hourly_clients_of clients) = [] /\ minv = [])
    /\ (total_invoice (hourly_rows ++ retainer_rows) = None ->
        hourly_income s = 0%Q /\ total_hours s = 0%Q
        /\ retainer_income s = 0%Q /\ total_income s = 0%Q).
Proof.
  intros Hv mes minv. unfold monthly_breakdown.
  pose proof (days_in_month_bounds y m (proj2 Hv)) as Hb.
  rewrite datetime_ok by (auto; lia). cbn [bind].
  destruct (monthrange_ok y m (proj2 Hv)) as [w ->]. cbn [bind snd].
  rewrite datetime_ok by (auto; lia). cbn [bind].
  rewrite window_filter_entries, window_filter_invoices.
  rewrite calculate_monthly_stats_ok by exact Hv.
  fold mes. fold minv.
  do 3 eexists. split; [reflexivity|]. split; [reflexivity|].
  assert (Hnil : total_invoice (hourly_breakdown_rows clients mes
                                ++ retainer_breakdown_rows minv) = None
                 <-> merge mes (hourly_clients_of clients) = [] /\ minv = []).
  { assert (Hg : retainer_breakdown_rows minv = [] <-> minv = []).
    { rewrite retainer_breakdown_rows_map, map_nil_iff.
      rewrite <- (map_nil_iff fst), groupby_sum_keys.
      rewrite <- !no_member_nil. split; intros H a Ha.
      - apply (H (inv_client_name a)). apply sort_strings_In, nodup_In.
        apply in_map. exact Ha.
      - apply sort_strings_In, nodup_In, in_map_iff in Ha.
        destruct Ha as [i [_ Hi]]. exact (H i Hi). }
    rewrite <- hourly_breakdown_rows_nil, <- Hg. unfold total_invoice.
    destruct (hourly_breakdown_rows clients mes
              ++ retainer_breakdown_rows minv) eqn:E.
    - apply app_eq_nil in E. cbn [empty negb]. tauto.
    - cbn [empty negb]. split; [discriminate|].
      intros [H1 H2]. rewrite H1, H2 in E. discriminate. }
  split; [|split; [|split; [|split; [|split; [|split]]]]].
  - rewrite hourly_breakdown_rows_map. apply Forall_forall.
    intros r Hr. apply in_map_iff in Hr. destruct Hr as [g [<- _]].
    reflexivity.
  - rewrite retainer_breakdown_rows_map. apply Forall_forall.
    intros r Hr. apply in_map_iff in Hr. destruct Hr as [g [<- _]].
    reflexivity.
  - intros name. rewrite hourly_breakdown_rows_map, map_map. cbn [br_client].
    rewrite merge_groups_In, groupby_sum_In. unfold hourly_clients_of.
    split; intros [He [c Hc]]; (split; [exact He|]); exists c.
    + destruct Hc as [Hc Hn]. apply filter_In in Hc.
      destruct Hc as [Hc Hb']. apply String.eqb_eq in Hb'. tauto.
    + destruct Hc as [Hc [Hb' Hn]]. split; [|exact Hn].
      apply filter_In. split; [exact Hc|]. apply String.eqb_eq. exact Hb'.
  - rewrite retainer_breakdown_rows_map, map_map. cbn [br_client].
    change (map (fun x : string * Q => fst x)
              (groupby_sum inv_client_name inv_amount minv))
      with (map fst (groupby_sum inv_client_name inv_amount minv)).
    rewrite groupby_sum_keys. apply sort_strings_NoDup, NoDup_nodup.
  - intros name. rewrite retainer_breakdown_rows_map, map_map.
    cbn [br_client]. apply (groupby_sum_In inv_client_name inv_amount).
  - exact Hnil.
  - intros Hnone. apply Hnil in Hnone. destruct Hnone as [Hm Hi].
    unfold monthly_stats_value.
    cbn [hourly_income total_hours retainer_income total_income].
    fold mes. fold minv. rewrite hourly_totals_eq, Hm, Hi.
    repeat split; reflexivity.
Qed.

Lemma monthly_breakdown_rows_witness :
  exists hourly_rows retainer_rows,
    monthly_breakdown 2024 3 [acme; initech]
      (entry 2024 3 4 "Initech" 6 :: acme_entries)
      [mkInvoice (mkdate 2024 3 5) "Initech" 2500 "Retainer" ""]
    = Ok (hourly_rows ++ retainer_rows)
    /\ In "Acme"%string (map br_client hourly_rows)
    /\ In "Initech"%string (map br_client retainer_rows).
Proof.
  destruct (monthly_breakdown_rows (mkdate 2024 3 20) 2024 3 [acme; initech]
              (entry 2024 3 4 "Initech" 6 :: acme_entries)
              [mkInvoice (mkdate 2024 3 5) "Initech" 2500 "Retainer" ""]
              default_settings [])
    as [hr [rr [s [H1 [_ [_ [_ [Hh [_ [Hr _]]]]]]]]]].
  - split; reflexivity.
  - exists hr, rr. split; [exact H1|]. split.
    + apply Hh. split.
      * exists (entry 2024 3 1 "Acme" 5). split; [|reflexivity].
        apply filter_In. unfold acme_entries.
        split; [right; left; reflexivity|reflexivity].
      * exists acme. split; [left; reflexivity|]. split; reflexivity.
    + apply Hr.
      exists (mkInvoice (mkdate 2024 3 5) "Initech" 2500 "Retainer" "").
      split; [|reflexivity].
      apply filter_In. split; [left; reflexivity|reflexivity].
Defined.

Example monthly_breakdown_rows_example :
  exists rows,
    monthly_breakdown 2024 3 [acme; initech]
      (entry 2024 3 4 "Initech" 6 :: acme_entries)
      [mkInvoice (mkdate 2024 3 5) "Initech" 2500 "Retainer" ""] = Ok rows
    /\ map br_client rows = ["Acme"; "Initech"]%string
    /\ map (fun r => Qred (br_total_invoice r)) rows = [800; 2500]%Q.
Proof. eexists. split; [reflexivity|]. split; vm_compute; reflexivity. Qed.

(* ================================================================== *)
(** ** Weekly breakdown: the weeks of a month                          *)
(* ================================================================== *)

Lemma toordinal_day (y m d : Z) :
  toordinal (mkdate y m d) = toordinal (mkdate y m 1) + d - 1.
Proof. unfold toordinal. cbn [year month day]. lia. Qed.

Lemma days_before_year_bounds (y : Z) :
  1 <= y <= 9999 ->
  0 <= days_before_year y
  /\ (y <= 9998 -> days_before_year y <= 3651400)
  /\ (y = 9999 -> days_before_year y = 3651694).
Proof.
  intros Hy. split; [|split].
  - unfold days_before_year. cbv zeta. Z.div_mod_to_equations. lia.
  - intros H. unfold days_before_year. cbv zeta.
    Z.div_mod_to_equations. lia.
  - intros ->. reflexivity.
Qed.

(** The dates of a valid month, and the six days after it unless the
    month is December 9999, have ordinals in the range of [datetime]. *)
Lemma month_ordinal_bounds (y m : Z) :
  valid_ym y m ->
  1 <= toordinal (mkdate y m 1)
  /\ toordinal (mkdate y m 1) + days_in_month y m - 1 <= MAXORDINAL
  /\ (y < 9999 \/ m < 12 ->
      toordinal (mkdate y m 1) + days_in_month y m + 6 <= MAXORDINAL).
Proof.
  intros [Hy Hm].
  assert (Hyr : 1 <= y <= 9999) by (unfold valid_year in Hy; lia).
  destruct (days_before_year_bounds y Hyr) as [H0 [H1 H2]].
  unfold toordinal, days_before_month, days_in_month, MAXORDINAL.
  cbn [year month day].
  apply valid_month_cases in Hm.
  repeat (destruct Hm as [Hm|Hm]); subst m;
    match goal with
    | |- context [nth ?i DAYS_BEFORE_MONTH 0] =>
        let v := eval vm_compute in (nth i DAYS_BEFORE_MONTH 0) in
        change (nth i DAYS_BEFORE_MONTH 0) with v
    end;
    match goal with
    | |- context [nth ?i mdays 0] =>
        let v := eval vm_compute in (nth i mdays 0) in
        change (nth i mdays 0) with v
    end;
    cbn [Z.eqb Pos.eqb Z.ltb Z.compare Pos.compare Pos.compare_cont andb];
    destruct (isleap y) eqn:L; try lia;
    assert (Hne : y <> 9999) by (intros ->; vm_compute in L; discriminate L);
    lia.
Qed.

Lemma back_to_monday_ok (fuel : nat) :
  forall o : Z,
    1 <= o <= MAXORDINAL ->
    (Z.to_nat (ord_weekday o) <= fuel)%nat ->
    back_to_monday fuel o = Done (o - ord_weekday o).
Proof.
  induction fuel as [|fuel IH]; intros o Ho Hfuel.
  - cbn [back_to_monday].
    assert (H0 : ord_weekday o = 0).
    { unfold ord_weekday in *. Z.div_mod_to_equations. lia. }
    rewrite H0. cbn. f_equal. lia.
  - cbn [back_to_monday].
    destruct (ord_weekday o =? 0) eqn:E; cbn [negb].
    + apply Z.eqb_eq in E. rewrite E. f_equal. lia.
    + apply Z.eqb_neq in E.
      assert (Hstep : ord_weekday (o + -1) = ord_weekday o - 1).
      { unfold ord_weekday in *. Z.div_mod_to_equations. lia. }
      assert (Hpos : 1 <= o + -1).
      { unfold ord_weekday in *. Z.div_mod_to_equations. lia. }
      unfold add_days.
      replace ((1 <=? o + -1) && (o + -1 <=? MAXORDINAL)) with true by lia.
      cbn [obind]. rewrite IH; [f_equal; lia|lia|].
      rewrite Hstep. unfold ord_weekday in *. Z.div_mod_to_equations. lia.
Qed.

Lemma collect_weeks_ok (ms me : Z) (fuel : nat) :
  me + 7 <= MAXORDINAL ->
  forall (cur : Z) (acc : list Z),
    1 <= cur -> ms <= cur + 6 ->
    (Z.to_nat ((me - cur + 7) / 7) <= fuel)%nat ->
    collect_weeks fuel ms me cur acc
    = Done (acc ++ map (fun i => cur + 7 * Z.of_nat i)
                       (seq 0 (Z.to_nat ((me - cur + 7) / 7)))).
Proof.
  intros Hmax. induction fuel as [|fuel IH]; intros cur acc Hcur Hms Hfuel.
  - assert (Hn : Z.to_nat ((me - cur + 7) / 7) = O) by lia.
    assert (Hgt : me < cur) by (Z.div_mod_to_equations; lia).
    cbn [collect_weeks]. replace (cur <=? me) with false by lia.
    rewrite Hn. cbn [seq map]. rewrite app_nil_r. reflexivity.
  - cbn [collect_weeks]. destruct (cur <=? me) eqn:E.
    + apply Z.leb_le in E. unfold add_days.
      replace ((1 <=? cur + 6) && (cur + 6 <=? MAXORDINAL)) with true by lia.
      cbn [obind].
      cbn [andb]. replace (ms <=? cur + 6) with true by lia.
      replace ((1 <=? cur + 7) && (cur + 7 <=? MAXORDINAL)) with true by lia.
      cbn [obind].
      assert (Hn : Z.to_nat ((me - cur + 7) / 7)
                   = S (Z.to_nat ((me - (cur + 7) + 7) / 7))).
      { Z.div_mod_to_equations. lia. }
      rewrite IH; [|lia|lia|lia].
      rewrite Hn. cbn [seq map]. rewrite <- app_assoc. cbn [app].
      do 3 f_equal; [lia|].
      rewrite <- seq_shift, map_map. apply map_ext. intros i. lia.
    + apply Z.leb_gt in E.
      assert (Hn : Z.to_nat ((me - cur + 7) / 7) = O).
      { Z.div_mod_to_equations. lia. }
      rewrite Hn. cbn [seq map]. rewrite app_nil_r. reflexivity.
Qed.

Lemma all_weeks_of_ok (fuel : nat) (y m : Z) :
  valid_ym y m -> y < 9999 \/ m < 12 -> (7 <= fuel)%nat ->
  all_weeks_of fuel y m = Done (month_weeks y m).
Proof.
  intros Hv Hnot Hfuel. unfold all_weeks_of, month_weeks.
  pose proof (days_in_month_bounds y m (proj2 Hv)) as Hb.
  destruct (month_ordinal_bounds y m Hv) as [H1 [H2 H3]].
  specialize (H3 Hnot).
  rewrite datetime_ok by (auto; lia). cbn [of_result obind].
  destruct (monthrange_ok y m (proj2 Hv)) as [w ->]. cbn [of_result obind snd].
  rewrite datetime_ok by (auto; lia). cbn [of_result obind].
  rewrite (toordinal_day y m (days_in_month y m)).
  set (ms := toordinal (mkdate y m 1)) in *.
  assert (Hwd : 0 <= ord_weekday ms <= 6).
  { unfold ord_weekday. Z.div_mod_to_equations. lia. }
  assert (Hfirst : 1 <= ms - ord_weekday ms).
  { unfold ord_weekday in *. Z.div_mod_to_equations. lia. }
  rewrite back_to_monday_ok by lia. cbn [obind].
  rewrite collect_weeks_ok; [reflexivity|lia|lia|lia|].
  assert (Hlen : (ms + days_in_month y m - 1 - (ms - ord_weekday ms) + 7) / 7
                 <= 6).
  { Z.div_mod_to_equations. lia. }
  lia.
Qed.

Lemma month_weeks_In (y m w : Z) :
  In w (month_weeks y m) <->
  exists i,
    0 <= i < (toordinal (mkdate y m (days_in_month y m))
              - (toordinal (mkdate y m 1)
                 - ord_weekday (toordinal (mkdate y m 1))) + 7) / 7
    /\ w = toordinal (mkdate y m 1) - ord_weekday (toordinal (mkdate y m 1))
           + 7 * i.
Proof.
  unfold month_weeks. cbv zeta. rewrite in_map_iff. split.
  - intros [i [<- Hi]]. apply in_seq in Hi. exists (Z.of_nat i).
    split; [lia|reflexivity].
  - intros [i [Hi ->]]. exists (Z.to_nat i). split; [f_equal; lia|].
    apply in_seq. lia.
Qed.

Lemma month_weeks_NoDup (y m : Z) : NoDup (month_weeks y m).
Proof.
  unfold month_weeks. cbv zeta.
  apply Injective_map_NoDup; [|apply seq_NoDup].
  intros a b Hab. lia.
Qed.

(** The week of a date of the month is one of the weeks of the month. *)
Lemma week_start_in_month_weeks (y m : Z) (d : date) :
  in_month_window y m d = true -> In (week_start_of d) (month_weeks y m).
Proof.
  intros Hw. apply in_month_window_iff in Hw. destruct Hw as [Hy [Hm Hd]].
  destruct d as [yd md dd]. cbn [year month day] in *. subst yd md.
  apply month_weeks_In. unfold week_start_of, weekday.
  rewrite (toordinal_day y m dd), (toordinal_day y m (days_in_month y m)).
  set (ms := toordinal (mkdate y m 1)).
  fold (ord_weekday (ms + dd - 1)).
  exists ((ms + dd - 1 - ord_weekday (ms + dd - 1)
           - (ms - ord_weekday ms)) / 7).
  unfold ord_weekday. Z.div_mod_to_equations. lia.
Qed.

(** X22.  For a valid month other than December 9999 the two loops that
    collect the weeks of the weekly breakdown end (seven rounds of fuel
    are enough) without an overflow.  The weeks found are Mondays seven
    days apart, the first one on or before the first day of the month by
    at most six days, the last one on or before the last day; there are
    four to six of them; the Monday of the week of every day of the month
    is one of them; and every week found overlaps the month, so the test
    of line 515 never drops one. *)
Theorem weeks_of_month (fuel : nat) (y m : Z) :
  valid_ym y m -> y < 9999 \/ m < 12 -> (7 <= fuel)%nat ->
  let month_start := toordinal (mkdate y m 1) in
  let month_end := toordinal (mkdate y m (days_in_month y m)) in
  exists weeks,
    all_weeks_of fuel y m = Done weeks
    /\ (4 <= List.length weeks <= 6)%nat
    /\ NoDup weeks
    /\ (forall i, (i < List.length weeks)%nat ->
                  nth i weeks 0
                  = month_start - ord_weekday month_start + 7 * Z.of_nat i)
    /\ (forall w, In w weeks ->
                  ord_weekday w = 0 /\ w <= month_end
                  /\ month_start <= w + 6)
    /\ (forall d, in_month_window y m d = true ->
                  In (week_start_of d) weeks).
Proof.
  intros Hv Hnot Hfuel month_start month_end.
  rewrite all_weeks_of_ok by assumption.
  exists (month_weeks y m). split; [reflexivity|].
  pose proof (days_in_month_bounds y m (proj2 Hv)) as Hb.
  assert (Hme : month_end = month_start + days_in_month y m - 1)
    by apply toordinal_day.
  assert (Hwd : 0 <= ord_weekday month_start <= 6).
  { unfold ord_weekday. Z.div_mod_to_equations. lia. }
  split; [|split; [apply month_weeks_NoDup|split; [|split]]].
  - unfold month_weeks. cbv zeta. rewrite length_map, length_seq.
    fold month_start. fold month_end. rewrite Hme.
    Z.div_mod_to_equations. lia.
  - intros i Hi. unfold month_weeks in *. cbv zeta in *.
    rewrite length_map, length_seq in Hi.
    rewrite (nth_indep _ 0 (month_start - ord_weekday month_start
                            + 7 * Z.of_nat 0))
      by (rewrite length_map, length_seq; exact Hi).
    rewrite (map_nth (fun i0 => toordinal (mkdate y m 1)
                                - ord_weekday (toordinal (mkdate y m 1))
                                + 7 * Z.of_nat i0)).
    rewrite seq_nth by exact Hi. reflexivity.
  - intros w Hw. apply month_weeks_In in Hw. destruct Hw as [i [Hi ->]].
    fold month_start in Hi |- *. fold month_end in Hi.
    unfold ord_weekday in *. Z.div_mod_to_equations. lia.
  - intros d Hd. apply week_start_in_month_weeks. exact Hd.
Qed.

Lemma weeks_of_month_witness :
  exists weeks,
    all_weeks_of 7 2024 3 = Done weeks
    /\ (4 <= List.length weeks <= 6)%nat
    /\ NoDup weeks.
Proof.
  destruct (weeks_of_month 7 2024 3) as [weeks [Hw [Hl [Hn _]]]].
  - split; reflexivity.
  - left. lia.
  - lia.
  - exists weeks. split; [exact Hw|]. split; [exact Hl|exact Hn].
Defined.

(* ================================================================== *)
(** ** Weekly breakdown: the pivot and the row totals                  *)
(* ================================================================== *)

Lemma fill_client_cons (ce : list TimeEntry) (c : string) (w : Z)
  (ws : list Z) (p : Pivot) :
  fill_client (w :: ws) ce c p
  = fill_client ws ce c
      (if negb (empty (filter (fun e => week_start_of (te_date e) =? w) ce))
       then pivot_set p c w
              (Qsum (map te_hours
                         (filter (fun e => week_start_of (te_date e) =? w)
                                 ce)))
       else p).
Proof. reflexivity. Qed.

Lemma fill_client_value (ce : list TimeEntry) (c : string) :
  forall (weeks : list Z) (p : Pivot) (c' : string) (w' : Z),
    fill_client weeks ce c p c' w'
    = if String.eqb c' c && existsb (Z.eqb w') weeks
         && negb (empty (filter (fun e => week_start_of (te_date e) =? w')
                                ce))
      then Qsum (map te_hours
                     (filter (fun e => week_start_of (te_date e) =? w') ce))
      else p c' w'.
Proof.
  induction weeks as [|w ws IH]; intros p c' w'.
  - cbn [fill_client fold_left existsb]. rewrite andb_false_r. reflexivity.
  - rewrite fill_client_cons, IH. cbn [existsb].
    destruct (String.eqb c' c) eqn:Ec; cbn [andb].
    + destruct (w' =? w) eqn:Ew; cbn [orb].
      * apply Z.eqb_eq in Ew. subst w'.
        destruct (negb (empty (filter (fun e => week_start_of (te_date e)
                                                =? w) ce))) eqn:Ene.
        -- rewrite andb_true_r. unfold pivot_set.
           rewrite Ec, Z.eqb_refl. cbn [andb].
           destruct (existsb (Z.eqb w) ws); reflexivity.
        -- rewrite andb_false_r. reflexivity.
      * destruct (existsb (Z.eqb w') ws
                  && negb (empty (filter (fun e => week_start_of (te_date e)
                                                   =? w') ce)));
          [reflexivity|].
        destruct (negb (empty (filter (fun e => week_start_of (te_date e)
                                                =? w) ce)));
          [|reflexivity].
        unfold pivot_set. rewrite Ec, Ew. reflexivity.
    + destruct (negb (empty (filter (fun e => week_start_of (te_date e)
                                              =? w) ce)));
        [|reflexivity].
      unfold pivot_set. rewrite Ec. reflexivity.
Qed.

Lemma unique_In (x : string) (l : list string) :
  In x (unique l) <-> In x l.
Proof.
  induction l as [|y l IH]; [reflexivity|].
  cbn [unique In]. rewrite filter_In, IH, negb_true_iff. split.
  - intros [H|[H _]]; [left; exact H|right; exact H].
  - intros [H|H]; [left; exact H|].
    destruct (String.eqb_spec x y) as [E|E].
    + left. symmetry. exact E.
    + right. split; [exact H|reflexivity].
Qed.

Lemma str_in_cons (c n : string) (ns : list string) :
  str_in c (n :: ns) = String.eqb c n || str_in c ns.
Proof. reflexivity. Qed.

Lemma fill_names_value (active_clients : list string) (weeks : list Z)
  (mes : list TimeEntry) (c : string) (w : Z) :
  forall (names : list string) (p : Pivot),
    fold_left (fun p' client_name =>
                 if str_in client_name active_clients then
                   fill_client weeks
                     (filter (fun e => String.eqb (te_client_name e)
                                                  client_name) mes)
                     client_name p'
                 else p')
              names p c w
    = if str_in c names && str_in c active_clients
         && existsb (Z.eqb w) weeks
         && negb (empty (filter (fun e => week_start_of (te_date e) =? w)
                                (filter (fun e => String.eqb
                                                    (te_client_name e) c)
                                        mes)))
      then Qsum (map te_hours
                     (filter (fun e => week_start_of (te_date e) =? w)
                             (filter (fun e => String.eqb (te_client_name e)
                                                          c) mes)))
      else p c w.
Proof.
  induction names as [|n ns IH]; intros p; [reflexivity|].
  cbn [fold_left]. rewrite IH, (str_in_cons c n ns).
  destruct (String.eqb_spec c n) as [E|E]; cbn [orb].
  - subst n. destruct (str_in c active_clients) eqn:Ea.
    + cbv beta iota. rewrite fill_client_value, String.eqb_refl. cbn [andb].
      rewrite andb_true_r.
      destruct (str_in c ns); cbn [andb]; [|reflexivity].
      destruct (existsb (Z.eqb w) weeks
                && negb (empty (filter (fun e => week_start_of (te_date e)
                                                 =? w)
                                  (filter (fun e => String.eqb
                                                      (te_client_name e) c)
                                          mes)))); reflexivity.
    + rewrite !andb_false_r. reflexivity.
  - destruct (str_in n active_clients); [|reflexivity].
    cbv beta iota. rewrite fill_client_value.
    replace (String.eqb c n) with false
      by (symmetry; apply String.eqb_neq; exact E).
    reflexivity.
Qed.

(** What the pivot holds for an active client and a week of the month:
    the hours of the entries of that client in that week. *)
Lemma fill_pivot_value (active_clients : list string) (weeks : list Z)
  (mes : list TimeEntry) (c : string) (w : Z) :
  str_in c active_clients = true -> In w weeks ->
  fill_pivot active_clients weeks mes c w
  = Qsum (map te_hours
              (filter (fun e => week_start_of (te_date e) =? w)
                      (filter (fun e => String.eqb (te_client_name e) c)
                              mes))).
Proof.
  intros Hc Hw. unfold fill_pivot.
  destruct mes as [|e0 mes0]; [reflexivity|]. cbn [empty negb].
  set (mes := e0 :: mes0).
  rewrite fill_names_value, Hc.
  replace (existsb (Z.eqb w) weeks) with true.
  2:{ symmetry. apply existsb_exists. exists w. split; [exact Hw|].
      apply Z.eqb_refl. }
  rewrite !andb_true_r.
  destruct (str_in c (unique (map te_client_name mes))) eqn:Hn.
  - cbn [andb].
    destruct (filter (fun e => week_start_of (te_date e) =? w)
                     (filter (fun e => String.eqb (te_client_name e) c) mes));
      reflexivity.
  - cbn [andb].
    rewrite (filter_none (fun e => String.eqb (te_client_name e) c) mes);
      [reflexivity|].
    intros e He. apply not_true_is_false. intros Heq.
    apply String.eqb_eq in Heq.
    assert (Hin : In c (unique (map te_client_name mes))).
    { apply unique_In. rewrite <- Heq. apply in_map. exact He. }
    apply str_in_In in Hin. congruence.
Qed.

Lemma month_weeks_length (y m : Z) :
  valid_ym y m -> (4 <= List.length (month_weeks y m) <= 6)%nat.
Proof.
  intros Hv. pose proof (days_in_month_bounds y m (proj2 Hv)) as Hb.
  unfold month_weeks. cbv zeta. rewrite length_map, length_seq.
  rewrite (toordinal_day y m (days_in_month y m)).
  set (ms := toordinal (mkdate y m 1)).
  unfold ord_weekday. Z.div_mod_to_equations. lia.
Qed.

Lemma weekly_breakdown_ok (fuel : nat) (y m : Z) (clients : list Client)
  (es : list TimeEntry) :
  valid_ym y m -> y < 9999 \/ m < 12 -> (7 <= fuel)%nat ->
  let names := sort_strings (map client_name (filter active clients)) in
  weekly_breakdown fuel y m clients es
  = Done (if empty names then None
          else Some (month_weeks y m,
                     map (week_row
                            (fill_pivot names (month_weeks y m)
                               (filter (fun e => in_month_window y m
                                                   (te_date e)) es))
                            (month_weeks y m))
                         names)).
Proof.
  intros Hv Hnot Hfuel names. unfold weekly_breakdown.
  pose proof (days_in_month_bounds y m (proj2 Hv)) as Hb.
  rewrite datetime_ok by (auto; lia). cbn [of_result obind].
  destruct (monthrange_ok y m (proj2 Hv)) as [w ->]. cbn [of_result obind snd].
  rewrite datetime_ok by (auto; lia). cbn [of_result obind].
  rewrite window_filter_entries.
  rewrite all_weeks_of_ok by assumption. cbn [obind].
  replace (if negb (empty clients)
           then sort_strings (map client_name (filter active clients))
           else []) with names by (destruct clients; reflexivity).
  pose proof (month_weeks_length y m Hv) as Hlen.
  destruct (month_weeks y m) as [|w0 ws] eqn:Hw; [cbn in Hlen; lia|].
  cbn [empty negb]. rewrite andb_true_r.
  destruct names; reflexivity.
Qed.

Lemma nth_map_in {A B} (f : A -> B) (l : list A) (i : nat) (dA : A)
  (dB : B) :
  (i < List.length l)%nat -> nth i (map f l) dB = f (nth i l dA).
Proof.
  revert i. induction l as [|a l IH]; intros i Hi; [cbn in Hi; lia|].
  destruct i as [|i]; [reflexivity|].
  cbn [map nth]. apply IH. cbn [List.length] in Hi. lia.
Qed.

Lemma insert_sorted_length (x : string) (l : list string) :
  List.length (insert_sorted x l) = Datatypes.S (List.length l).
Proof.
  induction l as [|y l IH]; [reflexivity|].
  cbn [insert_sorted]. destruct (String.leb x y); [reflexivity|].
  cbn [List.length]. rewrite IH. reflexivity.
Qed.

(** Sorting keeps every element, also one that occurs twice. *)
Lemma sort_strings_length (l : list string) :
  List.length (sort_strings l) = List.length l.
Proof.
  induction l as [|x l IH]; [reflexivity|].
  cbn [sort_strings fold_right]. fold (sort_strings l).
  rewrite insert_sorted_length, IH. reflexivity.
Qed.

(** X23.  For a valid month other than December 9999 the weekly breakdown
    has one row for each active roster row, the names in ascending order
    (a name that two active rows bear has two rows), and no table without
    an active client.  Every row has one cell per week of the month; the
    cell of a week holds the sum of the hours of the entries of that
    client that are dated in the month and in that week, and a dash when
    that sum is not above 0. *)
Theorem weekly_breakdown_rows (fuel : nat) (y m : Z) (clients : list Client)
  (es : list TimeEntry) :
  valid_ym y m -> y < 9999 \/ m < 12 -> (7 <= fuel)%nat ->
  let names := sort_strings (map client_name (filter active clients)) in
  (forall c, In c names <->
             exists cl, In cl clients /\ active cl = true
                        /\ client_name cl = c)
  /\ List.length names = List.length (filter active clients)
  /\ (names = [] -> weekly_breakdown fuel y m clients es = Done None)
  /\ (names <> [] ->
      exists weeks rows,
        weekly_breakdown fuel y m clients es = Done (Some (weeks, rows))
        /\ all_weeks_of fuel y m = Done weeks
        /\ map wr_client rows = names
        /\ Forall (fun row =>
                     List.length (wr_cells row) = List.length weeks
                     /\ forall i : nat,
                          (i < List.length weeks)%nat ->
                          let hours :=
                            Qsum (map te_hours
                                      (filter (fun e =>
                                                 week_start_of (te_date e)
                                                 =? nth i weeks 0)
                                              (month_entries_of
                                                 (wr_client row) y m es))) in
                          nth i (wr_cells row) None
                          = if Qlt_bool 0 hours then Some hours else None)
                  rows).
Proof.
  intros Hv Hnot Hfuel names.
  pose proof (weekly_breakdown_ok fuel y m clients es Hv Hnot Hfuel) as Hwb.
  cbv zeta in Hwb. fold names in Hwb.
  split; [|split; [|split]].
  - intros c. unfold names. rewrite sort_strings_In, in_map_iff. split.
    + intros [cl [Hn Hcl]]. apply filter_In in Hcl. exists cl. tauto.
    + intros [cl [Hin [Ha Hn]]]. exists cl. split; [exact Hn|].
      apply filter_In. tauto.
  - unfold names. rewrite sort_strings_length. apply length_map.
  - intros Hnil. rewrite Hwb, Hnil. reflexivity.
  - intros Hne. rewrite Hwb.
    destruct names as [|n ns] eqn:Hnames; [contradiction|].
    cbn [empty]. do 2 eexists. split; [reflexivity|].
    split; [apply all_weeks_of_ok; assumption|]. split.
    + rewrite map_map. cbn [week_row wr_client]. apply map_id.
    + apply Forall_forall. intros row Hrow. apply in_map_iff in Hrow.
      destruct Hrow as [c [<- Hc]]. cbn [week_row wr_cells wr_client].
      split; [apply length_map|].
      intros i Hi. cbv zeta.
      rewrite (nth_map_in _ _ i 0 None) by exact Hi.
      rewrite fill_pivot_value;
        [|apply str_in_In; exact Hc|apply nth_In; exact Hi].
      unfold month_entries_of. rewrite (filter_comm _ _ es). reflexivity.
Qed.

Lemma weekly_breakdown_rows_witness :
  exists weeks rows,
    weekly_breakdown 7 2024 3 [acme; initech]
      (entry 2024 3 4 "Initech" 6 :: entry 2024 2 27 "Acme" 3 :: acme_entries)
    = Done (Some (weeks, rows))
    /\ map wr_client rows = ["Acme"; "Initech"]%string.
Proof.
  destruct (weekly_breakdown_rows 7 2024 3 [acme; initech]
              (entry 2024 3 4 "Initech" 6 :: entry 2024 2 27 "Acme" 3
               :: acme_entries)) as [_ [_ [_ Hrows]]].
  - split; reflexivity.
  - left. lia.
  - lia.
  - destruct Hrows as [weeks [rows [Hw [_ [Hn _]]]]]; [discriminate|].
    exists weeks, rows. split; [exact Hw|exact Hn].
Defined.

(* ================================================================== *)
(** ** Calendar page: the grid and the count above it                  *)
(* ================================================================== *)

Lemma chunks7_ok (fuel : nat) :
  forall (days : list Z) (k : nat),
    List.length days = (7 * k)%nat -> (k <= fuel)%nat ->
    List.concat (chunks7 fuel days) = days
    /\ Forall (fun week => List.length week = 7%nat) (chunks7 fuel days).
Proof.
  induction fuel as [|fuel IH]; intros days k Hlen Hk.
  - assert (k = O) by lia. subst k. destruct days; [|discriminate].
    split; [reflexivity|constructor].
  - destruct days as [|d days]; [split; [reflexivity|constructor]|].
    destruct k as [|k]; [discriminate|].
    cbn [chunks7].
    destruct (IH (skipn 7 (d :: days)) k) as [Hc Hf].
    + rewrite length_skipn, Hlen. lia.
    + lia.
    + split.
      * cbn [List.concat]. rewrite Hc. apply firstn_skipn.
      * constructor; [|exact Hf]. rewrite length_firstn, Hlen. lia.
Qed.

Lemma calendar_cell_ok (y m : Z) (wdl : list string) (nwd : list NonWorkDay)
  (day : Z) :
  valid_ym y m -> day = 0 \/ 1 <= day <= days_in_month y m ->
  calendar_cell y m wdl nwd day
  = Ok (if day =? 0 then CellBlank else day_cell y m wdl nwd day).
Proof.
  intros Hv Hday. unfold calendar_cell, day_cell.
  destruct (day =? 0) eqn:E; [reflexivity|].
  apply Z.eqb_neq in E.
  rewrite datetime_ok by (auto; lia). cbn [bind].
  rewrite day_record_marked. reflexivity.
Qed.

Lemma cells_loop_ok (y m : Z) (wdl : list string) (nwd : list NonWorkDay) :
  valid_ym y m ->
  forall (week : list Z) (acc : list CellKind),
    (forall day, In day week -> day = 0 \/ 1 <= day <= days_in_month y m) ->
    for_ week (fun day cells =>
                 c <- calendar_cell y m wdl nwd day ;; Ok (cells ++ [c])) acc
    = Ok (acc ++ map (fun day => if day =? 0 then CellBlank
                                 else day_cell y m wdl nwd day) week).
Proof.
  intros Hv. induction week as [|d week IH]; intros acc Hdays.
  - cbn [for_ map]. rewrite app_nil_r. reflexivity.
  - cbn [for_]. rewrite calendar_cell_ok by (auto; apply Hdays; left;
                                             reflexivity).
    cbn [bind]. rewrite IH by (intros day Hd; apply Hdays; right; exact Hd).
    rewrite <- app_assoc. reflexivity.
Qed.

Lemma grid_loop_ok (y m : Z) (wdl : list string) (nwd : list NonWorkDay) :
  valid_ym y m ->
  forall (cal : list (list Z)) (acc : list (list CellKind)),
    (forall day, In day (List.concat cal) ->
                 day = 0 \/ 1 <= day <= days_in_month y m) ->
    for_ cal
         (fun week grid =>
            cells <-
              for_ week (fun day cells =>
                           c <- calendar_cell y m wdl nwd day ;;
                           Ok (cells ++ [c])) [] ;;
            Ok (grid ++ [cells])) acc
    = Ok (acc ++ map (map (fun day => if day =? 0 then CellBlank
                                      else day_cell y m wdl nwd day)) cal).
Proof.
  intros Hv. induction cal as [|week cal IH]; intros acc Hdays.
  - cbn [for_ map]. rewrite app_nil_r. reflexivity.
  - cbn [for_]. rewrite (cells_loop_ok y m wdl nwd Hv).
    + cbn [bind app]. rewrite IH.
      * rewrite <- app_assoc. reflexivity.
      * intros day Hd. apply Hdays. cbn [List.concat]. apply in_or_app.
        right. exact Hd.
    + intros day Hd. apply Hdays. cbn [List.concat]. apply in_or_app.
      left. exact Hd.
Qed.

Lemma filter_repeat_blank {B} (f : Z -> B) (p : B -> bool) (n : nat) :
  p (f 0) = false -> filter p (map f (repeat 0 n)) = [].
Proof.
  intros H. induction n as [|n IH]; [reflexivity|].
  cbn [repeat map filter]. rewrite H. exact IH.
Qed.

Lemma day_cell_not_blank (y m : Z) (wdl : list string)
  (nwd : list NonWorkDay) (day : Z) :
  is_blank (day_cell y m wdl nwd day) = false.
Proof.
  unfold day_cell.
  destruct (negb (weekday_in wdl (mkdate y m day))); [reflexivity|].
  destruct (marked_off nwd (mkdate y m day)); reflexivity.
Qed.

Lemma day_cell_work (y m : Z) (wdl : list string) (nwd : list NonWorkDay)
  (day : Z) :
  is_work_cell (day_cell y m wdl nwd day)
  = is_work_day (mkdate y m day) wdl nwd.
Proof.
  rewrite is_work_day_eq. unfold day_cell.
  destruct (weekday_in wdl (mkdate y m day)); [|reflexivity].
  destruct (marked_off nwd (mkdate y m day)); reflexivity.
Qed.

Lemma count_repeat_zero {B} (f : Z -> B) (p : B -> bool) (n : nat) :
  p (f 0) = false -> count p (map f (repeat 0 n)) = 0.
Proof.
  intros H. apply count_none. intros b Hb. apply in_map_iff in Hb.
  destruct Hb as [z [<- Hz]]. apply repeat_spec in Hz. subst z. exact H.
Qed.

(** X24.  For a valid year and month the grid of the calendar page is
    built without an exception; every week has seven cells; the cells that
    are not blank are those of the days 1 to the last day of the month,
    each once and in order; and the number of cells drawn as work days is
    the number of work days that the page shows above the grid. *)
Theorem calendar_grid_matches_count (y m : Z) (work_days_list : list string)
  (non_work_days_df : list NonWorkDay) :
  valid_ym y m ->
  exists grid n,
    calendar_grid y m work_days_list non_work_days_df = Ok grid
    /\ get_work_days_in_month y m work_days_list non_work_days_df = Ok n
    /\ Forall (fun week => List.length week = 7%nat) grid
    /\ filter (fun k => negb (is_blank k)) (List.concat grid)
       = map (day_cell y m work_days_list non_work_days_df)
             (range 1 (days_in_month y m + 1))
    /\ count is_work_cell (List.concat grid) = n.
Proof.
  intros Hv. unfold calendar_grid, monthcalendar, itermonthdays.
  pose proof (days_in_month_bounds y m (proj2 Hv)) as Hb.
  destruct (monthrange_ok y m (proj2 Hv)) as [day1 ->]. cbn [bind fst snd].
  set (before := Z.to_nat ((day1 - 0) mod 7)).
  set (after := Z.to_nat ((0 - day1 - days_in_month y m) mod 7)).
  set (days := repeat 0 before ++ range 1 (days_in_month y m + 1)
               ++ repeat 0 after).
  set (cellf := fun day => if day =? 0 then CellBlank
                           else day_cell y m work_days_list non_work_days_df
                                  day).
  assert (Hlen : exists k, List.length days = (7 * k)%nat
                           /\ (k <= List.length days)%nat).
  { exists (Z.to_nat ((Z.of_nat before + days_in_month y m + Z.of_nat after)
                      / 7)).
    assert (Hl : Z.of_nat (List.length days)
                 = Z.of_nat before + days_in_month y m + Z.of_nat after).
    { unfold days. rewrite !length_app, !repeat_length.
      pose proof (range_length 1 (days_in_month y m + 1)). lia. }
    unfold before, after in *. Z.div_mod_to_equations. lia. }
  destruct Hlen as [k [Hk Hkf]].
  destruct (chunks7_ok (List.length days) days k Hk Hkf) as [Hconcat Hweeks].
  assert (Hdays : forall day, In day days ->
                              day = 0 \/ 1 <= day <= days_in_month y m).
  { intros day Hd. unfold days in Hd.
    apply in_app_or in Hd. destruct Hd as [Hd|Hd];
      [left; apply (repeat_spec _ _ _ Hd)|].
    apply in_app_or in Hd. destruct Hd as [Hd|Hd];
      [|left; apply (repeat_spec _ _ _ Hd)].
    apply range_In in Hd. right. lia. }
  rewrite (grid_loop_ok y m work_days_list non_work_days_df Hv)
    by (rewrite Hconcat; exact Hdays).
  cbn [app]. fold cellf.
  rewrite get_work_days_in_month_ok by exact Hv.
  do 2 eexists. split; [reflexivity|]. split; [reflexivity|].
  assert (Hflat : List.concat (map (map cellf)
                                   (chunks7 (List.length days) days))
                  = map cellf days)
    by (rewrite <- concat_map, Hconcat; reflexivity).
  assert (Hcellf : forall d, In d (range 1 (days_in_month y m + 1)) ->
                             cellf d
                             = day_cell y m work_days_list non_work_days_df
                                 d).
  { intros d Hd. apply range_In in Hd. unfold cellf.
    replace (d =? 0) with false by lia. reflexivity. }
  split; [|split].
  - clear Hconcat Hflat. induction Hweeks as [|week weeks Hw _ IH];
      constructor; [rewrite length_map; exact Hw|exact IH].
  - rewrite Hflat. unfold days. rewrite !map_app, !filter_app.
    rewrite !(filter_repeat_blank cellf) by reflexivity.
    rewrite app_nil_r. cbn [app].
    rewrite (map_ext_in _ _ _ Hcellf).
    apply forallb_filter_id. apply forallb_forall. intros c Hc.
    apply in_map_iff in Hc. destruct Hc as [d [<- _]].
    rewrite day_cell_not_blank. reflexivity.
  - rewrite Hflat. unfold days. rewrite !map_app, !count_app.
    rewrite !(count_repeat_zero cellf) by reflexivity.
    rewrite (map_ext_in _ _ _ Hcellf).
    unfold month_dates. rewrite <- !count_map.
    rewrite (count_ext _ (fun a => is_work_day (mkdate y m a) work_days_list
                                     non_work_days_df))
      by (intros a _; apply day_cell_work).
    lia.
Qed.

Lemma calendar_grid_matches_count_witness :
  exists grid n,
    calendar_grid 2024 3 mon_fri
      [mkNonWorkDay (mkdate 2024 3 29) "Good Friday"] = Ok grid
    /\ get_work_days_in_month 2024 3 mon_fri
         [mkNonWorkDay (mkdate 2024 3 29) "Good Friday"] = Ok n
    /\ count is_work_cell (List.concat grid) = n.
Proof.
  destruct (calendar_grid_matches_count 2024 3 mon_fri
              [mkNonWorkDay (mkdate 2024 3 29) "Good Friday"])
    as [grid [n [Hg [Hn [_ [_ Hc]]]]]].
  - split; reflexivity.
  - exists grid, n. split; [exact Hg|]. split; [exact Hn|exact Hc].
Defined.

Example calendar_grid_march_2024 :
  exists grid,
    calendar_grid 2024 3 mon_fri [] = Ok grid
    /\ nth 0 grid []
       = [CellBlank; CellBlank; CellBlank; CellBlank; CellWorkDay 1;
          CellNonWork 2; CellNonWork 3]
    /\ List.length grid = 5%nat.
Proof. eexists. split; [reflexivity|]. split; reflexivity. Qed.

(* ================================================================== *)
(** ** Recording income                                                *)
(* ================================================================== *)



(* ================================================================== *)
(** ** The statistics and the chart loop over any arithmetic           *)
(* ================================================================== *)

Section NumericFacts.

Import Numeric.

Context {A : arithmetic}.

Lemma window_filter {X} (dt : X -> date) (y m : Z) (l : list X) :
  (if negb (empty l)
   then filter (fun x => date_leb (mkdate y m 1) (dt x)
                         && date_leb (dt x)
                                     (mkdate y m (days_in_month y m))) l
   else [])
  = filter (fun x => in_month_window y m (dt x)) l.
Proof. destruct l; reflexivity. Qed.

(** For a valid year and month the function returns, and returns
    [monthly_stats_value]. *)
Lemma numeric_stats_ok (today : date) (y m : Z)
  (clients : list (Client A)) (es : list (TimeEntry A))
  (invs : list (Invoice A)) (settings : Settings A)
  (nwd : list NonWorkDay) :
  valid_ym y m ->
  calculate_monthly_stats today y m clients es invs settings nwd
  = Ok (monthly_stats_value today y m clients es invs settings nwd).
Proof.
  intros Hv. unfold calculate_monthly_stats, monthly_stats_value.
  pose proof (days_in_month_bounds y m (proj2 Hv)) as Hb.
  rewrite datetime_ok by (auto; lia). cbn [bind].
  destruct (monthrange_ok y m (proj2 Hv)) as [w ->]. cbn [bind snd].
  rewrite datetime_ok by (auto; lia). cbn [bind].
  rewrite (window_filter te_date), (window_filter inv_date).
  rewrite get_work_days_in_month_ok by exact Hv. cbn [bind].
  replace (Z.min (day today + 1) (days_in_month y m + 1))
    with (Z.min (day today) (days_in_month y m) + 1) by lia.
  rewrite (count_loop_ok y m _
             (fun d => is_work_day d (split "," (work_days settings)) nwd
                       && date_leb d today) Hv) by lia.
  cbn [bind]. unfold days_visited.
  replace (Z.min (day today + 1) (days_in_month y m + 1))
    with (Z.min (day today) (days_in_month y m) + 1) by lia.
  reflexivity.
Qed.

Lemma numeric_chart_series (stats : Stats A) (clients : list (Client A))
  (es : list (TimeEntry A)) (invs : list (Invoice A)) (wdl : list string)
  (nwd : list NonWorkDay) :
  forall (ds : list date) (c : Chart A),
    let c' := chart_run stats clients es invs wdl nwd ds c in
    dates c' = dates c ++ ds
    /\ targets c'
       = targets c
         ++ scan (next_target (daily_target stats) wdl nwd)
                 (cumulative_target c) ds
    /\ actuals c'
       = actuals c
         ++ scan (next_actual clients es invs) (cumulative_actual c) ds.
Proof.
  induction ds as [|d ds IH]; intros c; cbn zeta.
  - cbn [chart_run fold_left scan]. rewrite !app_nil_r. auto.
  - change (chart_run stats clients es invs wdl nwd (d :: ds) c)
      with (chart_run stats clients es invs wdl nwd ds
              (chart_step stats clients es invs wdl nwd d c)).
    destruct (IH (chart_step stats clients es invs wdl nwd d c))
      as [Hd [Ht Ha]].
    rewrite Hd, Ht, Ha. unfold chart_step.
    cbn [dates targets actuals cumulative_target cumulative_actual scan].
    rewrite <- !app_assoc. auto.
Qed.

Lemma numeric_dashboard_ok (today : date) (y m : Z)
  (clients : list (Client A)) (es : list (TimeEntry A))
  (invs : list (Invoice A)) (settings : Settings A)
  (nwd : list NonWorkDay) :
  valid_ym y m ->
  let stats := monthly_stats_value today y m clients es invs settings nwd in
  show_dashboard today y m clients es invs settings nwd
  = Ok (stats,
        chart_run stats clients es invs (split "," (work_days settings)) nwd
          (month_dates y m) chart_init).
Proof.
  intros Hv stats. unfold show_dashboard.
  rewrite numeric_stats_ok by exact Hv. cbn [bind]. fold stats.
  destruct (monthrange_ok y m (proj2 Hv)) as [w ->]. cbn [bind snd].
  rewrite (for_ok (fun day c =>
                     chart_step stats clients es invs
                       (split "," (work_days settings)) nwd
                       (mkdate y m day) c)).
  - cbn [bind]. unfold chart_run, month_dates.
    rewrite fold_left_over_map. reflexivity.
  - intros day c Hin. apply range_In in Hin.
    rewrite datetime_ok; [reflexivity|exact Hv|lia].
Qed.


Lemma numeric_merge_nil_r (es : list (TimeEntry A)) : merge es [] = [].
Proof. induction es as [|e es IH]; [reflexivity|exact IH]. Qed.

(** The guards of lines 212-219 come down to one: the join has rows. *)
Lemma hourly_totals_terms (clients : list (Client A))
  (mes : list (TimeEntry A)) :
  fst (hourly_totals clients mes)
  = total_of (income_terms (merge mes (hourly_clients_of clients))).
Proof.
  unfold hourly_totals, total_of, income_terms.
  destruct mes as [|e mes]; [reflexivity|].
  destruct clients as [|c clients].
  { cbn [empty negb andb]. unfold hourly_clients_of. cbn [filter].
    rewrite numeric_merge_nil_r. reflexivity. }
  cbn [empty negb andb].
  destruct (hourly_clients_of (c :: clients)) as [|h hc].
  { cbn [empty negb]. rewrite numeric_merge_nil_r. reflexivity. }
  cbn [empty negb].
  destruct (merge (e :: mes) (h :: hc)) as [|r rs]; reflexivity.
Qed.

Lemma retainer_total_terms (minvs : list (Invoice A)) :
  retainer_total_of minvs = total_of (map inv_amount minvs).
Proof. destruct minvs; reflexivity. Qed.

(** The guards of lines 324-331 likewise. *)
Lemma add_hourly_income_terms (clients : list (Client A))
  (es : list (TimeEntry A)) (d : date) (ca : num A) :
  add_hourly_income clients es d ca
  = accumulate ca (income_terms (day_rows d clients es)).
Proof.
  unfold add_hourly_income, accumulate, income_terms, day_rows.
  destruct es as [|e es]; [reflexivity|].
  destruct clients as [|c clients].
  { cbn [empty negb andb]. unfold hourly_clients_of. cbn [filter].
    rewrite numeric_merge_nil_r. reflexivity. }
  cbn [empty negb andb].
  destruct (filter (fun e0 => date_eqb (te_date e0) d) (e :: es))
    as [|e' des]; [reflexivity|].
  cbn [empty negb].
  destruct (hourly_clients_of (c :: clients)) as [|h hc].
  { cbn [empty negb]. rewrite numeric_merge_nil_r. reflexivity. }
  cbn [empty negb].
  destruct (merge (e' :: des) (h :: hc)) as [|r rs]; reflexivity.
Qed.

Lemma add_invoice_income_terms (invs : list (Invoice A)) (d : date)
  (ca : num A) :
  add_invoice_income invs d ca
  = accumulate ca (map inv_amount (day_invoices d invs)).
Proof.
  unfold add_invoice_income, accumulate, day_invoices.
  destruct invs as [|i invs]; [reflexivity|].
  cbn [empty negb].
  destruct (filter (fun i0 => date_eqb (inv_date i0) d) (i :: invs));
    reflexivity.
Qed.

(** Rows that pass one of two tests that exclude each other. *)
Lemma filter_disjoint_perm {X} (p q : X -> bool) (l : list X) :
  (forall x, In x l -> p x = true -> q x = false) ->
  Permutation (filter p l ++ filter q l) (filter (fun x => p x || q x) l).
Proof.
  induction l as [|a l IH]; intros Hpq; [constructor|].
  assert (IH' := IH (fun x Hx => Hpq x (or_intror Hx))).
  cbn [filter]. destruct (p a) eqn:Ep.
  - rewrite (Hpq a (or_introl eq_refl) Ep). cbn [orb app].
    constructor. exact IH'.
  - cbn [orb]. destruct (q a).
    + apply Permutation_sym, Permutation_cons_app, Permutation_sym.
      exact IH'.
    + exact IH'.
Qed.

(** Taking the rows day by day over distinct dates gives every row dated
    on one of them once. *)
Lemma bucket_by_day {X} (dt : X -> date) (l : list X) :
  forall ds : list date,
    NoDup ds ->
    Permutation (flat_map (fun d => filter (fun x => date_eqb (dt x) d) l)
                          ds)
                (filter (fun x => date_in (dt x) ds) l).
Proof.
  induction ds as [|d ds IH]; intros Hnd.
  - cbn [flat_map]. rewrite filter_none; [constructor|reflexivity].
  - inversion Hnd as [|? ? Hnotin Hnd']; subst. cbn [flat_map].
    eapply Permutation_trans.
    + apply Permutation_app_head. apply IH. exact Hnd'.
    + eapply Permutation_trans.
      * apply filter_disjoint_perm. intros x _ Hx.
        apply date_eqb_eq in Hx. apply not_true_is_false. intros Hin.
        apply date_in_In in Hin. rewrite Hx in Hin. contradiction.
      * erewrite filter_ext; [apply Permutation_refl|].
        intros x. reflexivity.
Qed.

Lemma flat_map_flat_map {X Y Z'} (f : X -> list Y) (g : Y -> list Z')
  (l : list X) :
  flat_map g (flat_map f l) = flat_map (fun x => flat_map g (f x)) l.
Proof.
  induction l as [|x l IH]; [reflexivity|].
  cbn [flat_map]. rewrite flat_map_app, IH. reflexivity.
Qed.

Lemma flat_map_app_perm {X Y} (f g : X -> list Y) (l : list X) :
  Permutation (flat_map (fun x => f x ++ g x) l)
              (flat_map f l ++ flat_map g l).
Proof.
  induction l as [|x l IH]; [constructor|].
  cbn [flat_map]. rewrite <- !app_assoc. apply Permutation_app_head.
  eapply Permutation_trans; [apply Permutation_app_head; exact IH|].
  rewrite !app_assoc. apply Permutation_app_tail, Permutation_app_comm.
Qed.

(** Every pair of an entry of the month and an hourly client row is the
    pair of exactly one day of the month. *)
Lemma rows_by_day (y m : Z) (clients : list (Client A))
  (es : list (TimeEntry A)) :
  Permutation (flat_map (fun d => day_rows d clients es) (month_dates y m))
              (month_rows y m clients es).
Proof.
  unfold day_rows, month_rows, merge.
  rewrite <- (flat_map_flat_map
                (fun d => filter (fun e => date_eqb (te_date e) d) es)).
  apply Permutation_flat_map.
  erewrite (filter_ext (fun e => in_month_window y m (te_date e))).
  - apply bucket_by_day, month_dates_NoDup.
  - intros e. apply in_month_window_dates.
Qed.

Lemma invoices_by_day (y m : Z) (invs : list (Invoice A)) :
  Permutation (flat_map (fun d => day_invoices d invs) (month_dates y m))
              (month_invoices y m invs).
Proof.
  unfold day_invoices, month_invoices.
  erewrite (filter_ext (fun i => in_month_window y m (inv_date i))).
  - apply bucket_by_day, month_dates_NoDup.
  - intros i. apply in_month_window_dates.
Qed.


Lemma map_over_flat_map {X Y Z'} (h : Y -> Z') (r : X -> list Y)
  (l : list X) :
  flat_map (fun x => map h (r x)) l = map h (flat_map r l).
Proof.
  induction l as [|x l IH]; [reflexivity|].
  cbn [flat_map]. rewrite map_app, IH. reflexivity.
Qed.

(** The amounts that the loop adds up day by day are those that the
    statistics add up table by table. *)
Lemma terms_by_day (y m : Z) (clients : list (Client A))
  (es : list (TimeEntry A)) (invs : list (Invoice A)) :
  Permutation
    (flat_map (fun d => income_terms (day_rows d clients es)
                        ++ map inv_amount (day_invoices d invs))
              (month_dates y m))
    (income_terms (month_rows y m clients es)
     ++ map inv_amount (month_invoices y m invs)).
Proof.
  eapply Permutation_trans; [apply flat_map_app_perm|].
  unfold income_terms. rewrite !map_over_flat_map.
  apply Permutation_app; apply Permutation_map.
  - apply rows_by_day.
  - apply invoices_by_day.
Qed.

(** The running actual income after the days [ds]. *)
Lemma run_actual_terms (clients : list (Client A))
  (es : list (TimeEntry A)) (invs : list (Invoice A)) :
  forall (ds : list date) (ca : num A),
    fold_left (fun ca' d => next_actual clients es invs d ca') ds ca
    = fold_left (fun acc d =>
                   accumulate
                     (accumulate acc (income_terms (day_rows d clients es)))
                     (map inv_amount (day_invoices d invs)))
                ds ca.
Proof.
  induction ds as [|d ds IH]; intros ca; [reflexivity|].
  cbn [fold_left]. rewrite IH. unfold next_actual.
  rewrite add_invoice_income_terms, add_hourly_income_terms. reflexivity.
Qed.

(** The running target after the days [ds]: [daily_target] added once
    per work day. *)
Lemma run_target_iter (dt : num A) (wdl : list string)
  (nwd : list NonWorkDay) :
  forall (ds : list date) (ct : num A),
    fold_left (fun ct' d => next_target dt wdl nwd d ct') ds ct
    = Nat.iter (List.length (filter (fun d => is_work_day d wdl nwd) ds))
               (fun t => add A t dt) ct.
Proof.
  induction ds as [|d ds IH]; intros ct; [reflexivity|].
  cbn [fold_left filter]. rewrite IH. unfold next_target.
  destruct (is_work_day d wdl nwd); [|reflexivity].
  cbn [List.length]. rewrite Nat.iter_succ_r. reflexivity.
Qed.

Section ExactAddition.

Variable eqv : num A -> num A -> Prop.
Hypothesis E : exact_addition A eqv.

Lemma add_zero_r (x : num A) : eqv (add A x (zero A)) x.
Proof.
  eapply (eqv_trans _ _ E); [apply (add_comm _ _ E)|].
  apply (add_zero_l _ _ E).
Qed.

Lemma sum_app (l l' : list (num A)) :
  eqv (sum A (l ++ l')) (add A (sum A l) (sum A l')).
Proof.
  induction l as [|x l IH]; cbn [app].
  - apply (eqv_sym _ _ E). eapply (eqv_trans _ _ E).
    + apply (add_eqv _ _ E); [apply (sum_nil _ _ E)|apply (eqv_refl _ _ E)].
    + apply (add_zero_l _ _ E).
  - eapply (eqv_trans _ _ E); [apply (sum_cons _ _ E)|].
    eapply (eqv_trans _ _ E).
    + apply (add_eqv _ _ E); [apply (eqv_refl _ _ E)|exact IH].
    + eapply (eqv_trans _ _ E);
        [apply (eqv_sym _ _ E), (add_assoc _ _ E)|].
      apply (add_eqv _ _ E); [|apply (eqv_refl _ _ E)].
      apply (eqv_sym _ _ E), (sum_cons _ _ E).
Qed.

(** The sum of a column does not depend on the order of its rows. *)
Lemma sum_perm (l l' : list (num A)) :
  Permutation l l' -> eqv (sum A l) (sum A l').
Proof.
  induction 1 as [|x l l' _ IH|x y l|l l' l'' _ IH1 _ IH2].
  - apply (eqv_refl _ _ E).
  - eapply (eqv_trans _ _ E); [apply (sum_cons _ _ E)|].
    eapply (eqv_trans _ _ E);
      [|apply (eqv_sym _ _ E), (sum_cons _ _ E)].
    apply (add_eqv _ _ E); [apply (eqv_refl _ _ E)|exact IH].
  - assert (H : forall a b,
               eqv (sum A (a :: b :: l)) (add A (add A a b) (sum A l))).
    { intros a b. eapply (eqv_trans _ _ E); [apply (sum_cons _ _ E)|].
      eapply (eqv_trans _ _ E).
      - apply (add_eqv _ _ E);
          [apply (eqv_refl _ _ E)|apply (sum_cons _ _ E)].
      - apply (eqv_sym _ _ E), (add_assoc _ _ E). }
    eapply (eqv_trans _ _ E); [apply H|].
    eapply (eqv_trans _ _ E); [|apply (eqv_sym _ _ E), H].
    apply (add_eqv _ _ E); [apply (add_comm _ _ E)|apply (eqv_refl _ _ E)].
  - eapply (eqv_trans _ _ E); eassumption.
Qed.

Lemma total_of_eqv (l : list (num A)) : eqv (total_of l) (sum A l).
Proof.
  destruct l; [|apply (eqv_refl _ _ E)].
  apply (eqv_sym _ _ E), (sum_nil _ _ E).
Qed.

Lemma accumulate_eqv (acc : num A) (l : list (num A)) :
  eqv (accumulate acc l) (add A acc (sum A l)).
Proof.
  destruct l; [|apply (eqv_refl _ _ E)].
  cbn [accumulate empty]. apply (eqv_sym _ _ E).
  eapply (eqv_trans _ _ E); [|apply add_zero_r].
  apply (add_eqv _ _ E); [apply (eqv_refl _ _ E)|apply (sum_nil _ _ E)].
Qed.

(** Adding up day by day is adding up all the amounts of the days. *)
Lemma fold_accumulate (F G : date -> list (num A)) :
  forall (ds : list date) (acc : num A),
    eqv (fold_left (fun acc' d => accumulate (accumulate acc' (F d)) (G d))
                   ds acc)
        (add A acc (sum A (flat_map (fun d => F d ++ G d) ds))).
Proof.
  induction ds as [|d ds IH]; intros acc.
  - cbn [fold_left flat_map]. apply (eqv_sym _ _ E).
    eapply (eqv_trans _ _ E); [|apply add_zero_r].
    apply (add_eqv _ _ E); [apply (eqv_refl _ _ E)|apply (sum_nil _ _ E)].
  - cbn [fold_left flat_map]. eapply (eqv_trans _ _ E); [apply IH|].
    assert (Hd : eqv (accumulate (accumulate acc (F d)) (G d))
                     (add A acc (sum A (F d ++ G d)))).
    { eapply (eqv_trans _ _ E); [apply accumulate_eqv|].
      eapply (eqv_trans _ _ E).
      - apply (add_eqv _ _ E);
          [apply accumulate_eqv|apply (eqv_refl _ _ E)].
      - eapply (eqv_trans _ _ E); [apply (add_assoc _ _ E)|].
        apply (add_eqv _ _ E); [apply (eqv_refl _ _ E)|].
        apply (eqv_sym _ _ E), sum_app. }
    eapply (eqv_trans _ _ E).
    + apply (add_eqv _ _ E); [exact Hd|apply (eqv_refl _ _ E)].
    + eapply (eqv_trans _ _ E); [apply (add_assoc _ _ E)|].
      apply (add_eqv _ _ E); [apply (eqv_refl _ _ E)|].
      apply (eqv_sym _ _ E), sum_app.
Qed.

End ExactAddition.

(** C3.  For a valid year and month, in any arithmetic, the
    [total_income] of [calculate_monthly_stats] adds the sum of the
    hourly amounts of the month (hours times rate, for every pair of an
    entry dated in the month and an hourly roster row of its client) to
    the sum of the amounts of the invoices dated in the month, and the
    last element of the cumulative-actual series of [show_dashboard] adds
    the sums of the same two kinds for each day in turn.  The amounts of
    the days are those of the month, each once.  So the two figures are
    equal in every arithmetic whose addition may be regrouped and
    reordered. *)
Theorem cumulative_actual_final (today : date) (y m : Z)
  (clients : list (Client A)) (es : list (TimeEntry A))
  (invs : list (Invoice A)) (settings : Settings A)
  (nwd : list NonWorkDay) :
  valid_ym y m ->
  exists stats chart,
    show_dashboard today y m clients es invs settings nwd = Ok (stats, chart)
    /\ calculate_monthly_stats today y m clients es invs settings nwd
       = Ok stats
    /\ total_income stats
       = add A (total_of (income_terms (month_rows y m clients es)))
               (total_of (map inv_amount (month_invoices y m invs)))
    /\ last (actuals chart) (zero A)
       = fold_left
           (fun acc d =>
              accumulate
                (accumulate acc (income_terms (day_rows d clients es)))
                (map inv_amount (day_invoices d invs)))
           (month_dates y m) (zero A)
    /\ Permutation
         (flat_map (fun d => day_rows d clients es) (month_dates y m))
         (month_rows y m clients es)
    /\ Permutation
         (flat_map (fun d => day_invoices d invs) (month_dates y m))
         (month_invoices y m invs)
    /\ (forall eqv : num A -> num A -> Prop,
           exact_addition A eqv ->
           eqv (last (actuals chart) (zero A)) (total_income stats)).
Proof.
  intros Hv.
  rewrite numeric_dashboard_ok, numeric_stats_ok by exact Hv.
  do 2 eexists. split; [reflexivity|]. split; [reflexivity|].
  destruct (numeric_chart_series
              (monthly_stats_value today y m clients es invs settings nwd)
              clients es invs (split "," (work_days settings)) nwd
              (month_dates y m) chart_init) as [_ [_ Ha]].
  cbn zeta in Ha. cbn [chart_init actuals cumulative_actual app] in Ha.
  rewrite Ha, last_scan, run_actual_terms.
  unfold monthly_stats_value. cbn [total_income].
  rewrite hourly_totals_terms, retainer_total_terms.
  fold (month_rows y m clients es).
  split; [reflexivity|]. split; [reflexivity|].
  split; [apply rows_by_day|]. split; [apply invoices_by_day|].
  intros eqv E.
  eapply (eqv_trans _ _ E); [apply (fold_accumulate eqv E)|].
  eapply (eqv_trans _ _ E); [apply (add_zero_l _ _ E)|].
  eapply (eqv_trans _ _ E);
    [apply (sum_perm eqv E), terms_by_day|].
  eapply (eqv_trans _ _ E); [apply (sum_app eqv E)|].
  apply (add_eqv _ _ E); apply (eqv_sym _ _ E), (total_of_eqv eqv E).
Qed.


Section ExactScaling.

Variable eqv : num A -> num A -> Prop.
Hypothesis L : exact_scaling A eqv.

(** Adding [d] [n] times from 0 is the product of [n] and [d]. *)
Lemma iter_add_mul (d : num A) (n : nat) :
  eqv (Nat.iter n (fun t => add A t d) (zero A))
      (mul A (of_int A (Z.of_nat n)) d).
Proof.
  pose proof (scaling_addition _ _ L) as E.
  induction n as [|n IH].
  - cbn [Nat.iter]. apply (eqv_sym _ _ E).
    apply (mul_of_int_zero _ _ L).
  - cbn [Nat.iter]. rewrite Nat2Z.inj_succ, <- Z.add_1_r.
    eapply (eqv_trans _ _ E);
      [|apply (eqv_sym _ _ E), (mul_of_int_succ _ _ L); lia].
    apply (add_eqv _ _ E); [exact IH|apply (eqv_refl _ _ E)].
Qed.

End ExactScaling.

Section MonotoneAddition.

Variable leq : num A -> num A -> Prop.
Hypothesis M : monotone_addition A leq.

Lemma numeric_daily_target_nonneg (today : date) (y m : Z)
  (clients : list (Client A)) (es : list (TimeEntry A))
  (invs : list (Invoice A)) (settings : Settings A)
  (nwd : list NonWorkDay) :
  leq (zero A) (monthly_target settings) ->
  leq (zero A)
      (daily_target
         (monthly_stats_value today y m clients es invs settings nwd)).
Proof.
  intros Hmt. unfold monthly_stats_value. cbn [daily_target].
  set (twd := count _ (month_dates y m)).
  destruct (0 <? twd) eqn:Htwd; [|apply (leq_refl _ _ M)].
  apply (leq_quot _ _ M); [exact Hmt|lia].
Qed.

Lemma numeric_next_target_ge (dt : num A) (wdl : list string)
  (nwd : list NonWorkDay) (d : date) (ct : num A) :
  leq (zero A) dt -> leq ct (next_target dt wdl nwd d ct).
Proof.
  intros Hdt. unfold next_target.
  destruct (is_work_day d wdl nwd); [|apply (leq_refl _ _ M)].
  apply (leq_add _ _ M). exact Hdt.
Qed.

End MonotoneAddition.


End NumericFacts.

(** The rationals are an arithmetic of that kind. *)
Lemma exact_addition_Q : exact_addition exact Qeq.
Proof.
  constructor; cbn [Numeric.num Numeric.add Numeric.zero Numeric.sum exact].
  - intros x. reflexivity.
  - intros x y H. symmetry. exact H.
  - intros x y z H1 H2. rewrite H1. exact H2.
  - intros x x' y y' Hx Hy. rewrite Hx, Hy. reflexivity.
  - intros x y. ring.
  - intros x y z. ring.
  - intros x. ring.
  - rewrite Qsum_nil. reflexivity.
  - intros x l. rewrite Qsum_cons. reflexivity.
Qed.

Lemma exact_scaling_Q : exact_scaling exact Qeq.
Proof.
  constructor;
    cbn [Numeric.num Numeric.add Numeric.mul Numeric.of_int Numeric.zero
         exact].
  - exact exact_addition_Q.
  - intros x. ring.
  - intros n x _. rewrite inject_Z_plus. ring.
Qed.

Lemma monotone_addition_Q : monotone_addition exact Qle.
Proof.
  constructor;
    cbn [Numeric.num Numeric.add Numeric.quot Numeric.of_int Numeric.zero
         exact].
  - intros x. apply Qle_refl.
  - intros x y z. apply Qle_trans.
  - intros t d Hd. rewrite <- (Qplus_0_r t) at 1. apply Qplus_le_r. exact Hd.
  - intros x n Hx Hn. apply Qle_shift_div_l.
    + change 0%Q with (inject_Z 0). rewrite <- Zlt_Qlt. exact Hn.
    + rewrite Qmult_0_l. exact Hx.
Qed.

Lemma cumulative_actual_final_witness :
  exists stats chart,
    Numeric.show_dashboard (mkdate 2024 3 20) 2024 3 [exact_solo]
      exact_solo_entries exact_solo_invoices exact_settings_8000 []
    = Ok (stats, chart)
    /\ last (Numeric.actuals chart) 0%Q == Numeric.total_income stats.
Proof.
  destruct (cumulative_actual_final (mkdate 2024 3 20) 2024 3 [exact_solo]
              exact_solo_entries exact_solo_invoices exact_settings_8000 [])
    as [stats [chart [H1 [_ [_ [_ [_ [_ H2]]]]]]]].
  - split; reflexivity.
  - exists stats, chart. split; [exact H1|].
    exact (H2 Qeq exact_addition_Q).
Defined.

(** In binary64 the last actual value and the total income differ: on
    1 March the loop adds 0.1 and 0.1, on 2 March 0.4, and ends at
    0.6000000000000001; the statistics add 0.1 and 0.4 to 0.5, then 0.1,
    and give 0.6. *)
Lemma cumulative_actual_final_binary64 :
  exists stats chart,
    Numeric.show_dashboard (mkdate 2024 3 20) 2024 3 [solo] solo_entries
      solo_invoices settings_8000 [] = Ok (stats, chart)
    /\ last (Numeric.actuals chart) 0%float = 0.6000000000000001%float
    /\ Numeric.total_income stats = 0.6%float
    /\ PrimFloat.eqb (last (Numeric.actuals chart) 0%float)
                     (Numeric.total_income stats) = false.
Proof.
  do 2 eexists. split; [vm_compute; reflexivity|].
  repeat split; vm_compute; reflexivity.
Qed.


